(** * GeradorCardsLinear: the card generator of [cards_llm.py]

    A shallow embedding of the template store ([load_templates]), the
    prompt builder (the [str.replace] chains of the [generate_*] handlers),
    the LLM client ([_call_llm]), the response extractor
    ([_extract_tag_content]) and the asynchronous task runner
    ([_run_llm_async], its [worker] and [on_done]), of the start-up
    ([main], [load_file], the constructor) and of the timer text,
    together with the properties the specification states about them.

    Text is modelled as a list of characters, a character being a code
    point in 0..255 (Latin-1), with Python's character classes on that
    range. *)

From Stdlib Require Import Ascii String List Bool Arith Lia NArith ZArith.
From Stdlib Require Import DecimalString DecimalN.
From stdpp Require Import base option list gmap strings.
Import ListNotations.

Set Default Proof Using "Type".

(* ================================================================== *)
(** * Part I: definitions                                               *)
(* ================================================================== *)

(** ** Python strings *)

Abbreviation str := (list ascii).

Definition code (c : ascii) : N := N_of_ascii c.

(** The literals of the source are written as Rocq strings, which hold
    UTF-8 bytes: a two-byte sequence is read back as its code point. *)
Fixpoint utf8_decode (bytes : list ascii) : str :=
  match bytes with
  | [] => []
  | b :: rest =>
      match rest with
      | b' :: rest' =>
          if (code b =? 194)%N then b' :: utf8_decode rest'
          else if (code b =? 195)%N then ascii_of_N (code b' + 64) :: utf8_decode rest'
          else b :: utf8_decode rest
      | [] => [b]
      end
  end.

Definition lit (s : string) : str := utf8_decode (list_ascii_of_string s).
Arguments lit : simpl never.

Definition in_range (lo hi : N) (c : ascii) : bool :=
  (lo <=? code c)%N && (code c <=? hi)%N.

(** [str.isspace] on one character, which is also the class [\s] of [re]
    on [str] patterns: TAB..CR, FS..US, SPACE, NEL and NBSP. *)
Definition py_isspace (c : ascii) : bool :=
  in_range 9 13 c || in_range 28 32 c || (code c =? 133)%N || (code c =? 160)%N.

(** The class [\w] of [re] on [str] patterns: alphanumeric characters and
    the underscore. *)
Definition py_isword (c : ascii) : bool :=
  in_range 48 57 c || in_range 65 90 c || in_range 97 122 c || (code c =? 95)%N
  || (code c =? 170)%N || in_range 178 179 c || (code c =? 181)%N
  || in_range 185 186 c || in_range 188 190 c
  || in_range 192 214 c || in_range 216 246 c || in_range 248 255 c.

(** Lower-casing of one character, as [re.IGNORECASE] folds it. *)
Definition py_lower (c : ascii) : ascii :=
  if in_range 65 90 c || in_range 192 214 c || in_range 216 222 c
  then ascii_of_N (code c + 32) else c.

(** [s.lstrip()], [s.rstrip()] and [s.strip()] without argument. *)
Fixpoint lstrip (s : str) : str :=
  match s with
  | c :: s' => if py_isspace c then lstrip s' else s
  | [] => []
  end.

Definition rstrip (s : str) : str := rev (lstrip (rev s)).

Definition strip (s : str) : str := rstrip (lstrip s).

(** Truthiness of a Python string: [if s:] holds for a non-empty one. *)
Definition truthy (s : str) : bool :=
  match s with [] => false | _ :: _ => true end.

(** [s.startswith(p)], returning what follows the prefix. *)
Fixpoint strip_prefix (p s : str) : option str :=
  match p, s with
  | [], _ => Some s
  | a :: p', b :: s' => if Ascii.eqb a b then strip_prefix p' s' else None
  | _ :: _, [] => None
  end.

Definition startswith (p s : str) : bool :=
  match strip_prefix p s with Some _ => true | None => false end.

(** [s.replace(old, new)] for a non-empty [old]: the occurrences of [old]
    are found from left to right and do not overlap.  [skip] counts the
    characters of the occurrence just replaced that are still to be passed
    over. *)
Fixpoint replace_from (old new : str) (skip : nat) (s : str) : str :=
  match s with
  | [] => []
  | c :: s' =>
      match skip with
      | S k => replace_from old new k s'
      | O =>
          if startswith old s
          then new ++ replace_from old new (length old - 1) s'
          else c :: replace_from old new 0 s'
      end
  end.

(** [s.replace(old, new)]; with an empty [old] Python puts [new] before
    every character and at the end. *)
Definition replace (old new s : str) : str :=
  match old with
  | [] => new ++ flat_map (fun c => c :: new) s
  | _ :: _ => replace_from old new 0 s
  end.

(** ** Prompt builder *)

Definition tok_card_modelo : str := lit "{Card_modelo}".
Definition tok_informacoes_usuario : str := lit "{informacoes_fornecidas_pelo_usuario}".
Definition tok_card_para_analise : str := lit "{Card_para_analise}".
Definition tok_informacoes_adicionais : str := lit "{informacoes_adicionais}".

(** [_apply_common_replacements]: [self.additional_info or ""] is the
    attribute itself, a string. *)
Definition _apply_common_replacements (additional_info prompt : str) : str :=
  replace tok_informacoes_adicionais additional_info prompt.

(** The three replace steps of a [generate_*] handler: the template for
    [{Card_modelo}], the user's text for the handler's own token, then the
    common replacements. *)
Definition build_prompt (user_tok skeleton template user_text additional_info : str) : str :=
  let prompt := replace tok_card_modelo template skeleton in
  let prompt := replace user_tok user_text prompt in
  _apply_common_replacements additional_info prompt.

(** A chain of replace steps applied one after the other, in list order. *)
Definition replace_chain (steps : list (str * str)) (s : str) : str :=
  fold_left (fun acc b => replace (fst b) (snd b) acc) steps s.

(** The substitution the specification describes, in a single pass: at
    each position the first placeholder of [bs] that starts there is
    replaced by its value, and the scan resumes after the placeholder;
    inserted values are not scanned. *)
Fixpoint single_pass_from (bs : list (str * str)) (skip : nat) (s : str) : str :=
  match s with
  | [] => []
  | c :: s' =>
      match skip with
      | S k => single_pass_from bs k s'
      | O =>
          match find (fun b => truthy (fst b) && startswith (fst b) s) bs with
          | Some b => snd b ++ single_pass_from bs (length (fst b) - 1) s'
          | None => c :: single_pass_from bs 0 s'
          end
      end
  end.

Definition single_pass (bs : list (str * str)) (s : str) : str :=
  single_pass_from bs 0 s.

(** A skeleton seen as pieces: text without an opening brace, and
    placeholders [{name}]. *)
Inductive piece :=
| Text (t : str)
| Hole (name : str).

Definition brace_open : ascii := "{"%char.
Definition brace_close : ascii := "}"%char.

Definition hole_token (name : str) : str := brace_open :: name ++ [brace_close].

Definition render_piece (p : piece) : str :=
  match p with
  | Text t => t
  | Hole name => hole_token name
  end.

Definition render (ps : list piece) : str := flat_map render_piece ps.

Definition no_open (t : str) : Prop := Forall (fun c => c <> brace_open) t.
Definition no_brace (t : str) : Prop :=
  Forall (fun c => c <> brace_open /\ c <> brace_close) t.

Definition piece_ok (p : piece) : Prop :=
  match p with
  | Text t => no_open t
  | Hole name => no_brace name
  end.

(** The bindings of a handler: placeholder names with their values. *)
Definition binding_ok (b : str * str) : Prop := no_brace (fst b) /\ no_open (snd b).

Definition binding_steps (bs : list (str * str)) : list (str * str) :=
  map (fun b => (hole_token (fst b), snd b)) bs.

Fixpoint lookup_binding (bs : list (str * str)) (name : str) : option str :=
  match bs with
  | [] => None
  | b :: bs' => if decide (fst b = name) then Some (snd b) else lookup_binding bs' name
  end.

Definition fill_piece (bs : list (str * str)) (p : piece) : piece :=
  match p with
  | Text t => Text t
  | Hole name =>
      match lookup_binding bs name with
      | Some v => Text v
      | None => Hole name
      end
  end.

(** A skeleton in pieces, with values for its placeholders. *)
Definition example_skeleton : list piece :=
  [Text (lit "Modelo: "); Hole (lit "Card_modelo"); Text (lit " Dados: ");
   Hole (lit "informacoes_fornecidas_pelo_usuario"); Text (lit " Projeto: ");
   Hole (lit "informacoes_adicionais")].
Definition example_user_name : str := lit "informacoes_fornecidas_pelo_usuario".
Definition example_template : str := lit "Titulo: ... Passos: ...".
Definition example_user_text : str := lit "Login falha ao repetir".
Definition example_project : str := lit "".

(** ** Exceptions and results *)

Inductive exn_class :=
| FileNotFoundError | ValueError | RuntimeError | KeyError | IndexError
| TypeError | AttributeError | RequestException | JSONDecodeError
| OtherException (name : str).    (* any other subclass of [Exception] *)

(** An exception: its class and [str(exc)]. *)
Record exn := Exn { exn_class_of : exn_class; exn_str : str }.

Inductive result (A : Type) :=
| Ok (a : A)
| Raise (e : exn).
Arguments Ok {A} a.
Arguments Raise {A} e.

(** ** The fragment of [re] the source uses

    A pattern is a sequence of nodes; the matcher backtracks as [re]
    does: a greedy repetition tries the longest run first, a lazy one the
    shortest, and the first alternative that lets the rest of the pattern
    match is the answer. *)

Inductive node :=
| NChar (c : ascii)                  (* a literal character *)
| NAny                               (* [.] under [re.DOTALL] *)
| NStar (cls : ascii -> bool)        (* greedy [cls*], as in [\s*] *)
| NGroupPlus (cls : ascii -> bool)   (* capturing, greedy [(cls+)], as in [(\w+)] *)
| NGroupLazy                         (* capturing, lazy [(.*?)] under [re.DOTALL] *)
| NBackref (i : nat).                (* [\i], groups numbered from 1 *)

(** A successful match: the captured groups in order, and the text left
    after the match. *)
Abbreviation matched := (list str * str)%type.

Definition or_else {A} (x y : option A) : option A :=
  match x with Some _ => x | None => y end.

(** A pattern character against a text character; [re.IGNORECASE]
    compares the lower-cased characters.  This is [re] on the code
    points 0..255 of the model; on larger code points [re] has further
    pairs (dotless and dotted [I] with [i], long [s] with [s], the Kelvin
    sign with [k]), which no text of the model holds. *)
Definition char_matches (icase : bool) (c d : ascii) : bool :=
  if icase then Ascii.eqb (py_lower c) (py_lower d) else Ascii.eqb c d.

(** A back-reference: the captured text must follow, character by
    character. *)
Fixpoint match_text (icase : bool) (w s : str) : option str :=
  match w, s with
  | [], _ => Some s
  | c :: w', d :: s' => if char_matches icase c d then match_text icase w' s' else None
  | _ :: _, [] => None
  end.

Fixpoint star_greedy {A} (cls : ascii -> bool) (k : str -> option A) (s : str) : option A :=
  match s with
  | d :: s' => if cls d then or_else (star_greedy cls k s') (k s) else k s
  | [] => k []
  end.

(** The run [acc] captured so far is extended as far as possible first. *)
Fixpoint plus_greedy {A} (cls : ascii -> bool) (k : str -> str -> option A)
    (acc s : str) : option A :=
  match s with
  | d :: s' =>
      if cls d
      then or_else (plus_greedy cls k (acc ++ [d]) s')
                   (if truthy acc then k acc s else None)
      else if truthy acc then k acc s else None
  | [] => if truthy acc then k acc [] else None
  end.

Fixpoint lazy_any {A} (k : str -> str -> option A) (acc s : str) : option A :=
  match k acc s with
  | Some r => Some r
  | None =>
      match s with
      | d :: s' => lazy_any k (acc ++ [d]) s'
      | [] => None
      end
  end.

(** [run icase p caps s]: the pattern [p] matched at the head of [s], the
    groups [caps] being already captured. *)
Fixpoint run (icase : bool) (p : list node) (caps : list str) (s : str) : option matched :=
  match p with
  | [] => Some (caps, s)
  | n :: p' =>
      match n with
      | NChar c =>
          match s with
          | d :: s' => if char_matches icase c d then run icase p' caps s' else None
          | [] => None
          end
      | NAny =>
          match s with
          | _ :: s' => run icase p' caps s'
          | [] => None
          end
      | NStar cls => star_greedy cls (run icase p' caps) s
      | NGroupPlus cls => plus_greedy cls (fun w s' => run icase p' (caps ++ [w]) s') [] s
      | NGroupLazy => lazy_any (fun w s' => run icase p' (caps ++ [w]) s') [] s
      | NBackref i =>
          match caps !! (i - 1) with
          | Some w =>
              match match_text icase w s with
              | Some s' => run icase p' caps s'
              | None => None
              end
          | None => None
          end
      end
  end.

(** [match.group(i)] for a group that took part in the match. *)
Definition group (i : nat) (caps : list str) : str := default [] (caps !! (i - 1)).

(** [re.search]: the match at the leftmost position that has one. *)
Fixpoint search (icase : bool) (p : list node) (s : str) : option matched :=
  match run icase p [] s with
  | Some m => Some m
  | None =>
      match s with
      | _ :: s' => search icase p s'
      | [] => None
      end
  end.

(** [pattern.finditer]: the successive matches from left to right, each
    search starting where the previous match ended.  [skip] counts the
    characters of the last match still to be passed over.  (The patterns
    of the source match no empty text, so the rules of [re] for empty
    matches do not arise.) *)
Fixpoint finditer_from (icase : bool) (p : list node) (skip : nat) (s : str)
    : list (list str) :=
  match s with
  | [] => []
  | _ :: s' =>
      match skip with
      | S k => finditer_from icase p k s'
      | O =>
          match run icase p [] s with
          | Some (caps, rest) =>
              caps :: finditer_from icase p (length s - length rest - 1) s'
          | None => finditer_from icase p 0 s'
          end
      end
  end.

Definition finditer (icase : bool) (p : list node) (s : str) : list (list str) :=
  finditer_from icase p 0 s.

(** ** Template store *)

(** [re.compile(r"<(\w+)>(.*?)</\1>", re.DOTALL)] *)
Definition template_pattern : list node :=
  [NChar "<"; NGroupPlus py_isword; NChar ">"; NGroupLazy;
   NChar "<"; NChar "/"; NBackref 1; NChar ">"].

Definition templates_not_found : exn :=
  Exn ValueError
    (lit "Nenhum template encontrado em templates.txt. Verifique se as tags <tipo>...</tipo> estão corretas.").

(** The loop of [load_templates] over the matches. *)
Definition add_template (templates : gmap str str) (caps : list str) : gmap str str :=
  let tag_name := strip (group 1 caps) in
  let content := strip (group 2 caps) in
  if truthy tag_name then <[tag_name := content]> templates else templates.

(** [load_templates(path)]: [file] is the text of the file at [path], or
    [None] when there is no such file. *)
Definition load_templates (path : str) (file : option str) : result (gmap str str) :=
  match file with
  | None => Raise (Exn FileNotFoundError (lit "Arquivo de templates não encontrado: " ++ path))
  | Some text =>
      let templates := fold_left add_template (finditer false template_pattern text) ∅ in
      if decide (templates = ∅) then Raise templates_not_found else Ok templates
  end.

(** ** Response extractor *)

(** The characters with a meaning of their own in a pattern. *)
Definition re_special (c : ascii) : bool :=
  bool_decide (c ∈ list_ascii_of_string "\^$.|?*+()[]{}").

(** The tag name is spliced into the pattern text: its characters are
    read as pattern.  A dot is [.]; the other special characters are not
    modelled ([None]). *)
Definition tag_node (c : ascii) : option node :=
  if Ascii.eqb c "." then Some NAny
  else if re_special c then None
  else Some (NChar c).

Definition tag_nodes (tag_name : str) : option (list node) := mapM tag_node tag_name.

(** [rf"<\s*{tag_name}\s*>(.*?)</\s*{tag_name}\s*>"] *)
Definition extract_pattern (t : list node) : list node :=
  [NChar "<"; NStar py_isspace] ++ t ++ [NStar py_isspace; NChar ">"; NGroupLazy;
   NChar "<"; NChar "/"; NStar py_isspace] ++ t ++ [NStar py_isspace; NChar ">"].

(** [_extract_tag_content(text, tag_name)], with [re.DOTALL | re.IGNORECASE];
    [None] for a tag name outside the modelled patterns. *)
Definition _extract_tag_content (text tag_name : str) : option str :=
  t ← tag_nodes tag_name;
  Some match search true (extract_pattern t) text with
       | Some (caps, _) => strip (group 1 caps)
       | None => strip text
       end.

(** ** The blocks of a template resource, as the specification describes them *)

Definition closing_tag (name : str) : str :=
  "<"%char :: "/"%char :: name ++ [">"%char].

(** [<name>inner</name>] *)
Definition template_block (name inner : str) : str :=
  "<"%char :: name ++ ">"%char :: inner ++ closing_tag name.

(** A tag name: one word character or more. *)
Definition word_name (name : str) : Prop :=
  name <> [] /\ Forall (fun c => py_isword c = true) name.

(** Non-greedy: [</name>] begins nowhere inside [inner]. *)
Definition first_closing (name inner : str) : Prop :=
  forall i1 i2, inner = i1 ++ i2 -> i2 <> [] ->
    startswith (closing_tag name) (i2 ++ closing_tag name) = false.

(** Some block begins at the head of [s]. *)
Definition block_starts (s : str) : Prop :=
  exists name inner rest, word_name name /\ s = template_block name inner ++ rest.

(** The blocks of a text, read from left to right: each block is the
    leftmost one that begins after the previous block ended. *)
Inductive blocks_of : str -> list (str * str) -> Prop :=
| blocks_none (s : str) :
    (forall pre post, s = pre ++ post -> ~ block_starts post) ->
    blocks_of s []
| blocks_next (pre name inner rest : str) (bl : list (str * str)) :
    (forall p1 p2, pre = p1 ++ p2 -> p2 <> [] ->
       ~ block_starts (p2 ++ template_block name inner ++ rest)) ->
    word_name name ->
    first_closing name inner ->
    blocks_of rest bl ->
    blocks_of (pre ++ template_block name inner ++ rest) ((name, inner) :: bl).

(** The trimmed content of the last block named [k]. *)
Fixpoint last_block (k : str) (bl : list (str * str)) : option str :=
  match bl with
  | [] => None
  | b :: bl' =>
      match last_block k bl' with
      | Some v => Some v
      | None => if decide (strip (fst b) = k) then Some (strip (snd b)) else None
      end
  end.

(** ** The occurrences of a tag in a reply, as the specification describes them *)

Definition spaces (w : str) : Prop := Forall (fun c => py_isspace c = true) w.

(** The same name up to the case of the letters. *)
Definition same_name (tag_name t : str) : Prop :=
  Forall2 (fun c d => py_lower c = py_lower d) tag_name t.

(** [< name >], with optional white space around the name. *)
Definition is_open_tag (tag_name o : str) : Prop :=
  exists w1 t w2, spaces w1 /\ same_name tag_name t /\ spaces w2 /\
    o = "<"%char :: w1 ++ t ++ w2 ++ [">"%char].

(** [</ name >] *)
Definition is_close_tag (tag_name c : str) : Prop :=
  exists w1 t w2, spaces w1 /\ same_name tag_name t /\ spaces w2 /\
    c = "<"%char :: "/"%char :: w1 ++ t ++ w2 ++ [">"%char].

Definition close_starts (tag_name s : str) : Prop :=
  exists c rest, is_close_tag tag_name c /\ s = c ++ rest.

(** An opening tag at the head of [s], with a closing tag after it. *)
Definition occurrence_starts (tag_name s : str) : Prop :=
  exists o inner c rest, is_open_tag tag_name o /\ is_close_tag tag_name c /\
    s = o ++ inner ++ c ++ rest.

(** [inner] is the content of the first occurrence of the tag in [text]:
    no occurrence begins further left, and the closing tag is the first
    one after the opening tag. *)
Definition first_occurrence (tag_name text inner : str) : Prop :=
  exists pre o c rest,
    text = pre ++ o ++ inner ++ c ++ rest /\
    is_open_tag tag_name o /\ is_close_tag tag_name c /\
    (forall p1 p2, pre = p1 ++ p2 -> p2 <> [] ->
       ~ occurrence_starts tag_name (p2 ++ o ++ inner ++ c ++ rest)) /\
    (forall i1 i2, inner = i1 ++ i2 -> i2 <> [] ->
       ~ close_starts tag_name (i2 ++ c ++ rest)).

Definition no_occurrence (tag_name text : str) : Prop :=
  forall pre post, text = pre ++ post -> ~ occurrence_starts tag_name post.

(** A tag name whose characters stand for themselves in the pattern and
    are no white space. *)
Definition plain_name (tag_name : str) : Prop :=
  Forall (fun c => re_special c = false /\ py_isspace c = false) tag_name.

(** The run of [cls] characters at the head of a text, and what follows it. *)
Fixpoint run_of (cls : ascii -> bool) (s : str) : str :=
  match s with
  | d :: s' => if cls d then d :: run_of cls s' else []
  | [] => []
  end.

Fixpoint after_run (cls : ascii -> bool) (s : str) : str :=
  match s with
  | d :: s' => if cls d then after_run cls s' else s
  | [] => []
  end.

Definition no_space_name (tag_name : str) : Prop :=
  Forall (fun c => py_isspace c = false) tag_name.

(** The tags of the extractor, read without backtracking.  What follows
    [ name >] at the head of [s]: *)
Definition name_rest (tag_name s : str) : option str :=
  match match_text true tag_name (after_run py_isspace s) with
  | Some s2 =>
      match after_run py_isspace s2 with
      | d :: s3 => if Ascii.eqb ">" d then Some s3 else None
      | [] => None
      end
  | None => None
  end.

(** what follows an opening tag at the head of [s], *)
Definition open_rest (tag_name s : str) : option str :=
  match s with
  | d :: s1 => if Ascii.eqb "<" d then name_rest tag_name s1 else None
  | [] => None
  end.

(** and what follows a closing tag. *)
Definition close_rest (tag_name s : str) : option str :=
  match s with
  | d :: d' :: s1 =>
      if Ascii.eqb "<" d && Ascii.eqb "/" d' then name_rest tag_name s1 else None
  | _ => None
  end.

(** An occurrence at the head of [s]: the content runs to the first
    closing tag. *)
Definition occurrence_at (tag_name s : str) : option matched :=
  match open_rest tag_name s with
  | Some s1 => lazy_any (fun w s2 => (fun rest => ([w], rest)) <$> close_rest tag_name s2) [] s1
  | None => None
  end.

(** The leftmost occurrence. *)
Fixpoint find_occurrence (tag_name s : str) : option matched :=
  match occurrence_at tag_name s with
  | Some m => Some m
  | None =>
      match s with
      | _ :: s' => find_occurrence tag_name s'
      | [] => None
      end
  end.

(** The template pattern at the head of [s], read without backtracking:
    the name is the whole run of word characters after [<], and the
    content ends at the first [</name>]. *)
Definition closing_rest (name w s : str) : option matched :=
  (fun rest => ([name; w], rest)) <$> strip_prefix (closing_tag name) s.

Definition block_at (s : str) : option matched :=
  match s with
  | d :: s1 =>
      if Ascii.eqb "<" d then
        let name := run_of py_isword s1 in
        if truthy name then
          match after_run py_isword s1 with
          | d' :: s3 =>
              if Ascii.eqb ">" d' then lazy_any (closing_rest name) [] s3 else None
          | [] => None
          end
        else None
      else None
  | [] => None
  end.

(** The name and the content of a match of the template pattern. *)
Definition block_of_match (caps : list str) : str * str := (group 1 caps, group 2 caps).

(** A reply that wraps its answer in the tag, in capitals and with white
    space inside the angle brackets. *)
Definition example_raw : str :=
  lit "Segue o card: < CARD > Bug: login fails </card > Fim.".

(** ** LLM client *)

(** What [response.json()] returns. *)
#[warnings="-register-all"] Inductive json :=
| JNull
| JBool (b : bool)
| JInt (n : Z)
| JFloat (repr : str)
| JString (s : str)
| JArray (items : list json)
| JObject (fields : list (str * json)).

Definition py_type_name (v : json) : str :=
  match v with
  | JNull => lit "NoneType"
  | JBool _ => lit "bool"
  | JInt _ => lit "int"
  | JFloat _ => lit "float"
  | JString _ => lit "str"
  | JArray _ => lit "list"
  | JObject _ => lit "dict"
  end.

Definition not_subscriptable (v : json) : exn :=
  Exn TypeError (lit "'" ++ py_type_name v ++ lit "' object is not subscriptable").

Fixpoint dict_get (key : str) (fields : list (str * json)) : option json :=
  match fields with
  | [] => None
  | (k, v) :: fields' => if decide (k = key) then Some v else dict_get key fields'
  end.

(** [v[key]] for a string [key]. *)
Definition getitem_key (v : json) (key : str) : result json :=
  match v with
  | JObject fields =>
      match dict_get key fields with
      | Some x => Ok x
      | None => Raise (Exn KeyError (lit "'" ++ key ++ lit "'"))
      end
  | JArray _ => Raise (Exn TypeError (lit "list indices must be integers or slices, not str"))
  | JString _ => Raise (Exn TypeError (lit "string indices must be integers, not 'str'"))
  | _ => Raise (not_subscriptable v)
  end.

(** [v[0]]; the keys of a decoded JSON object are strings, so [0] is
    never one of them. *)
Definition getitem_0 (v : json) : result json :=
  match v with
  | JArray (x :: _) => Ok x
  | JArray [] => Raise (Exn IndexError (lit "list index out of range"))
  | JObject _ => Raise (Exn KeyError (lit "0"))
  | JString (c :: _) => Ok (JString [c])
  | JString [] => Raise (Exn IndexError (lit "string index out of range"))
  | _ => Raise (not_subscriptable v)
  end.

(** [v.strip()] *)
Definition call_strip (v : json) : result str :=
  match v with
  | JString s => Ok (strip s)
  | _ => Raise (Exn AttributeError
                  (lit "'" ++ py_type_name v ++ lit "' object has no attribute 'strip'"))
  end.

Definition bind_result {A B} (x : result A) (f : A -> result B) : result B :=
  match x with
  | Ok a => f a
  | Raise e => Raise e
  end.

Notation "x ←! y ; z" := (bind_result y (fun x => z))
  (at level 20, y at level 100, z at level 200, only parsing).

(** The two variables of the environment that may hold the key. *)
Record environ := Environ {
  OPENROUTER_API_KEY : option str;
  API_KEY : option str
}.

(** [a or b] on two results of [os.getenv]. *)
Definition py_or (a b : option str) : option str :=
  match a with
  | Some (_ :: _) => a
  | _ => b
  end.

(** The request [requests.post] sends. *)
Record request := Request {
  req_url : str;
  req_model : str;
  req_content : str;
  req_authorization : str;
  req_timeout : nat
}.

(** What the network does with a request: [requests.post] raises,
    [raise_for_status] raises, [response.json()] raises, or the decoded
    body. *)
Inductive http_outcome :=
| PostRaises (msg : str)
| StatusRaises (msg : str)
| JsonRaises (msg : str)
| Body (data : json).

Definition missing_key : exn :=
  Exn RuntimeError
    (lit "Chave de API do OpenRouter não configurada. Defina OPENROUTER_API_KEY ou API_KEY no arquivo .env.").

Definition invalid_response : exn :=
  Exn RuntimeError (lit "Resposta inválida do modelo OpenRouter.").

(** [data["choices"][0]["message"]["content"]] under
    [except (KeyError, IndexError)]. *)
Definition response_content (data : json) : result json :=
  match (choices ←! getitem_key data (lit "choices");
         first ←! getitem_0 choices;
         message ←! getitem_key first (lit "message");
         getitem_key message (lit "content")) with
  | Ok text => Ok text
  | Raise e =>
      match exn_class_of e with
      | KeyError | IndexError => Raise invalid_response
      | _ => Raise e
      end
  end.

(** The POST to the chat-completion endpoint: the JSON body holds the
    model and one user message, the header the bearer token, and the
    timeout is 60 seconds. *)
Definition llm_request (api_key prompt model_name : str) : request :=
  Request (lit "https://openrouter.ai/api/v1/chat/completions")
    model_name prompt (lit "Bearer " ++ api_key) 60.

(** [_call_llm(prompt, model_name)]: the requests sent, and the text
    returned or the exception raised. *)
Definition _call_llm (env : environ) (net : request -> http_outcome)
    (prompt model_name : str) : list request * result str :=
  match py_or (OPENROUTER_API_KEY env) (API_KEY env) with
  | Some (c :: k) =>
      let req := llm_request (c :: k) prompt model_name in
      ([req],
       match net req with
       | PostRaises msg => Raise (Exn RequestException msg)
       | StatusRaises msg => Raise (Exn RequestException msg)
       | JsonRaises msg => Raise (Exn JSONDecodeError msg)
       | Body data => text ←! response_content data; call_strip text
       end)
  | _ => ([], Raise missing_key)
  end.

(** ** The application *)

Inductive widget := output_text_info | output_text_create | output_text_analyse.

Inductive dialog_kind := showinfo | showwarning | showerror.

(** A message box, with its title and message. *)
Record dialog := Dialog {
  dialog_kind_of : dialog_kind;
  dialog_title : str;
  dialog_message : str
}.

(** What the constructor receives and loads; never assigned again. *)
Record config := Config {
  templates : gmap str str;
  validation_model : str;
  creation_model : str;
  analisys_model : str;
  creation_prompt : str;
  analisys_prompt : str;
  info_validation_prompt : str
}.

(** What the user sets: the project information, the three selections
    and the three input areas. *)
Record inputs := Inputs {
  additional_info : str;
  card_type_info_var : str;
  card_type_var : str;
  card_type_analyse_var : str;
  user_info_validation_text : str;
  user_input_text : str;
  card_to_analyse_text : str
}.

(** The contents of the three output areas. *)
Record outputs := Outputs {
  out_info : str;
  out_create : str;
  out_analyse : str
}.

(** The arguments a worker thread closes over. *)
Record task := Task {
  task_prompt : str;
  task_model : str;
  task_tag : str;
  task_widget : widget
}.

(** What [on_done] closes over. *)
Record completion := Completion {
  done_error : option str;
  done_clean : str;
  done_widget : widget
}.

Record CardPromptApp := App {
  cfg : config;
  inp : inputs;
  _llm_running : bool;
  out : outputs;
  status_var : str;
  buttons_enabled : bool;       (* the three generate buttons: normal or disabled *)
  timer_running : bool;
  progress_running : bool;
  clipboard : str;
  dialogs : list dialog;        (* the message boxes shown so far *)
  threads : list task;          (* the worker threads started and not yet finished *)
  after_queue : list completion (* the callbacks scheduled with [self.after(0, ...)] *)
}.

Definition show (d : dialog) (a : CardPromptApp) : CardPromptApp :=
  App (cfg a) (inp a) (_llm_running a) (out a) (status_var a) (buttons_enabled a)
      (timer_running a) (progress_running a) (clipboard a) (dialogs a ++ [d])
      (threads a) (after_queue a).

Definition set_inp (i : inputs) (a : CardPromptApp) : CardPromptApp :=
  App (cfg a) i (_llm_running a) (out a) (status_var a) (buttons_enabled a)
      (timer_running a) (progress_running a) (clipboard a) (dialogs a)
      (threads a) (after_queue a).

Definition set_llm_running (b : bool) (a : CardPromptApp) : CardPromptApp :=
  App (cfg a) (inp a) b (out a) (status_var a) (buttons_enabled a)
      (timer_running a) (progress_running a) (clipboard a) (dialogs a)
      (threads a) (after_queue a).

Definition set_out (o : outputs) (a : CardPromptApp) : CardPromptApp :=
  App (cfg a) (inp a) (_llm_running a) o (status_var a) (buttons_enabled a)
      (timer_running a) (progress_running a) (clipboard a) (dialogs a)
      (threads a) (after_queue a).

Definition set_clipboard (s : str) (a : CardPromptApp) : CardPromptApp :=
  App (cfg a) (inp a) (_llm_running a) (out a) (status_var a) (buttons_enabled a)
      (timer_running a) (progress_running a) s (dialogs a)
      (threads a) (after_queue a).

Definition set_threads (ts : list task) (a : CardPromptApp) : CardPromptApp :=
  App (cfg a) (inp a) (_llm_running a) (out a) (status_var a) (buttons_enabled a)
      (timer_running a) (progress_running a) (clipboard a) (dialogs a)
      ts (after_queue a).

Definition set_after_queue (q : list completion) (a : CardPromptApp) : CardPromptApp :=
  App (cfg a) (inp a) (_llm_running a) (out a) (status_var a) (buttons_enabled a)
      (timer_running a) (progress_running a) (clipboard a) (dialogs a)
      (threads a) q.

(** A [tk.Text]: [get("1.0", tk.END)] returns the content and the final
    newline of the widget; [delete("1.0", tk.END)] empties it;
    [insert("1.0", s)] puts [s] at its start. *)
Definition text_get (content : str) : str := content ++ lit "
".
Definition text_delete (content : str) : str := [].
Definition text_insert (s content : str) : str := s ++ content.

Definition output_of (w : widget) (o : outputs) : str :=
  match w with
  | output_text_info => out_info o
  | output_text_create => out_create o
  | output_text_analyse => out_analyse o
  end.

Definition with_output (w : widget) (s : str) (o : outputs) : outputs :=
  match w with
  | output_text_info => Outputs s (out_create o) (out_analyse o)
  | output_text_create => Outputs (out_info o) s (out_analyse o)
  | output_text_analyse => Outputs (out_info o) (out_create o) s
  end.

(** An edit of one output area. *)
Definition edit_output (w : widget) (f : str -> str) (a : CardPromptApp) : CardPromptApp :=
  set_out (with_output w (f (output_of w (out a))) (out a)) a.

(** [_get_template_for_type] *)
Definition _get_template_for_type (a : CardPromptApp) (card_type : str) : option str :=
  let card_type := strip card_type in
  if truthy card_type then templates (cfg a) !! card_type else None.

(** [_set_busy(busy, message)]: the status line, the three generate
    buttons, the timer and the progress bar. *)
Definition _set_busy (busy : bool) (message : option str) (a : CardPromptApp) : CardPromptApp :=
  App (cfg a) (inp a) (_llm_running a) (out a)
      (match message with Some m => m | None => status_var a end)
      (negb busy) busy busy (clipboard a) (dialogs a) (threads a) (after_queue a).

Definition busy_notice : dialog :=
  Dialog showinfo (lit "Aguarde")
    (lit "Já existe uma chamada ao LLM em andamento. Aguarde a finalização.").

(** [_run_llm_async], up to the start of the worker thread. *)
Definition _run_llm_async (prompt model_name tag_name : str) (output_widget : widget)
    (busy_message : str) (a : CardPromptApp) : CardPromptApp :=
  if _llm_running a then show busy_notice a
  else
    let a := edit_output output_widget text_delete a in
    let a := set_llm_running true a in
    let a := _set_busy true (Some busy_message) a in
    set_threads (threads a ++ [Task prompt model_name tag_name output_widget]) a.

(** The body of [worker], up to [self.after(0, on_done)]: the requests it
    sends and the closure it schedules.  [None] stands for a tag name
    outside the modelled patterns. *)
Definition worker (env : environ) (net : request -> http_outcome) (t : task)
    : list request * option completion :=
  match _call_llm env net (task_prompt t) (task_model t) with
  | (reqs, Ok llm_raw) =>
      (reqs,
       match _extract_tag_content llm_raw (task_tag t) with
       | Some llm_clean => Some (Completion None llm_clean (task_widget t))
       | None => None
       end)
  | (reqs, Raise exc) => (reqs, Some (Completion (Some (exn_str exc)) [] (task_widget t)))
  end.

(** [if error:] on a [str | None]. *)
Definition error_set (error : option str) : bool :=
  match error with
  | Some (_ :: _) => true
  | _ => false
  end.

(** [on_done] *)
Definition on_done (c : completion) (a : CardPromptApp) : CardPromptApp :=
  let a :=
    if error_set (done_error c)
    then show (Dialog showerror (lit "Erro ao chamar LLM") (default [] (done_error c))) a
    else
      let a := edit_output (done_widget c) text_delete a in
      edit_output (done_widget c) (text_insert (done_clean c)) a in
  let a := _set_busy false (Some (lit "Pronto.")) a in
  set_llm_running false a.

(** The part the three [generate_*] handlers share: the selection and
    the template are checked, the prompt is built and submitted. *)
Definition generate (card_type skeleton user_tok user_text model_name tag_name : str)
    (output_widget : widget) (busy_message : str) (a : CardPromptApp) : CardPromptApp :=
  let card_type := strip card_type in
  if negb (truthy card_type) then
    show (Dialog showwarning (lit "Tipo não selecionado")
            (lit "Selecione um tipo de card na lista.")) a
  else
    match _get_template_for_type a card_type with
    | Some (c :: t) =>
        let template := c :: t in
        let user_info := strip (text_get user_text) in
        let prompt :=
          build_prompt user_tok skeleton template user_info (additional_info (inp a)) in
        _run_llm_async prompt model_name tag_name output_widget busy_message a
    | _ =>
        show (Dialog showerror (lit "Template não encontrado")
                (lit "Não foi possível encontrar o template para o tipo: " ++ card_type)) a
    end.

Definition generate_creation_prompt (a : CardPromptApp) : CardPromptApp :=
  generate (card_type_var (inp a)) (creation_prompt (cfg a))
    tok_informacoes_usuario (user_input_text (inp a))
    (creation_model (cfg a)) (lit "card") output_text_create
    (lit "Gerando card com o LLM...") a.

Definition generate_info_validation_prompt (a : CardPromptApp) : CardPromptApp :=
  generate (card_type_info_var (inp a)) (info_validation_prompt (cfg a))
    tok_informacoes_usuario (user_info_validation_text (inp a))
    (validation_model (cfg a)) (lit "info_validacao") output_text_info
    (lit "Analisando informações com o LLM...") a.

Definition generate_analisys_prompt (a : CardPromptApp) : CardPromptApp :=
  generate (card_type_analyse_var (inp a)) (analisys_prompt (cfg a))
    tok_card_para_analise (card_to_analyse_text (inp a))
    (analisys_model (cfg a)) (lit "analise") output_text_analyse
    (lit "Analisando card com o LLM...") a.

(** [_copy_to_clipboard] *)
Definition _copy_to_clipboard (text_widget : widget) (titulo : str) (a : CardPromptApp) : CardPromptApp :=
  let prompt := strip (text_get (output_of text_widget (out a))) in
  if negb (truthy prompt) then
    show (Dialog showinfo (lit "Nada para copiar")
            (lit "Gere um resultado com o LLM antes de copiar para a área de transferência.")) a
  else
    let a := set_clipboard prompt a in
    show (Dialog showinfo (lit "Copiado")
            (titulo ++ lit " copiado para a área de transferência.")) a.

Definition copy_prompt_create : CardPromptApp -> CardPromptApp :=
  _copy_to_clipboard output_text_create (lit "Card").
Definition copy_prompt_analyse : CardPromptApp -> CardPromptApp :=
  _copy_to_clipboard output_text_analyse (lit "Análise do card").
Definition copy_prompt_info : CardPromptApp -> CardPromptApp :=
  _copy_to_clipboard output_text_info (lit "Análise de informações").

(** [load_additional_info]: [choice] is [None] when the file dialog is
    cancelled, and otherwise what reading the chosen file gave.  (The
    label that shows the file name is not part of the model.) *)
Definition load_additional_info (choice : option (result str)) (a : CardPromptApp)
    : CardPromptApp :=
  match choice with
  | None => a
  | Some (Ok content) =>
      let i := inp a in
      set_inp (Inputs (strip content) (card_type_info_var i) (card_type_var i)
                 (card_type_analyse_var i) (user_info_validation_text i)
                 (user_input_text i) (card_to_analyse_text i)) a
  | Some (Raise exc) =>
      show (Dialog showerror (lit "Erro ao carregar arquivo de informações de projeto")
              (exn_str exc)) a
  end.

(** ** The event loop *)

(** Python's order on strings: lexicographic on the code points. *)
Fixpoint str_ltb (s t : str) : bool :=
  match s, t with
  | _, [] => false
  | [], _ :: _ => true
  | c :: s', d :: t' =>
      if (code c <? code d)%N then true
      else if (code d <? code c)%N then false
      else str_ltb s' t'
  end.

(** [sorted(self.templates.keys())[0]], the selection a combobox starts
    with; empty when there is no template. *)
Definition first_card_type (templates : gmap str str) : str :=
  match (map_to_list templates).*1 with
  | [] => []
  | k :: ks => foldr (fun x m => if str_ltb x m then x else m) k ks
  end.

(** The application when [__init__] returns. *)
Definition initial (c : config) (clipboard0 : str) : CardPromptApp :=
  let first := first_card_type (templates c) in
  App c (Inputs [] first first first [] [] []) false (Outputs [] [] [])
      (lit "Pronto.") true false false clipboard0 [] [] [].

(** What the user does.  A handler may run in any state: the model does
    not rely on the generate buttons being disabled during a call. *)
Inductive event :=
| click_generate_info_button
| click_generate_button
| click_generate_analisys_button
| click_copy_button_info
| click_copy_button_create
| click_copy_button_analyse
| click_load_button (choice : option (result str))
| user_selects (card_type_info card_type card_type_analyse : str)
| user_types (user_info_validation user_input card_to_analyse : str)
| user_types_output (w : widget) (s : str).

Definition handle (e : event) (a : CardPromptApp) : CardPromptApp :=
  match e with
  | click_generate_info_button => generate_info_validation_prompt a
  | click_generate_button => generate_creation_prompt a
  | click_generate_analisys_button => generate_analisys_prompt a
  | click_copy_button_info => copy_prompt_info a
  | click_copy_button_create => copy_prompt_create a
  | click_copy_button_analyse => copy_prompt_analyse a
  | click_load_button choice => load_additional_info choice a
  | user_selects ci c ca =>
      let i := inp a in
      set_inp (Inputs (additional_info i) ci c ca (user_info_validation_text i)
                 (user_input_text i) (card_to_analyse_text i)) a
  | user_types ui u ca =>
      let i := inp a in
      set_inp (Inputs (additional_info i) (card_type_info_var i) (card_type_var i)
                 (card_type_analyse_var i) ui u ca) a
  | user_types_output w s => edit_output w (fun _ => s) a
  end.

(** What a step does to the calls: a submission is accepted, a worker
    finishes, a completion callback runs, or none of these. *)
Inductive label :=
| accepted (t : task)
| finished (t : task) (c : completion)
| delivered (c : completion)
| quiet.

(** The submission an event starts, if it starts one. *)
Definition started (a a' : CardPromptApp) : label :=
  if decide (length (threads a') = length (threads a)) then quiet
  else match last (threads a') with
       | Some t => accepted t
       | None => quiet
       end.

(** One step of the application: the main loop handles an event, a
    worker thread runs to its end under some environment and network, or
    the main loop runs the first scheduled callback. *)
Inductive step : CardPromptApp -> label -> CardPromptApp -> Prop :=
| step_event (e : event) (a : CardPromptApp) :
    step a (started a (handle e a)) (handle e a)
| step_worker (env : environ) (net : request -> http_outcome) (a : CardPromptApp)
    (ts1 ts2 : list task) (t : task) (reqs : list request) (c : completion) :
    threads a = ts1 ++ t :: ts2 ->
    worker env net t = (reqs, Some c) ->
    step a (finished t c)
      (set_after_queue (after_queue a ++ [c]) (set_threads (ts1 ++ ts2) a))
| step_on_done (a : CardPromptApp) (c : completion) (q : list completion) :
    after_queue a = c :: q ->
    step a (delivered c) (on_done c (set_after_queue q a)).

(** An execution: the steps taken from a state, with their labels. *)
Inductive execution : CardPromptApp -> list label -> CardPromptApp -> Prop :=
| execution_nil (a : CardPromptApp) : execution a [] a
| execution_step (a b c : CardPromptApp) (ls : list label) (l : label) :
    execution a ls b -> step b l c -> execution a (ls ++ [l]) c.

Definition is_accepted (l : label) : bool :=
  match l with accepted _ => true | _ => false end.
Definition is_delivered (l : label) : bool :=
  match l with delivered _ => true | _ => false end.

(** The calls in flight: the workers running and the callbacks scheduled. *)
Definition in_flight (a : CardPromptApp) : nat :=
  length (threads a) + length (after_queue a).

(** The tag names the three handlers pass. *)
Definition workflow_tags : list str :=
  [lit "card"; lit "info_validacao"; lit "analise"].

(** A configuration with one template, and the application it starts. *)
Definition example_config : config :=
  Config {[ lit "bug" := lit "Titulo: ... Passos: ..." ]}
    (lit "modelo-validacao") (lit "modelo-criacao") (lit "modelo-analise")
    (lit "Modelo: {Card_modelo} Dados: {informacoes_fornecidas_pelo_usuario} Projeto: {informacoes_adicionais}")
    (lit "Modelo: {Card_modelo} Card: {Card_para_analise} Projeto: {informacoes_adicionais}")
    (lit "Modelo: {Card_modelo} Dados: {informacoes_fornecidas_pelo_usuario} Projeto: {informacoes_adicionais}").

Definition example_app : CardPromptApp := initial example_config [].

(** An environment with a key, one without, and a network that answers
    every request with a card. *)
Definition example_env : environ := Environ (Some (lit "sk-or-1")) None.
Definition example_env_no_key : environ := Environ None None.
Definition example_reply : json :=
  JObject [(lit "choices",
            JArray [JObject [(lit "message",
                              JObject [(lit "content",
                                        JString (lit "<card>Bug: login fails</card>"))])]])].
Definition example_net (r : request) : http_outcome := Body example_reply.
Definition example_net_down (r : request) : http_outcome :=
  PostRaises (lit "HTTPSConnectionPool(host='openrouter.ai', port=443): Max retries exceeded").

(** A network on which [requests.post] raises an exception whose message
    is empty, and the closure a worker schedules then. *)
Definition example_net_silent (r : request) : http_outcome := PostRaises [].
Definition example_silent : completion := Completion (Some []) [] output_text_create.

(** What holds of the calls in every state the application reaches: one
    call is in flight when the flag is set and none otherwise, and a
    worker carries the tag of its handler. *)
Definition calls_inv (a : CardPromptApp) : Prop :=
  in_flight a = (if _llm_running a then 1 else 0)
  /\ Forall (fun t => task_tag t ∈ workflow_tags) (threads a).

Fixpoint count (f : label -> bool) (ls : list label) : nat :=
  match ls with
  | [] => 0
  | l :: ls' => (if f l then 1 else 0) + count f ls'
  end.

(** One round of the creation workflow from [example_app]: the
    submission, the worker's completion and the state after each step. *)
Definition example_task : task :=
  Task (build_prompt tok_informacoes_usuario (creation_prompt example_config)
          (lit "Titulo: ... Passos: ...") [] [])
       (lit "modelo-criacao") (lit "card") output_text_create.
Definition example_completion : completion :=
  Completion None (lit "Bug: login fails") output_text_create.
Definition example_busy : CardPromptApp := handle click_generate_button example_app.
Definition example_queued : CardPromptApp :=
  set_after_queue (after_queue example_busy ++ [example_completion])
    (set_threads ([] ++ []) example_busy).
Definition example_done : CardPromptApp :=
  on_done example_completion (set_after_queue [] example_queued).

(** A second round from [example_done], during which the network is
    down. *)
Definition example_failure : completion :=
  Completion
    (Some (lit "HTTPSConnectionPool(host='openrouter.ai', port=443): Max retries exceeded"))
    [] output_text_create.
Definition example_busy_again : CardPromptApp := handle click_generate_button example_done.
Definition example_failed : CardPromptApp :=
  on_done example_failure
    (set_after_queue []
       (set_after_queue (after_queue example_busy_again ++ [example_failure])
          (set_threads ([] ++ []) example_busy_again))).

(** A round during which the user types in the output area while waiting,
    and the call raises an exception without message. *)
Definition example_typed : CardPromptApp :=
  handle (user_types_output output_text_create (lit "rascunho")) example_busy.
Definition example_unnoticed : CardPromptApp :=
  on_done example_silent
    (set_after_queue []
       (set_after_queue (after_queue example_typed ++ [example_silent])
          (set_threads ([] ++ []) example_typed))).

(** The three workflow controllers, with the selection each one reads. *)
Inductive workflow := validate | create | analyze.

Definition handler (wf : workflow) : CardPromptApp -> CardPromptApp :=
  match wf with
  | validate => generate_info_validation_prompt
  | create => generate_creation_prompt
  | analyze => generate_analisys_prompt
  end.

Definition selected_type (wf : workflow) (a : CardPromptApp) : str :=
  match wf with
  | validate => card_type_info_var (inp a)
  | create => card_type_var (inp a)
  | analyze => card_type_analyse_var (inp a)
  end.

(** The user chose a type that has no template. *)
Definition example_no_template : CardPromptApp :=
  handle (user_selects (lit "bug") (lit "feature") (lit "bug")) example_app.

(** The user typed around the card shown in the creation tab. *)
Definition example_edited : CardPromptApp :=
  handle (user_types_output output_text_create (lit "  Bug: login fails  ")) example_done.

(** ** More of the source: start-up, the file name shown, and what the
    properties of Part II speak about *)

Definition no_lt (t : str) : Prop := Forall (fun c => c <> "<"%char) t.

(** A template resource written out: before each block some text, after
    the last block a tail. *)
Fixpoint template_resource (items : list (str * (str * str))) (tail : str) : str :=
  match items with
  | [] => tail
  | (gap, (name, content)) :: items' =>
      gap ++ template_block name content ++ template_resource items' tail
  end.

Definition resource_item_ok (item : str * (str * str)) : Prop :=
  no_lt (fst item) /\ word_name (fst (snd item)) /\ no_lt (snd (snd item)).

(** [old in s] *)
Fixpoint occurs (old s : str) : bool :=
  startswith old s || match s with
                      | [] => false
                      | _ :: s' => occurs old s'
                      end.

(** [s.split(sep)] for a separator of one character. *)
Fixpoint split_on (sep : ascii) (s : str) : list str :=
  match s with
  | [] => [[]]
  | c :: s' =>
      if Ascii.eqb c sep then [] :: split_on sep s'
      else match split_on sep s' with
           | part :: parts => (c :: part) :: parts
           | [] => [[c]]
           end
  end.

(** [parts[-1]] of a non-empty list. *)
Definition last_item (parts : list str) : str := default [] (last parts).

(** [file_path.split("/")[-1].split("\\")[-1]], the name
    [load_additional_info] shows. *)
Definition display_name (file_path : str) : str :=
  last_item (split_on "\"%char (last_item (split_on "/"%char file_path))).

(** What [open(path, "r", encoding="utf-8")] and [f.read()] do: the
    text of the file, no such file, or another exception of the two
    calls ([PermissionError], [IsADirectoryError], [UnicodeDecodeError],
    ...). *)
Inductive file_outcome :=
| FileText (text : str)
| FileMissing
| FileRaises (e : exn).

(** [load_file(path)]: only a [FileNotFoundError] is caught and raised
    again with the message of [load_file]; any other exception passes. *)
Definition load_file (path : str) (file : file_outcome) : result str :=
  match file with
  | FileText text => Ok text
  | FileMissing => Raise (Exn FileNotFoundError (lit "Arquivo não encontrado: " ++ path))
  | FileRaises e =>
      match exn_class_of e with
      | FileNotFoundError =>
          Raise (Exn FileNotFoundError (lit "Arquivo não encontrado: " ++ path))
      | _ => Raise e
      end
  end.

(** What [load_file] raises: its own [FileNotFoundError] for a file that
    is not there, and otherwise the exception of [open] or [read]. *)
Definition load_file_raises (path : str) (file : file_outcome) (e : exn) : Prop :=
  ((file = FileMissing
    \/ exists e0, file = FileRaises e0 /\ exn_class_of e0 = FileNotFoundError)
   /\ e = Exn FileNotFoundError (lit "Arquivo não encontrado: " ++ path))
  \/ (file = FileRaises e /\ exn_class_of e <> FileNotFoundError).

(** [load_templates(path)] on every outcome of [open] and [read]: an
    exception that is no [FileNotFoundError] passes its [except] clause
    as it is. *)
Definition load_templates_from (path : str) (file : file_outcome)
    : result (gmap str str) :=
  match file with
  | FileText text => load_templates path (Some text)
  | FileMissing => load_templates path None
  | FileRaises e =>
      match exn_class_of e with
      | FileNotFoundError => load_templates path None
      | _ => Raise e
      end
  end.

(** [os.path.join(RESOURCES_DIR, ...)], with the separator of POSIX. *)
Definition TEMPLATES_FILE : str := lit "resources/templates.txt".
Definition CREATION_PROMPT_FILE : str := lit "resources/creation_prompt.txt".
Definition ANALISYS_PROMPT_FILE : str := lit "resources/analisys_prompt.txt".
Definition INFO_VALIDATION_PROMPT_FILE : str := lit "resources/info_validation_prompt.txt".

(** The variables [main] reads once [load_dotenv()] has run. *)
Record settings := Settings {
  keys : environ;
  LLM_MODEL_VALIDATION : option str;
  MODELO_VALIDACAO_INFO : option str;
  LLM_MODEL_CREATION : option str;
  MODELO_CRIACAO : option str;
  LLM_MODEL_ANALYSIS : option str;
  MODELO_ANALISE : option str
}.

(** Truthiness of a [str | None]. *)
Definition is_set (v : option str) : bool := error_set v.

Definition startup_missing_key : exn :=
  Exn RuntimeError
    (lit "Chave de API não configurada. Defina OPENROUTER_API_KEY ou API_KEY no arquivo .env com a chave de API do OpenRouter.").

Definition startup_missing_models : exn :=
  Exn RuntimeError
    (lit "Modelos LLM não configurados. Defina LLM_MODEL_VALIDATION / LLM_MODEL_CREATION / LLM_MODEL_ANALYSIS ou MODELO_VALIDACAO_INFO / MODELO_CRIACAO / MODELO_ANALISE no .env.").

(** What [main] meets outside the program: what [load_dotenv()] raises,
    if it does; what opening and reading each file gives; what creating
    the Tk root raises, if it does ([tk.Tk()], which a run of [main]
    calls once: in the constructor of the application or for the error
    box); what building the widgets raises, if it does. *)
Record world := World {
  dotenv : option exn;
  files : str -> file_outcome;
  tk_root : option exn;
  build_ui : option exn
}.

(** The [try] block of [main]: [load_dotenv()], the key, the three
    models, the templates. *)
Definition startup (s : settings) (w : world)
    : result (gmap str str * (str * str * str)) :=
  match dotenv w with
  | Some exc => Raise exc
  | None =>
      let api_key := py_or (OPENROUTER_API_KEY (keys s)) (API_KEY (keys s)) in
      if negb (is_set api_key) then Raise startup_missing_key
      else
        let validation_model := py_or (LLM_MODEL_VALIDATION s) (MODELO_VALIDACAO_INFO s) in
        let creation_model := py_or (LLM_MODEL_CREATION s) (MODELO_CRIACAO s) in
        let analisys_model := py_or (LLM_MODEL_ANALYSIS s) (MODELO_ANALISE s) in
        if negb (is_set validation_model && is_set creation_model && is_set analisys_model)
        then Raise startup_missing_models
        else
          templates ←! load_templates_from TEMPLATES_FILE (files w TEMPLATES_FILE);
          Ok (templates, (default [] validation_model, default [] creation_model,
                          default [] analisys_model))
  end.

(** [CardPromptApp.__init__]: the Tk root ([super().__init__()]), the
    three prompt skeletons, the widgets. *)
Definition __init__ (w : world) (templates : gmap str str)
    (validation_model creation_model analisys_model : str) (clipboard0 : str)
    : result CardPromptApp :=
  match tk_root w with
  | Some exc => Raise exc
  | None =>
      creation_prompt ←! load_file CREATION_PROMPT_FILE (files w CREATION_PROMPT_FILE);
      analisys_prompt ←! load_file ANALISYS_PROMPT_FILE (files w ANALISYS_PROMPT_FILE);
      info_validation_prompt ←!
        load_file INFO_VALIDATION_PROMPT_FILE (files w INFO_VALIDATION_PROMPT_FILE);
      match build_ui w with
      | Some exc => Raise exc
      | None =>
          Ok (initial (Config templates validation_model creation_model analisys_model
                         creation_prompt analisys_prompt info_validation_prompt) clipboard0)
      end
  end.

(** Why the constructor raises [e]: no Tk root, a prompt skeleton that
    cannot be loaded (the first of the three in the order of the
    constructor), or the widgets. *)
Definition init_raises (w : world) (e : exn) : Prop :=
  tk_root w = Some e
  \/ (tk_root w = None
      /\ (load_file_raises CREATION_PROMPT_FILE (files w CREATION_PROMPT_FILE) e
          \/ (exists cp, files w CREATION_PROMPT_FILE = FileText cp)
             /\ (load_file_raises ANALISYS_PROMPT_FILE (files w ANALISYS_PROMPT_FILE) e
                 \/ (exists ap, files w ANALISYS_PROMPT_FILE = FileText ap)
                    /\ (load_file_raises INFO_VALIDATION_PROMPT_FILE
                          (files w INFO_VALIDATION_PROMPT_FILE) e
                        \/ (exists ip, files w INFO_VALIDATION_PROMPT_FILE = FileText ip)
                           /\ build_ui w = Some e)))).

(** How [main] ends: the main loop runs on the application, an error box
    was shown and [main] returned, or an exception left [main]. *)
Inductive main_outcome :=
| Window (a : CardPromptApp)
| StartupError (d : dialog)
| Uncaught (e : exn).

(** [main()]: the [try] block; its [except] clause, which needs a Tk
    root for the error box; then the constructor of the application,
    outside the [try]. *)
Definition main (s : settings) (w : world) (clipboard0 : str) : main_outcome :=
  match startup s w with
  | Raise exc =>
      match tk_root w with
      | Some e => Uncaught e
      | None => StartupError (Dialog showerror (lit "Erro ao carregar arquivos") (exn_str exc))
      end
  | Ok (templates, (validation_model, creation_model, analisys_model)) =>
      match __init__ w templates validation_model creation_model analisys_model clipboard0 with
      | Raise e => Uncaught e
      | Ok a => Window a
      end
  end.

(** What each workflow controller passes on. *)
Definition workflow_skeleton (wf : workflow) (c : config) : str :=
  match wf with
  | validate => info_validation_prompt c
  | create => creation_prompt c
  | analyze => analisys_prompt c
  end.

Definition workflow_token (wf : workflow) : str :=
  match wf with
  | validate | create => tok_informacoes_usuario
  | analyze => tok_card_para_analise
  end.

Definition workflow_text (wf : workflow) (i : inputs) : str :=
  match wf with
  | validate => user_info_validation_text i
  | create => user_input_text i
  | analyze => card_to_analyse_text i
  end.

Definition workflow_model (wf : workflow) (c : config) : str :=
  match wf with
  | validate => validation_model c
  | create => creation_model c
  | analyze => analisys_model c
  end.

Definition workflow_tag (wf : workflow) : str :=
  match wf with
  | validate => lit "info_validacao"
  | create => lit "card"
  | analyze => lit "analise"
  end.

Definition workflow_widget (wf : workflow) : widget :=
  match wf with
  | validate => output_text_info
  | create => output_text_create
  | analyze => output_text_analyse
  end.

(** The prompt a controller builds in state [a] from the template it
    found. *)
Definition workflow_prompt (wf : workflow) (template : str) (a : CardPromptApp) : str :=
  build_prompt (workflow_token wf) (workflow_skeleton wf (cfg a)) template
    (strip (text_get (workflow_text wf (inp a)))) (additional_info (inp a)).

(** What the status bar shows of the calls: the buttons are disabled, the
    timer and the progress bar run exactly while the flag is set, and the
    status reads "Pronto." when it is not. *)
Definition ui_inv (a : CardPromptApp) : Prop :=
  buttons_enabled a = negb (_llm_running a)
  /\ timer_running a = _llm_running a
  /\ progress_running a = _llm_running a
  /\ (_llm_running a = false -> status_var a = lit "Pronto.").

Definition is_copy (e : event) : bool :=
  match e with
  | click_copy_button_info | click_copy_button_create | click_copy_button_analyse => true
  | _ => false
  end.

(** Settings and files with which [main] opens the window. *)
Definition example_settings : settings :=
  Settings example_env (Some (lit "modelo-validacao")) None
    None (Some (lit "modelo-criacao")) (Some (lit "")) (Some (lit "modelo-analise")).

Definition example_fs (path : str) : file_outcome :=
  if decide (path = TEMPLATES_FILE) then FileText (lit "<bug> Titulo: ... </bug>
<chore>Tarefa</chore>")
  else if decide (path = CREATION_PROMPT_FILE) then FileText (creation_prompt example_config)
  else if decide (path = ANALISYS_PROMPT_FILE) then FileText (analisys_prompt example_config)
  else if decide (path = INFO_VALIDATION_PROMPT_FILE)
       then FileText (info_validation_prompt example_config)
  else FileMissing.

Definition example_world : world := World None example_fs None None.

(** The button of each workflow controller. *)
Definition click (wf : workflow) : event :=
  match wf with
  | validate => click_generate_info_button
  | create => click_generate_button
  | analyze => click_generate_analisys_button
  end.

(** An application whose only template has an empty content, as
    [<bug> </bug>] in the resource gives. *)
Definition example_blank : CardPromptApp :=
  initial (Config {[ lit "bug" := [] ]}
             (lit "modelo-validacao") (lit "modelo-criacao") (lit "modelo-analise")
             (creation_prompt example_config) (analisys_prompt example_config)
             (info_validation_prompt example_config)) [].

(** Files among which the first prompt skeleton is there and the second
    cannot be decoded; a world with these files, and one without a
    display. *)
Definition example_fs_broken (path : str) : file_outcome :=
  if decide (path = TEMPLATES_FILE) then FileText (lit "<bug> Titulo: ... </bug>")
  else if decide (path = CREATION_PROMPT_FILE) then FileText (creation_prompt example_config)
  else if decide (path = ANALISYS_PROMPT_FILE)
       then FileRaises (Exn (OtherException (lit "UnicodeDecodeError"))
                          (lit "'utf-8' codec can't decode byte 0xff in position 0: invalid start byte"))
  else FileMissing.

Definition example_world_broken : world := World None example_fs_broken None None.

Definition example_world_no_display : world :=
  World None (fun _ => FileMissing)
    (Some (Exn (OtherException (lit "TclError"))
             (lit "no display name and no $DISPLAY environment variable"))) None.

(** The configuration [main] builds from [example_settings] and
    [example_fs]. *)
Definition example_loaded : config :=
  Config (<[ lit "chore" := lit "Tarefa" ]> {[ lit "bug" := lit "Titulo: ..." ]})
    (lit "modelo-validacao") (lit "modelo-criacao") (lit "modelo-analise")
    (creation_prompt example_config) (analisys_prompt example_config)
    (info_validation_prompt example_config).

(** ** The timer *)

(** [str(n)] of a natural number. *)
Definition digits (n : N) : str :=
  list_ascii_of_string (NilEmpty.string_of_uint (N.to_uint n)).

(** [f"{n:02d}"]: the sign of a negative number, then the digits, filled
    with zeros in front of the digits up to two characters in all. *)
Definition format_02d (n : Z) : str :=
  if (n <? 0)%Z then
    let d := digits (Z.to_N (- n)) in
    "-"%char :: repeat "0"%char (1 - length d) ++ d
  else
    let d := digits (Z.to_N n) in
    repeat "0"%char (2 - length d) ++ d.

(** What [_update_timer] shows when [elapsed] whole seconds have passed
    since [_start_timer]: [minutes, seconds = divmod(elapsed, 60)]. *)
Definition timer_text (elapsed : Z) : str :=
  let minutes := (elapsed / 60)%Z in
  let seconds := (elapsed mod 60)%Z in
  lit "Tempo: " ++ format_02d minutes ++ ":"%char :: format_02d seconds.

(** The number a run of decimal digits writes. *)
Definition decimal_value (s : str) : option N :=
  N.of_uint <$> NilEmpty.uint_of_string (string_of_list_ascii s).

(* ================================================================== *)
(** * Part II: properties                                               *)
(* ================================================================== *)

(** ** Strings *)

Lemma strip_prefix_app (p s : str) : strip_prefix p (p ++ s) = Some s.
Proof.
  induction p as [|a p IH]; simpl; [reflexivity|].
  rewrite Ascii.eqb_refl. exact IH.
Qed.

Lemma strip_prefix_Some (p s r : str) : strip_prefix p s = Some r -> s = p ++ r.
Proof.
  revert s. induction p as [|a p IH]; intros [|b s]; simpl; try congruence.
  destruct (Ascii.eqb a b) eqn:E; [|discriminate].
  apply Ascii.eqb_eq in E. subst b. intros H. f_equal. auto.
Qed.

Lemma startswith_app (p s : str) : startswith p (p ++ s) = true.
Proof. unfold startswith. now rewrite strip_prefix_app. Qed.

Lemma startswith_true (p s : str) : startswith p s = true -> exists r, s = p ++ r.
Proof.
  unfold startswith. destruct (strip_prefix p s) as [r|] eqn:E; [|discriminate].
  intros _. exists r. now apply strip_prefix_Some.
Qed.

Lemma startswith_head_neq (a c : ascii) (p s : str) :
  c <> a -> startswith (a :: p) (c :: s) = false.
Proof.
  intros H. unfold startswith. simpl.
  destruct (Ascii.eqb a c) eqn:E; [|reflexivity].
  apply Ascii.eqb_eq in E. congruence.
Qed.

(** ** [str.replace] *)

(** The characters of a replaced occurrence are passed over. *)
Lemma replace_from_skip (old new l s : str) :
  replace_from old new (length l) (l ++ s) = replace_from old new 0 s.
Proof. induction l as [|c l IH]; simpl; [reflexivity | exact IH]. Qed.

(** An occurrence at the head is replaced, and the scan resumes after it. *)
Lemma replace_from_occurrence (a : ascii) (old new s : str) :
  replace_from (a :: old) new 0 ((a :: old) ++ s) = new ++ replace_from (a :: old) new 0 s.
Proof.
  cbn [app replace_from].
  change (a :: old ++ s) with ((a :: old) ++ s). rewrite startswith_app.
  replace (length (a :: old) - 1) with (length old) by (cbn [length]; lia).
  now rewrite replace_from_skip.
Qed.

(** Text that lacks the first character of [old] is copied. *)
Lemma replace_from_copy (a : ascii) (old new t s : str) :
  Forall (fun c => c <> a) t ->
  replace_from (a :: old) new 0 (t ++ s) = t ++ replace_from (a :: old) new 0 s.
Proof.
  induction 1 as [|c t Hc _ IH]; [reflexivity|].
  cbn [app replace_from]. rewrite startswith_head_neq by exact Hc.
  now rewrite IH.
Qed.

(** ** Placeholders *)

Lemma no_brace_no_open (t : str) : no_brace t -> no_open t.
Proof.
  unfold no_brace, no_open. intros H.
  eapply Forall_impl; [exact H | cbn; tauto].
Qed.

(** Two placeholders, one a prefix of text that starts with the other, are
    the same placeholder. *)
Lemma hole_prefix_eq (n m rest : str) :
  no_brace n -> no_brace m ->
  startswith (n ++ [brace_close]) (m ++ brace_close :: rest) = true -> n = m.
Proof.
  intros Hn. revert m. induction Hn as [|a n [_ Ha] _ IH]; intros m Hm.
  - destruct Hm as [|b m [_ Hb] _]; [reflexivity|].
    cbn [app]. intros H. rewrite startswith_head_neq in H; [discriminate | exact Hb].
  - destruct Hm as [|b m Hb Hm].
    + cbn [app]. intros H.
      rewrite startswith_head_neq in H; [discriminate | congruence].
    + cbn [app]. unfold startswith. cbn [strip_prefix].
      destruct (Ascii.eqb a b) eqn:E; [|discriminate].
      apply Ascii.eqb_eq in E. subst b. intros H. f_equal. now apply IH.
Qed.

Lemma startswith_hole (n m rest : str) :
  no_brace n -> no_brace m ->
  startswith (hole_token n) (hole_token m ++ rest) = true <-> n = m.
Proof.
  intros Hn Hm. split.
  - unfold hole_token. cbn [app]. unfold startswith at 1. cbn [strip_prefix].
    rewrite Ascii.eqb_refl. rewrite <- app_assoc. cbn [app].
    apply hole_prefix_eq; assumption.
  - intros ->. apply startswith_app.
Qed.

Lemma replace_from_hole_same (n v s : str) :
  replace_from (hole_token n) v 0 (hole_token n ++ s)
  = v ++ replace_from (hole_token n) v 0 s.
Proof. apply replace_from_occurrence. Qed.

Lemma replace_from_hole_text (n v t s : str) :
  no_open t ->
  replace_from (hole_token n) v 0 (t ++ s) = t ++ replace_from (hole_token n) v 0 s.
Proof. apply replace_from_copy. Qed.

Lemma replace_from_hole_other (n m v s : str) :
  no_brace n -> no_brace m -> n <> m ->
  replace_from (hole_token n) v 0 (hole_token m ++ s)
  = hole_token m ++ replace_from (hole_token n) v 0 s.
Proof.
  intros Hn Hm Hne.
  assert (E : startswith (hole_token n) (hole_token m ++ s) = false).
  { destruct (startswith _ _) eqn:E; [|reflexivity].
    apply startswith_hole in E; [contradiction | assumption | assumption]. }
  assert (Hm' : hole_token m ++ s = brace_open :: m ++ [brace_close] ++ s).
  { unfold hole_token. cbn [app]. now rewrite <- app_assoc. }
  rewrite Hm' in *. cbn [replace_from]. rewrite E.
  rewrite replace_from_hole_text by (now apply no_brace_no_open).
  rewrite (replace_from_hole_text n v [brace_close] s)
    by (constructor; [discriminate | constructor]).
  unfold hole_token. cbn [app]. now rewrite <- app_assoc.
Qed.

(** One replace step fills the holes of its own name and nothing else. *)
Lemma replace_render (n v : str) (ps : list piece) :
  no_brace n -> Forall piece_ok ps ->
  replace (hole_token n) v (render ps) = render (map (fill_piece [(n, v)]) ps).
Proof.
  intros Hn Hps.
  change (replace (hole_token n) v (render ps))
    with (replace_from (hole_token n) v 0 (render ps)).
  induction Hps as [|p ps Hp _ IH]; [reflexivity|].
  unfold render in *. cbn [flat_map map]. destruct p as [t|m]; cbn [render_piece fill_piece].
  - rewrite replace_from_hole_text by exact Hp. f_equal. exact IH.
  - cbn [lookup_binding fst snd]. destruct (decide (n = m)) as [->|Hne].
    + rewrite replace_from_hole_same. cbn [render_piece]. f_equal. exact IH.
    + rewrite replace_from_hole_other by (assumption || exact Hp).
      cbn [render_piece]. f_equal. exact IH.
Qed.

Lemma fill_piece_ok (bs : list (str * str)) (p : piece) :
  Forall binding_ok bs -> piece_ok p -> piece_ok (fill_piece bs p).
Proof.
  intros Hbs Hp. destruct p as [t|m]; [exact Hp|]. cbn [fill_piece].
  destruct (lookup_binding bs m) as [v|] eqn:E; [|exact Hp]. cbn [piece_ok].
  induction Hbs as [|b bs [_ Hb] _ IH]; [discriminate|].
  cbn [lookup_binding] in E. destruct (decide (fst b = m)); [|auto].
  now inversion E; subst.
Qed.

Lemma fill_piece_cons (b : str * str) (bs : list (str * str)) (p : piece) :
  fill_piece bs (fill_piece [b] p) = fill_piece (b :: bs) p.
Proof.
  destruct p as [t|m]; [reflexivity|]. cbn [fill_piece lookup_binding].
  destruct (decide (fst b = m)); reflexivity.
Qed.

(** A chain of replace steps fills every hole with the value of the first
    step that names it. *)
Lemma replace_chain_render (bs : list (str * str)) (ps : list piece) :
  Forall binding_ok bs -> Forall piece_ok ps ->
  replace_chain (binding_steps bs) (render ps) = render (map (fill_piece bs) ps).
Proof.
  intros Hbs. revert ps. induction Hbs as [|[n v] bs Hb Hbs IH]; intros ps Hps.
  - cbn [binding_steps map replace_chain fold_left]. f_equal. clear Hps.
    induction ps as [|[t|m] ps IHps]; cbn [map fill_piece lookup_binding];
      [reflexivity | f_equal; exact IHps ..].
  - unfold replace_chain in *. cbn [binding_steps map fold_left fst snd].
    rewrite replace_render by (try apply Hb; exact Hps).
    fold (binding_steps bs). rewrite IH.
    + rewrite map_map. f_equal. apply map_ext. intros p. apply fill_piece_cons.
    + rewrite Forall_map. eapply Forall_impl; [exact Hps|].
      intros p Hp. apply fill_piece_ok; [|exact Hp].
      constructor; [exact Hb | constructor].
Qed.

(** ** The single-pass substitution of the specification *)

Lemma single_pass_from_skip (bs : list (str * str)) (l s : str) :
  single_pass_from bs (length l) (l ++ s) = single_pass_from bs 0 s.
Proof. induction l as [|c l IH]; simpl; [reflexivity | exact IH]. Qed.

Lemma find_hole_text (bs : list (str * str)) (c : ascii) (s : str) :
  c <> brace_open ->
  find (fun b => truthy (fst b) && startswith (fst b) (c :: s)) (binding_steps bs) = None.
Proof.
  intros Hc. induction bs as [|b bs IH]; [reflexivity|].
  cbn [binding_steps map find fst]. unfold hole_token at 1 2.
  rewrite startswith_head_neq by exact Hc. exact IH.
Qed.

Lemma find_hole_token (bs : list (str * str)) (m s : str) :
  Forall binding_ok bs -> no_brace m ->
  find (fun b => truthy (fst b) && startswith (fst b) (hole_token m ++ s)) (binding_steps bs)
  = (fun v => (hole_token m, v)) <$> lookup_binding bs m.
Proof.
  intros Hbs Hm. induction Hbs as [|b bs [Hb _] _ IH]; [reflexivity|].
  cbn [binding_steps map find fst snd lookup_binding].
  destruct (decide (fst b = m)) as [->|Hne].
  - rewrite startswith_app. reflexivity.
  - destruct (startswith (hole_token (fst b)) (hole_token m ++ s)) eqn:E.
    + apply startswith_hole in E; [contradiction | assumption | assumption].
    + rewrite andb_false_r. exact IH.
Qed.

Lemma single_pass_from_text (bs : list (str * str)) (t s : str) :
  no_open t ->
  single_pass_from (binding_steps bs) 0 (t ++ s)
  = t ++ single_pass_from (binding_steps bs) 0 s.
Proof.
  induction 1 as [|c t Hc _ IH]; [reflexivity|].
  cbn [app single_pass_from]. rewrite find_hole_text by exact Hc. now rewrite IH.
Qed.

Lemma single_pass_from_hole (bs : list (str * str)) (m s : str) :
  Forall binding_ok bs -> no_brace m ->
  single_pass_from (binding_steps bs) 0 (hole_token m ++ s)
  = render_piece (fill_piece bs (Hole m)) ++ single_pass_from (binding_steps bs) 0 s.
Proof.
  intros Hbs Hm.
  assert (F := find_hole_token bs m s Hbs Hm).
  assert (Hm' : hole_token m ++ s = brace_open :: m ++ [brace_close] ++ s).
  { unfold hole_token. cbn [app]. now rewrite <- app_assoc. }
  cbn [fill_piece]. rewrite Hm' in *. cbn [single_pass_from]. rewrite F.
  destruct (lookup_binding bs m) as [v|]; cbn [fmap option_fmap option_map fst snd render_piece].
  - f_equal. replace (length (hole_token m) - 1) with (length (m ++ [brace_close])).
    + rewrite app_assoc. apply single_pass_from_skip.
    + unfold hole_token. cbn [length]. lia.
  - rewrite single_pass_from_text by (now apply no_brace_no_open).
    rewrite (single_pass_from_text bs [brace_close] s)
      by (constructor; [discriminate | constructor]).
    unfold hole_token. cbn [app]. now rewrite <- app_assoc.
Qed.

Lemma single_pass_render (bs : list (str * str)) (ps : list piece) :
  Forall binding_ok bs -> Forall piece_ok ps ->
  single_pass (binding_steps bs) (render ps) = render (map (fill_piece bs) ps).
Proof.
  intros Hbs Hps. unfold single_pass.
  induction Hps as [|p ps Hp _ IH]; [reflexivity|].
  unfold render in *. cbn [flat_map map]. destruct p as [t|m].
  - cbn [render_piece fill_piece]. rewrite single_pass_from_text by exact Hp.
    f_equal. exact IH.
  - cbn [render_piece]. rewrite single_pass_from_hole by (assumption || exact Hp).
    f_equal. exact IH.
Qed.

(** With distinct names, the order of the bindings does not matter. *)
Lemma lookup_binding_Some (bs : list (str * str)) (n v : str) :
  NoDup (fst <$> bs) -> (n, v) ∈ bs -> lookup_binding bs n = Some v.
Proof.
  induction bs as [|b bs IH]; [intros _ Hin; inversion Hin|].
  cbn [lookup_binding]. rewrite fmap_cons, NoDup_cons, elem_of_cons.
  intros [Hb Hnd] [<-|Hin].
  - cbn [fst snd]. now rewrite decide_True.
  - destruct (decide (fst b = n)) as [<-|Hne]; [|auto].
    exfalso. apply Hb. apply list_elem_of_fmap. now exists (fst b, v).
Qed.

Lemma lookup_binding_elem (bs : list (str * str)) (n v : str) :
  lookup_binding bs n = Some v -> (n, v) ∈ bs.
Proof.
  induction bs as [|[n' v'] bs IH]; [discriminate|].
  cbn [lookup_binding fst snd]. rewrite elem_of_cons.
  destruct (decide (n' = n)) as [->|Hne].
  - intros [= ->]. now left.
  - intros H. right. auto.
Qed.

Lemma lookup_binding_perm (bs bs' : list (str * str)) (n : str) :
  NoDup (fst <$> bs) -> bs' ≡ₚ bs ->
  lookup_binding bs' n = lookup_binding bs n.
Proof.
  intros Hnd Hp.
  assert (Hnd' : NoDup (fst <$> bs')) by (now rewrite Hp).
  destruct (lookup_binding bs n) as [v|] eqn:E.
  - apply lookup_binding_Some; [exact Hnd'|].
    rewrite Hp. now apply lookup_binding_elem.
  - destruct (lookup_binding bs' n) as [v|] eqn:E'; [|reflexivity].
    apply lookup_binding_elem in E'. rewrite Hp in E'.
    apply (lookup_binding_Some bs n v Hnd) in E'. congruence.
Qed.

Lemma replace_chain_order (bs order : list (str * str)) (ps : list piece) :
  Forall binding_ok bs -> Forall piece_ok ps ->
  NoDup (fst <$> bs) -> order ≡ₚ bs ->
  replace_chain (binding_steps order) (render ps)
  = single_pass (binding_steps bs) (render ps).
Proof.
  intros Hbs Hps Hnd Hp.
  rewrite single_pass_render by assumption.
  rewrite replace_chain_render; [|now rewrite Hp | assumption].
  f_equal. apply map_ext. intros [t|m]; [reflexivity|]. cbn [fill_piece].
  now rewrite (lookup_binding_perm bs order m Hnd Hp).
Qed.

(** ** The prompt builder *)

Lemma build_prompt_chain (user_name skeleton template user_text additional_info : str) :
  build_prompt (hole_token user_name) skeleton template user_text additional_info
  = replace_chain
      (binding_steps [(lit "Card_modelo", template); (user_name, user_text);
                      (lit "informacoes_adicionais", additional_info)])
      skeleton.
Proof. reflexivity. Qed.

(** A decidable fact about literals, by evaluation. *)
Ltac by_evaluation :=
  unfold no_brace, no_open, piece_ok;
  lazymatch goal with
  | |- ?P => refine (@bool_decide_unpack P _ _); vm_compute; exact I
  end.

Lemma no_brace_Card_modelo : no_brace (lit "Card_modelo").
Proof. by_evaluation. Qed.

Lemma no_brace_informacoes_adicionais : no_brace (lit "informacoes_adicionais").
Proof. by_evaluation. Qed.

(** C1, as the code has it.  When the skeleton is made of text without
    an opening brace and of placeholders, and no replacement value holds
    an opening brace, the three replace steps of a handler give the
    single-pass substitution of the specification, and so does the chain
    of the same three steps taken in any other order. *)
Theorem prompt_builder_single_pass
    (ps : list piece) (user_name template user_text additional_info : str) :
  Forall piece_ok ps ->
  no_brace user_name ->
  user_name <> lit "Card_modelo" -> user_name <> lit "informacoes_adicionais" ->
  no_open template -> no_open user_text -> no_open additional_info ->
  let bs := [(lit "Card_modelo", template); (user_name, user_text);
             (lit "informacoes_adicionais", additional_info)] in
  build_prompt (hole_token user_name) (render ps) template user_text additional_info
  = single_pass (binding_steps bs) (render ps)
  /\ forall order, order ≡ₚ bs ->
       replace_chain (binding_steps order) (render ps)
       = build_prompt (hole_token user_name) (render ps) template user_text additional_info.
Proof.
  intros Hps Hu Hu1 Hu2 Ht Hut Hai bs.
  assert (Hbs : Forall binding_ok bs).
  { apply Forall_cons; split; [split; [apply no_brace_Card_modelo | exact Ht]|].
    apply Forall_cons; split; [split; [exact Hu | exact Hut]|].
    apply Forall_cons; split; [split; [apply no_brace_informacoes_adicionais | exact Hai]|].
    constructor. }
  assert (Hnd : NoDup (fst <$> bs)).
  { unfold bs. rewrite !fmap_cons, fmap_nil. cbn [fst].
    apply NoDup_cons; split; [|apply NoDup_cons; split; [|apply NoDup_singleton]].
    - rewrite !elem_of_cons, elem_of_nil. intros [H|[H|[]]]; [congruence|].
      vm_compute in H. discriminate.
    - rewrite elem_of_cons, elem_of_nil. intros [H|[]]. congruence. }
  rewrite build_prompt_chain. fold bs. split.
  - now apply replace_chain_order.
  - intros order Ho. rewrite (replace_chain_order bs order) by assumption.
    symmetry. now apply replace_chain_order.
Qed.

Lemma prompt_builder_single_pass_witness :
  Forall piece_ok example_skeleton /\ no_brace example_user_name /\
  example_user_name <> lit "Card_modelo" /\
  example_user_name <> lit "informacoes_adicionais" /\
  no_open example_template /\ no_open example_user_text /\ no_open example_project /\
  (build_prompt (hole_token example_user_name) (render example_skeleton)
     example_template example_user_text example_project
   = single_pass
       (binding_steps [(lit "Card_modelo", example_template);
                       (example_user_name, example_user_text);
                       (lit "informacoes_adicionais", example_project)])
       (render example_skeleton)
   /\ forall order,
        order ≡ₚ [(lit "Card_modelo", example_template);
                  (example_user_name, example_user_text);
                  (lit "informacoes_adicionais", example_project)] ->
        replace_chain (binding_steps order) (render example_skeleton)
        = build_prompt (hole_token example_user_name) (render example_skeleton)
            example_template example_user_text example_project).
Proof.
  assert (H1 : Forall piece_ok example_skeleton).
  { unfold example_skeleton. repeat (apply Forall_cons; split; [by_evaluation|]). constructor. }
  assert (H2 : no_brace example_user_name) by by_evaluation.
  assert (H3 : example_user_name <> lit "Card_modelo") by (intros H; vm_compute in H; discriminate).
  assert (H4 : example_user_name <> lit "informacoes_adicionais")
    by (intros H; vm_compute in H; discriminate).
  assert (H5 : no_open example_template) by by_evaluation.
  assert (H6 : no_open example_user_text) by by_evaluation.
  assert (H7 : no_open example_project) by by_evaluation.
  split; [exact H1|]. split; [exact H2|]. split; [exact H3|]. split; [exact H4|].
  split; [exact H5|]. split; [exact H6|]. split; [exact H7|].
  exact (prompt_builder_single_pass example_skeleton example_user_name example_template
           example_user_text example_project H1 H2 H3 H4 H5 H6 H7).
Defined.

(** C1, as the specification states it, fails: a template that holds
    [{informacoes_adicionais}] is scanned again by the later replace step,
    so the result is not the single-pass substitution, and it changes with
    the order of the steps. *)
Lemma prompt_builder_rescans_values :
  let skeleton := lit "Modelo: {Card_modelo}" in
  let template := lit "{informacoes_adicionais}" in
  let bs := [(tok_card_modelo, template); (tok_informacoes_usuario, lit "u");
             (tok_informacoes_adicionais, lit "X")] in
  build_prompt tok_informacoes_usuario skeleton template (lit "u") (lit "X")
    = lit "Modelo: X"
  /\ single_pass bs skeleton = lit "Modelo: {informacoes_adicionais}"
  /\ replace_chain (rev bs) skeleton = lit "Modelo: {informacoes_adicionais}"
  /\ build_prompt tok_informacoes_usuario skeleton template (lit "u") (lit "X")
     <> single_pass bs skeleton
  /\ replace_chain bs skeleton <> replace_chain (rev bs) skeleton.
Proof. vm_compute. repeat split; discriminate. Qed.

(** ** Character classes *)

Lemma word_not_space (c : ascii) : py_isword c = true -> py_isspace c = false.
Proof. destruct c as [[] [] [] [] [] [] [] []]; vm_compute; congruence. Qed.

Lemma lower_space (c : ascii) : py_isspace (py_lower c) = py_isspace c.
Proof. destruct c as [[] [] [] [] [] [] [] []]; vm_compute; reflexivity. Qed.

Lemma run_after (cls : ascii -> bool) (s : str) : run_of cls s ++ after_run cls s = s.
Proof.
  induction s as [|d s IH]; [reflexivity|]. cbn [run_of after_run].
  destruct (cls d); [cbn [app]; now rewrite IH | reflexivity].
Qed.

Lemma run_of_Forall (cls : ascii -> bool) (s : str) :
  Forall (fun c => cls c = true) (run_of cls s).
Proof.
  induction s as [|d s IH]; [constructor|]. cbn [run_of].
  destruct (cls d) eqn:E; [now constructor | constructor].
Qed.

Lemma run_of_app (cls : ascii -> bool) (w s : str) :
  Forall (fun c => cls c = true) w ->
  run_of cls (w ++ s) = w ++ run_of cls s.
Proof.
  induction 1 as [|c w Hc _ IH]; [reflexivity|].
  cbn [app run_of]. now rewrite Hc, IH.
Qed.

Lemma after_run_app (cls : ascii -> bool) (w s : str) :
  Forall (fun c => cls c = true) w ->
  after_run cls (w ++ s) = after_run cls s.
Proof.
  induction 1 as [|c w Hc _ IH]; [reflexivity|].
  cbn [app after_run]. now rewrite Hc, IH.
Qed.

Lemma after_run_head (cls : ascii -> bool) (d : ascii) (s : str) :
  cls d = false -> after_run cls (d :: s) = d :: s.
Proof. intros H. cbn [after_run]. now rewrite H. Qed.

Lemma run_of_head (cls : ascii -> bool) (d : ascii) (s : str) :
  cls d = false -> run_of cls (d :: s) = [].
Proof. intros H. cbn [run_of]. now rewrite H. Qed.

Lemma lstrip_after_run (s : str) : lstrip s = after_run py_isspace s.
Proof.
  induction s as [|d s IH]; [reflexivity|]. cbn [lstrip after_run].
  now destruct (py_isspace d).
Qed.

(** ** The matcher *)

Lemma or_else_None {A} (x : option A) : or_else x None = x.
Proof. now destruct x. Qed.

Lemma match_text_exact (w s : str) : match_text false w s = strip_prefix w s.
Proof.
  revert s. induction w as [|c w IH]; intros [|d s]; cbn; try reflexivity.
  now rewrite IH.
Qed.

Lemma strip_prefix_app_l (a b s : str) :
  strip_prefix (a ++ b) s
  = match strip_prefix a s with Some r => strip_prefix b r | None => None end.
Proof.
  revert s. induction a as [|c a IH]; intros s; [reflexivity|].
  destruct s as [|d s]; cbn [app strip_prefix]; [reflexivity|].
  destruct (Ascii.eqb c d); [apply IH | reflexivity].
Qed.

(** A greedy run followed by something that cannot start inside the run
    takes the whole run. *)
Lemma star_greedy_run {A} (cls : ascii -> bool) (k : str -> option A) (s : str) :
  (forall d s', cls d = true -> k (d :: s') = None) ->
  star_greedy cls k s = k (after_run cls s).
Proof.
  intros Hk. induction s as [|d s IH]; [reflexivity|].
  cbn [star_greedy after_run]. destruct (cls d) eqn:E; [|reflexivity].
  now rewrite IH, Hk, or_else_None.
Qed.

Lemma star_greedy_head {A} (cls : ascii -> bool) (k : str -> option A) (d : ascii) (s : str) :
  (forall d s', cls d = true -> k (d :: s') = None) ->
  cls d = true -> star_greedy cls k (d :: s) = star_greedy cls k s.
Proof.
  intros Hk Hd. cbn [star_greedy]. now rewrite Hd, Hk, or_else_None.
Qed.

(** Two greedy runs of the same class in a row are one. *)
Lemma star_greedy_twice {A} (cls : ascii -> bool) (k : str -> option A) (s : str) :
  (forall d s', cls d = true -> k (d :: s') = None) ->
  star_greedy cls (star_greedy cls k) s = star_greedy cls k s.
Proof.
  intros Hk. induction s as [|d s IH]; [reflexivity|].
  cbn [star_greedy]. destruct (cls d) eqn:E; [|reflexivity].
  rewrite IH, Hk by exact E. rewrite !or_else_None. now destruct (star_greedy cls k s).
Qed.

Lemma plus_greedy_run {A} (cls : ascii -> bool) (k : str -> str -> option A) (acc s : str) :
  (forall acc d s', cls d = true -> k acc (d :: s') = None) ->
  plus_greedy cls k acc s
  = if truthy (acc ++ run_of cls s) then k (acc ++ run_of cls s) (after_run cls s) else None.
Proof.
  intros Hk. revert acc. induction s as [|d s IH]; intros acc.
  - cbn [plus_greedy run_of after_run]. now rewrite app_nil_r.
  - cbn [plus_greedy run_of after_run]. destruct (cls d) eqn:E.
    + rewrite IH, Hk by exact E. rewrite <- app_assoc. cbn [app].
      destruct (truthy acc); now rewrite or_else_None.
    + now rewrite app_nil_r.
Qed.

Lemma lazy_any_Some {A} (k : str -> str -> option A) (acc s : str) (r : A) :
  lazy_any k acc s = Some r ->
  exists i rest, s = i ++ rest /\ k (acc ++ i) rest = Some r /\
    forall i1 i2, i = i1 ++ i2 -> i2 <> [] -> k (acc ++ i1) (i2 ++ rest) = None.
Proof.
  revert acc. induction s as [|d s IH]; intros acc; cbn [lazy_any].
  - destruct (k acc []) eqn:E; [|discriminate]. intros [= ->].
    exists [], []. split; [reflexivity|]. split; [now rewrite app_nil_r|].
    intros i1 i2 Hi. symmetry in Hi. apply app_eq_nil in Hi as [_ ->]. congruence.
  - destruct (k acc (d :: s)) eqn:E.
    + intros [= ->]. exists [], (d :: s).
      split; [reflexivity|]. split; [now rewrite app_nil_r|].
      intros i1 i2 Hi. symmetry in Hi. apply app_eq_nil in Hi as [_ ->]. congruence.
    + intros H. apply IH in H as (i & rest & -> & Hk & Hmin).
      exists (d :: i), rest. split; [reflexivity|].
      rewrite <- app_assoc in Hk. split; [exact Hk|].
      intros [|d' i1] i2 Hi Hne.
      * cbn [app] in Hi. subst i2. now rewrite app_nil_r.
      * cbn [app] in Hi. injection Hi as <- ->.
        specialize (Hmin i1 i2 eq_refl Hne). now rewrite <- app_assoc in Hmin.
Qed.

Lemma lazy_any_None {A} (k : str -> str -> option A) (acc s : str) :
  lazy_any k acc s = None ->
  forall i rest, s = i ++ rest -> k (acc ++ i) rest = None.
Proof.
  revert acc. induction s as [|d s IH]; intros acc; cbn [lazy_any].
  - destruct (k acc []) eqn:E; [discriminate|]. intros _ i rest Hi.
    symmetry in Hi. apply app_eq_nil in Hi as [-> ->]. now rewrite app_nil_r.
  - destruct (k acc (d :: s)) eqn:E; [discriminate|]. intros H [|d' i] rest Hi.
    + cbn [app] in Hi. subst rest. now rewrite app_nil_r.
    + cbn [app] in Hi. injection Hi as <- ->.
      specialize (IH _ H i rest eq_refl). now rewrite <- app_assoc in IH.
Qed.

Lemma lazy_any_first {A} (k : str -> str -> option A) (acc i rest : str) (r : A) :
  (forall i1 i2, i = i1 ++ i2 -> i2 <> [] -> k (acc ++ i1) (i2 ++ rest) = None) ->
  k (acc ++ i) rest = Some r ->
  lazy_any k acc (i ++ rest) = Some r.
Proof.
  revert acc. induction i as [|d i IH]; intros acc Hmin Hk.
  - rewrite app_nil_r in Hk. cbn [app]. destruct rest; cbn [lazy_any]; now rewrite Hk.
  - assert (H0 := Hmin [] (d :: i) eq_refl ltac:(discriminate)).
    rewrite app_nil_r in H0. cbn [app] in H0. cbn [app lazy_any]. rewrite H0.
    apply IH.
    + intros i1 i2 -> Hne. rewrite <- app_assoc. now apply (Hmin (d :: i1) i2).
    + now rewrite <- app_assoc.
Qed.

Lemma lazy_any_ext {A} (k k' : str -> str -> option A) (acc s : str) :
  (forall a s', k a s' = k' a s') -> lazy_any k acc s = lazy_any k' acc s.
Proof.
  intros H. revert acc. induction s as [|d s IH]; intros acc; cbn [lazy_any]; rewrite H.
  - reflexivity.
  - now rewrite IH.
Qed.

(** ** The template pattern *)

Lemma run_closing (name w s : str) :
  run false [NChar "<"; NChar "/"; NBackref 1; NChar ">"] [name; w] s
  = closing_rest name w s.
Proof.
  unfold closing_rest, closing_tag.
  destruct s as [|d [|d' s]]; cbn [run char_matches strip_prefix]; try reflexivity.
  - now destruct (Ascii.eqb "<" d).
  - destruct (Ascii.eqb "<" d); [|reflexivity].
    destruct (Ascii.eqb "/" d'); [|reflexivity].
    cbn [Nat.sub lookup list_lookup]. rewrite match_text_exact, strip_prefix_app_l.
    destruct (strip_prefix name s) as [[|d'' r]|]; cbn [strip_prefix]; try reflexivity.
    now destruct (Ascii.eqb ">" d'').
Qed.

Lemma run_template (s : str) : run false template_pattern [] s = block_at s.
Proof.
  unfold template_pattern, block_at. destruct s as [|d s1]; [reflexivity|].
  cbn [run char_matches]. destruct (Ascii.eqb "<" d); [|reflexivity].
  rewrite plus_greedy_run.
  - cbn [app]. destruct (truthy (run_of py_isword s1)); [|reflexivity].
    destruct (after_run py_isword s1) as [|d' s3]; [reflexivity|].
    destruct (Ascii.eqb ">" d'); [|reflexivity].
    apply lazy_any_ext. intros a s'. apply run_closing.
  - intros acc d' s' Hd'. destruct (Ascii.eqb ">" d') eqn:E; [|reflexivity].
    apply Ascii.eqb_eq in E. subst d'. discriminate.
Qed.

Lemma startswith_app_r (p a b : str) :
  startswith p a = true -> startswith p (a ++ b) = true.
Proof.
  intros H. apply startswith_true in H as [r ->]. rewrite <- app_assoc.
  apply startswith_app.
Qed.

Lemma startswith_within (p a b : str) :
  length p <= length a -> startswith p (a ++ b) = true -> startswith p a = true.
Proof.
  unfold startswith. revert a. induction p as [|c p IH]; intros a; [reflexivity|].
  destruct a as [|d a]; cbn [length app strip_prefix]; [lia|].
  destruct (Ascii.eqb c d); [|discriminate]. intros Hl. apply IH. lia.
Qed.

Lemma strip_prefix_None (p s : str) :
  strip_prefix p s = None <-> startswith p s = false.
Proof. unfold startswith. destruct (strip_prefix p s); split; congruence. Qed.

Lemma truthy_true (s : str) : truthy s = true <-> s <> [].
Proof. destruct s; cbn; split; congruence. Qed.

Lemma template_block_app (name inner rest : str) :
  template_block name inner ++ rest
  = "<"%char :: name ++ ">"%char :: inner ++ closing_tag name ++ rest.
Proof.
  unfold template_block. cbn [app]. rewrite <- app_assoc. cbn [app].
  now rewrite <- app_assoc.
Qed.

Lemma word_run (name s : str) :
  Forall (fun c => py_isword c = true) name ->
  run_of py_isword (name ++ ">"%char :: s) = name
  /\ after_run py_isword (name ++ ">"%char :: s) = ">"%char :: s.
Proof.
  intros H. rewrite run_of_app, after_run_app by exact H.
  rewrite run_of_head, after_run_head by reflexivity. now rewrite app_nil_r.
Qed.

(** A match of the template pattern is a block, and its content ends at
    the first closing tag. *)
Lemma block_at_sound (s : str) (caps : list str) (rest : str) :
  block_at s = Some (caps, rest) ->
  exists name inner, caps = [name; inner] /\ word_name name /\
    s = template_block name inner ++ rest /\ first_closing name inner.
Proof.
  unfold block_at. destruct s as [|d s1]; [discriminate|].
  destruct (Ascii.eqb "<" d) eqn:Ed; [|discriminate]. apply Ascii.eqb_eq in Ed. subst d.
  assert (Hs1 := run_after py_isword s1). assert (Hw := run_of_Forall py_isword s1).
  cbv zeta. set (name := run_of py_isword s1) in *.
  destruct (truthy name) eqn:Hn; [|discriminate]. apply truthy_true in Hn.
  destruct (after_run py_isword s1) as [|d' s3]; [discriminate|].
  destruct (Ascii.eqb ">" d') eqn:Ed'; [|discriminate]. apply Ascii.eqb_eq in Ed'. subst d'.
  intros H. apply lazy_any_Some in H as (i & rest' & -> & Hk & Hmin).
  cbn [app] in Hk. unfold closing_rest in Hk.
  destruct (strip_prefix (closing_tag name) rest') as [r|] eqn:Er; [|discriminate].
  cbn in Hk. injection Hk as <- ->. apply strip_prefix_Some in Er. subst rest'.
  exists name, i. split; [reflexivity|]. split; [now split|].
  split; [now rewrite template_block_app, <- Hs1|].
  intros i1 i2 Hi Hne. specialize (Hmin i1 i2 Hi Hne). cbn [app] in Hmin.
  unfold closing_rest in Hmin.
  destruct (strip_prefix (closing_tag name) (i2 ++ closing_tag name ++ rest)) eqn:E;
    [discriminate|].
  apply strip_prefix_None in E.
  destruct (startswith (closing_tag name) (i2 ++ closing_tag name)) eqn:E'; [|reflexivity].
  apply (startswith_app_r _ _ rest) in E'. rewrite <- app_assoc in E'. congruence.
Qed.

(** A block whose content ends at the first closing tag is matched as it is. *)
Lemma block_at_complete (name inner rest : str) :
  word_name name -> first_closing name inner ->
  block_at (template_block name inner ++ rest) = Some ([name; inner], rest).
Proof.
  intros [Hne Hw] Hfirst. rewrite template_block_app. unfold block_at.
  rewrite Ascii.eqb_refl. cbv zeta.
  destruct (word_run name (inner ++ closing_tag name ++ rest) Hw) as [-> ->].
  apply truthy_true in Hne. rewrite Hne, Ascii.eqb_refl.
  apply lazy_any_first.
  - intros i1 i2 Hi Hi2. unfold closing_rest.
    destruct (strip_prefix (closing_tag name) (i2 ++ closing_tag name ++ rest)) eqn:E;
      [|reflexivity].
    exfalso. assert (E' : startswith (closing_tag name) ((i2 ++ closing_tag name) ++ rest) = true).
    { unfold startswith. now rewrite <- app_assoc, E. }
    apply startswith_within in E'.
    + rewrite (Hfirst i1 i2 Hi Hi2) in E'. discriminate.
    + rewrite length_app. lia.
  - unfold closing_rest. cbn [app]. now rewrite strip_prefix_app.
Qed.

(** Where a block begins, the pattern matches. *)
Lemma block_at_starts (s : str) : block_starts s -> block_at s <> None.
Proof.
  intros (name & inner & rest & [Hne Hw] & ->). rewrite template_block_app. unfold block_at.
  rewrite Ascii.eqb_refl. cbv zeta.
  destruct (word_run name (inner ++ closing_tag name ++ rest) Hw) as [-> ->].
  apply truthy_true in Hne. rewrite Hne, Ascii.eqb_refl.
  intros H. eapply lazy_any_None in H; [|reflexivity].
  unfold closing_rest in H. cbn [app] in H. now rewrite strip_prefix_app in H.
Qed.

(** ** [finditer] *)

Lemma finditer_from_skip (icase : bool) (p : list node) (l s : str) :
  finditer_from icase p (length l) (l ++ s) = finditer_from icase p 0 s.
Proof. induction l as [|c l IH]; [reflexivity|]. cbn [length app finditer_from]. exact IH. Qed.

Lemma finditer_miss (icase : bool) (p : list node) (c : ascii) (s : str) :
  run icase p [] (c :: s) = None ->
  finditer icase p (c :: s) = finditer icase p s.
Proof. intros H. unfold finditer. cbn [finditer_from]. now rewrite H. Qed.

Lemma finditer_hit (icase : bool) (p : list node) (m rest : str) (caps : list str) :
  m <> [] -> run icase p [] (m ++ rest) = Some (caps, rest) ->
  finditer icase p (m ++ rest) = caps :: finditer icase p rest.
Proof.
  intros Hm H. unfold finditer. destruct m as [|c m]; [congruence|].
  cbn [app finditer_from]. cbn [app] in H. rewrite H. f_equal.
  replace (length (c :: m ++ rest) - length rest - 1) with (length m)
    by (cbn [length]; rewrite length_app; lia).
  apply finditer_from_skip.
Qed.

Lemma template_block_nonempty (name inner : str) : template_block name inner <> [].
Proof. discriminate. Qed.

Lemma blocks_of_skip (c : ascii) (s : str) (bl : list (str * str)) :
  ~ block_starts (c :: s) -> blocks_of s bl -> blocks_of (c :: s) bl.
Proof.
  intros Hc H. destruct H as [s Hnone | pre name inner rest bl Hpre Hn Hf Hrest].
  - constructor. intros [|d pre] post Hs; cbn [app] in Hs.
    + now subst post.
    + injection Hs as _ ->. now apply (Hnone pre post).
  - change (c :: pre ++ template_block name inner ++ rest)
      with ((c :: pre) ++ template_block name inner ++ rest) in *.
    constructor; try assumption.
    intros [|d p1] p2 Hp Hp2; cbn [app] in Hp.
    + now subst p2.
    + injection Hp as _ ->. now apply (Hpre p1 p2).
Qed.

(** The matches of [finditer] are the blocks of the text. *)
Lemma finditer_blocks_of (s : str) :
  blocks_of s (map block_of_match (finditer false template_pattern s)).
Proof.
  remember (length s) as n eqn:Hn. revert s Hn.
  induction n as [n IH] using lt_wf_ind. intros s Hn.
  destruct s as [|c s].
  - constructor. intros pre post Hs (name & inner & rest & _ & ->).
    symmetry in Hs. apply app_eq_nil in Hs as [_ Hs]. discriminate.
  - destruct (run false template_pattern [] (c :: s)) as [[caps rest]|] eqn:E.
    + assert (E' := E). rewrite run_template in E'.
      apply block_at_sound in E' as (name & inner & -> & Hname & Hs & Hfirst).
      rewrite Hs in *. rewrite finditer_hit with (caps := [name; inner])
        by (exact E || apply template_block_nonempty).
      cbn [map]. change (block_of_match [name; inner]) with (name, inner).
      apply (blocks_next [] name inner rest); try assumption.
      * intros p1 p2 Hp. symmetry in Hp. apply app_eq_nil in Hp as [_ ->]. congruence.
      * apply (IH (length rest)); [|reflexivity]. subst n. rewrite length_app.
        unfold template_block. cbn [length]. lia.
    + rewrite finditer_miss by exact E. apply blocks_of_skip.
      * intros Hb. apply block_at_starts in Hb. now rewrite <- run_template in Hb.
      * apply (IH (length s)); [subst n; cbn [length]; lia | reflexivity].
Qed.

(** The blocks of a text are determined: they are the matches of
    [finditer]. *)
Lemma blocks_of_finditer (s : str) (bl : list (str * str)) :
  blocks_of s bl -> bl = map block_of_match (finditer false template_pattern s).
Proof.
  induction 1 as [s Hnone | pre name inner rest bl Hpre Hn Hf Hrest IH].
  - induction s as [|c s IHs]; [reflexivity|].
    rewrite finditer_miss.
    + apply IHs. intros pre post ->. now apply (Hnone (c :: pre) post).
    + rewrite run_template. destruct (block_at (c :: s)) as [[caps rest]|] eqn:E; [|reflexivity].
      exfalso. apply (Hnone [] (c :: s) eq_refl).
      apply block_at_sound in E as (name & inner & _ & Hname & -> & _).
      now exists name, inner, rest.
  - induction pre as [|c pre IHpre].
    + cbn [app]. rewrite finditer_hit with (caps := [name; inner]).
      * cbn [map]. now rewrite <- IH.
      * apply template_block_nonempty.
      * rewrite run_template. now apply block_at_complete.
    + cbn [app]. rewrite finditer_miss.
      * apply IHpre. intros p1 p2 -> Hp2. now apply (Hpre (c :: p1) p2).
      * rewrite run_template.
        destruct (block_at (c :: pre ++ template_block name inner ++ rest))
          as [[caps rest']|] eqn:E; [|reflexivity].
        exfalso. apply (Hpre [] (c :: pre) eq_refl); [discriminate|].
        apply block_at_sound in E as (name' & inner' & _ & Hname' & E & _).
        exists name', inner', rest'. split; [exact Hname' | exact E].
Qed.

(** ** [strip] *)

Lemma lstrip_id (s : str) :
  Forall (fun c => py_isspace c = false) s -> lstrip s = s.
Proof. destruct 1 as [|c s Hc _]; [reflexivity|]. cbn [lstrip]. now rewrite Hc. Qed.

Lemma strip_id (s : str) :
  Forall (fun c => py_isspace c = false) s -> strip s = s.
Proof.
  intros H. unfold strip, rstrip. rewrite (lstrip_id s H).
  rewrite lstrip_id by (now apply Forall_rev). apply rev_involutive.
Qed.

Lemma strip_word_name (name : str) : word_name name -> strip name = name.
Proof.
  intros [_ H]. apply strip_id. eapply Forall_impl; [exact H|].
  intros c. apply word_not_space.
Qed.

(** ** [load_templates] *)

Lemma blocks_of_names (s : str) (bl : list (str * str)) :
  blocks_of s bl -> Forall (fun b => word_name (fst b)) bl.
Proof. induction 1; constructor; assumption. Qed.

Lemma last_block_Some (k : str) (bl : list (str * str)) :
  is_Some (last_block k bl) <-> exists name inner, (name, inner) ∈ bl /\ strip name = k.
Proof.
  induction bl as [|[n i] bl IH]; cbn [last_block fst snd].
  - split; [intros [v Hv]; discriminate | intros (? & ? & H & _); inversion H].
  - destruct (last_block k bl) as [v|] eqn:E.
    + split; [|eauto]. intros _. destruct IH as [IH _].
      destruct (IH ltac:(eauto)) as (name & inner & Hin & Hk).
      exists name, inner. split; [now apply elem_of_cons; right | exact Hk].
    + destruct (decide (strip n = k)) as [Hk|Hk].
      * split; [|eauto]. intros _. exists n, i. split; [apply elem_of_cons; now left | exact Hk].
      * split; [intros [v Hv]; discriminate|].
        intros (name & inner & Hin & Hname). apply elem_of_cons in Hin as [[= -> ->]|Hin].
        -- contradiction.
        -- apply IH. eauto.
Qed.

(** The loop of [load_templates]: a later block overwrites an earlier one
    of the same name. *)
Lemma fold_add_template (ms : list (list str)) (templates : gmap str str) (k : str) :
  Forall (fun caps => word_name (group 1 caps)) ms ->
  fold_left add_template ms templates !! k
  = or_else (last_block k (map block_of_match ms)) (templates !! k).
Proof.
  intros H. revert templates. induction H as [|caps ms Hcaps _ IH]; intros templates.
  - reflexivity.
  - cbn [fold_left map last_block]. rewrite IH.
    destruct (last_block k (map block_of_match ms)); [reflexivity|].
    cbn [or_else]. unfold add_template, block_of_match. cbn [fst snd].
    rewrite (strip_word_name _ Hcaps).
    destruct Hcaps as [Hne _]. apply truthy_true in Hne. rewrite Hne.
    destruct (decide (group 1 caps = k)) as [->|Hk].
    + now rewrite lookup_insert_eq.
    + now rewrite lookup_insert_ne.
Qed.

Lemma load_templates_lookup (path text : str) :
  let bl := map block_of_match (finditer false template_pattern text) in
  match bl with
  | [] => load_templates path (Some text) = Raise templates_not_found
  | _ :: _ =>
      exists templates, load_templates path (Some text) = Ok templates /\
        forall k, templates !! k = last_block k bl
  end.
Proof.
  intros bl. assert (Hbl := finditer_blocks_of text). fold bl in Hbl.
  apply blocks_of_names in Hbl.
  assert (Hms : Forall (fun caps => word_name (group 1 caps))
                  (finditer false template_pattern text)).
  { unfold bl in Hbl. now rewrite Forall_map in Hbl. }
  assert (Hfold := fun k => fold_add_template _ ∅ k Hms). fold bl in Hfold.
  unfold load_templates. destruct bl as [|[n i] bl'] eqn:Ebl.
  - unfold bl in Ebl. apply map_eq_nil in Ebl. rewrite Ebl. cbn [fold_left].
    now rewrite decide_True.
  - set (templates := fold_left add_template (finditer false template_pattern text) ∅) in *.
    assert (Hsome : is_Some (templates !! strip n)).
    { rewrite Hfold. inversion Hbl as [|? ? Hn _]; subst.
      assert (is_Some (last_block (strip n) ((n, i) :: bl'))) as [v Hv].
      { apply last_block_Some. exists n, i. split; [apply elem_of_cons; now left | reflexivity]. }
      rewrite Hv. cbn. eauto. }
    rewrite decide_False.
    + exists templates. split; [reflexivity|]. intros k. rewrite Hfold.
      rewrite lookup_empty. apply or_else_None.
    + intros Hempty. rewrite Hempty, lookup_empty in Hsome. now destruct Hsome.
Qed.

(** C2. For every text, the blocks [<tag>...</tag>] of the text, read
    from left to right with each content ending at the first closing tag
    of the same name, are determined; [load_templates] fails with the
    [ValueError] "no template found" when there is none, and otherwise
    returns the map whose keys are exactly the trimmed names of these
    blocks and whose value at a name is the trimmed content of the last
    block of that name. *)
Theorem load_templates_blocks (path text : str) :
  exists bl, blocks_of text bl /\ (forall bl', blocks_of text bl' -> bl' = bl) /\
    match bl with
    | [] => load_templates path (Some text) = Raise templates_not_found
    | _ :: _ =>
        exists templates, load_templates path (Some text) = Ok templates /\
          (forall k, k ∈ dom templates <->
             exists name inner, (name, inner) ∈ bl /\ strip name = k) /\
          (forall k, templates !! k = last_block k bl)
    end.
Proof.
  exists (map block_of_match (finditer false template_pattern text)).
  split; [apply finditer_blocks_of|]. split; [apply blocks_of_finditer|].
  assert (H := load_templates_lookup path text). cbv zeta in H.
  destruct (map block_of_match (finditer false template_pattern text)) as [|b bl];
    [exact H|].
  destruct H as (templates & Hload & Hlookup). exists templates.
  split; [exact Hload|]. split; [|exact Hlookup].
  intros k. rewrite elem_of_dom, Hlookup. apply last_block_Some.
Qed.

(** ** The response extractor *)

Lemma char_matches_lt (d : ascii) : char_matches true "<" d = Ascii.eqb "<" d.
Proof. destruct d as [[] [] [] [] [] [] [] []]; vm_compute; reflexivity. Qed.

Lemma char_matches_gt (d : ascii) : char_matches true ">" d = Ascii.eqb ">" d.
Proof. destruct d as [[] [] [] [] [] [] [] []]; vm_compute; reflexivity. Qed.

Lemma char_matches_slash (d : ascii) : char_matches true "/" d = Ascii.eqb "/" d.
Proof. destruct d as [[] [] [] [] [] [] [] []]; vm_compute; reflexivity. Qed.

Lemma char_matches_space (c d : ascii) :
  char_matches true c d = true -> py_isspace d = py_isspace c.
Proof.
  cbn [char_matches]. intros H. apply Ascii.eqb_eq in H.
  now rewrite <- (lower_space d), <- H, lower_space.
Qed.

Lemma match_text_Some (tag_name s s' : str) :
  match_text true tag_name s = Some s' ->
  exists t, same_name tag_name t /\ s = t ++ s'.
Proof.
  revert s. induction tag_name as [|c tag_name IH]; intros s; cbn [match_text].
  - intros [= ->]. exists []. split; [constructor | reflexivity].
  - destruct s as [|d s]; [discriminate|].
    destruct (char_matches true c d) eqn:E; [|discriminate].
    intros H. apply IH in H as (t & Ht & ->). exists (d :: t).
    split; [|reflexivity]. constructor; [|exact Ht]. now apply Ascii.eqb_eq in E.
Qed.

Lemma match_text_same (tag_name t s' : str) :
  same_name tag_name t -> match_text true tag_name (t ++ s') = Some s'.
Proof.
  induction 1 as [|c d tag_name t Hcd _ IH]; [reflexivity|].
  cbn [app match_text char_matches]. rewrite Hcd, Ascii.eqb_refl. exact IH.
Qed.

Lemma same_name_no_space (tag_name t : str) :
  no_space_name tag_name -> same_name tag_name t -> no_space_name t.
Proof.
  intros Hn H. induction H as [|c d tag_name t Hcd _ IH]; [constructor|].
  inversion Hn as [|? ? Hc Hn']; subst. constructor; [|now apply IH].
  now rewrite <- (lower_space d), <- Hcd, lower_space.
Qed.

Lemma match_text_space_head (tag_name : str) (d : ascii) (s : str) :
  no_space_name tag_name -> tag_name <> [] -> py_isspace d = true ->
  match_text true tag_name (d :: s) = None.
Proof.
  intros Hn Hne Hd. destruct Hn as [|c tag_name Hc _]; [congruence|].
  cbn [match_text]. destruct (char_matches true c d) eqn:E; [|reflexivity].
  apply char_matches_space in E. congruence.
Qed.

Lemma after_run_idem (cls : ascii -> bool) (s : str) :
  after_run cls (after_run cls s) = after_run cls s.
Proof.
  induction s as [|d s IH]; [reflexivity|]. cbn [after_run].
  destruct (cls d) eqn:E; [exact IH|]. cbn [after_run]. now rewrite E.
Qed.

Lemma after_run_no_space (t s : str) :
  no_space_name t -> t <> [] -> after_run py_isspace (t ++ s) = t ++ s.
Proof.
  intros Ht Hne. destruct Ht as [|c t Hc _]; [congruence|].
  cbn [app]. now apply after_run_head.
Qed.

(** [ name >] at the head of a text. *)
Lemma name_rest_Some (tag_name s s' : str) :
  name_rest tag_name s = Some s' ->
  exists w1 t w2, spaces w1 /\ same_name tag_name t /\ spaces w2 /\
    s = w1 ++ t ++ w2 ++ ">"%char :: s'.
Proof.
  unfold name_rest.
  destruct (match_text true tag_name (after_run py_isspace s)) as [s2|] eqn:E;
    [|discriminate].
  destruct (after_run py_isspace s2) as [|d s3] eqn:E2; [discriminate|].
  destruct (Ascii.eqb ">" d) eqn:Ed; [|discriminate]. apply Ascii.eqb_eq in Ed. subst d.
  intros [= ->]. apply match_text_Some in E as (t & Ht & E).
  exists (run_of py_isspace s), t, (run_of py_isspace s2).
  split; [apply run_of_Forall|]. split; [exact Ht|]. split; [apply run_of_Forall|].
  rewrite <- E2, run_after, <- E. symmetry. apply run_after.
Qed.

Lemma name_rest_complete (tag_name w1 t w2 s' : str) :
  no_space_name tag_name ->
  spaces w1 -> same_name tag_name t -> spaces w2 ->
  name_rest tag_name (w1 ++ t ++ w2 ++ ">"%char :: s') = Some s'.
Proof.
  intros Hn H1 Ht H2. unfold name_rest. rewrite after_run_app by exact H1.
  assert (Hw2 : after_run py_isspace (w2 ++ ">"%char :: s') = ">"%char :: s').
  { rewrite after_run_app by exact H2. now apply after_run_head. }
  destruct t as [|d t].
  - inversion Ht; subst. cbn [app match_text]. rewrite after_run_idem, Hw2.
    now rewrite Ascii.eqb_refl.
  - rewrite after_run_no_space; [|now apply (same_name_no_space tag_name) | discriminate].
    rewrite match_text_same by exact Ht. rewrite Hw2. now rewrite Ascii.eqb_refl.
Qed.

Lemma open_tag_app (w1 t w2 s' : str) :
  ("<"%char :: w1 ++ t ++ w2 ++ [">"%char]) ++ s'
  = "<"%char :: w1 ++ t ++ w2 ++ ">"%char :: s'.
Proof. cbn [app]. now rewrite <- !app_assoc. Qed.

Lemma close_tag_app (w1 t w2 s' : str) :
  ("<"%char :: "/"%char :: w1 ++ t ++ w2 ++ [">"%char]) ++ s'
  = "<"%char :: "/"%char :: w1 ++ t ++ w2 ++ ">"%char :: s'.
Proof. cbn [app]. now rewrite <- !app_assoc. Qed.

Lemma open_rest_Some (tag_name s s' : str) :
  open_rest tag_name s = Some s' -> exists o, is_open_tag tag_name o /\ s = o ++ s'.
Proof.
  unfold open_rest. destruct s as [|d s1]; [discriminate|].
  destruct (Ascii.eqb "<" d) eqn:Ed; [|discriminate]. apply Ascii.eqb_eq in Ed. subst d.
  intros H. apply name_rest_Some in H as (w1 & t & w2 & H1 & Ht & H2 & ->).
  exists ("<"%char :: w1 ++ t ++ w2 ++ [">"%char]). split.
  - now exists w1, t, w2.
  - now rewrite open_tag_app.
Qed.

Lemma open_rest_complete (tag_name o s' : str) :
  no_space_name tag_name -> is_open_tag tag_name o ->
  open_rest tag_name (o ++ s') = Some s'.
Proof.
  intros Hn (w1 & t & w2 & H1 & Ht & H2 & ->). rewrite open_tag_app.
  unfold open_rest. rewrite Ascii.eqb_refl. now apply name_rest_complete.
Qed.

Lemma close_rest_Some (tag_name s s' : str) :
  close_rest tag_name s = Some s' -> exists c, is_close_tag tag_name c /\ s = c ++ s'.
Proof.
  unfold close_rest. destruct s as [|d [|d' s1]]; try discriminate.
  destruct (Ascii.eqb "<" d) eqn:Ed; [|discriminate]. apply Ascii.eqb_eq in Ed. subst d.
  destruct (Ascii.eqb "/" d') eqn:Ed'; [|discriminate]. apply Ascii.eqb_eq in Ed'. subst d'.
  cbn [andb]. intros H. apply name_rest_Some in H as (w1 & t & w2 & H1 & Ht & H2 & ->).
  exists ("<"%char :: "/"%char :: w1 ++ t ++ w2 ++ [">"%char]). split.
  - now exists w1, t, w2.
  - now rewrite close_tag_app.
Qed.

Lemma close_rest_complete (tag_name c s' : str) :
  no_space_name tag_name -> is_close_tag tag_name c ->
  close_rest tag_name (c ++ s') = Some s'.
Proof.
  intros Hn (w1 & t & w2 & H1 & Ht & H2 & ->). rewrite close_tag_app.
  unfold close_rest. rewrite !Ascii.eqb_refl. cbn [andb]. now apply name_rest_complete.
Qed.

Lemma close_rest_None (tag_name s : str) :
  no_space_name tag_name -> close_rest tag_name s = None <-> ~ close_starts tag_name s.
Proof.
  intros Hn. split.
  - intros H (c & rest & Hc & ->). now rewrite close_rest_complete in H.
  - intros H. destruct (close_rest tag_name s) as [s'|] eqn:E; [|reflexivity].
    exfalso. apply H. apply close_rest_Some in E as (c & Hc & ->). now exists c, s'.
Qed.

(** *** The pattern of the extractor, for a plain tag name *)

Lemma plain_no_space (tag_name : str) : plain_name tag_name -> no_space_name tag_name.
Proof. intros H. eapply Forall_impl; [exact H | cbn; tauto]. Qed.

Lemma tag_nodes_plain (tag_name : str) :
  plain_name tag_name -> tag_nodes tag_name = Some (map NChar tag_name).
Proof.
  unfold tag_nodes. induction 1 as [|c tag_name [Hc _] _ IH]; [reflexivity|].
  cbn [mapM map]. rewrite IH. unfold tag_node. rewrite Hc.
  destruct (Ascii.eqb c ".") eqn:E; [|reflexivity].
  apply Ascii.eqb_eq in E. subst c. discriminate.
Qed.

Lemma run_chars (tag_name : str) (p : list node) (caps : list str) (s : str) :
  run true (map NChar tag_name ++ p) caps s
  = match match_text true tag_name s with
    | Some s' => run true p caps s'
    | None => None
    end.
Proof.
  revert s. induction tag_name as [|c tag_name IH]; intros s; [reflexivity|].
  cbn [map app run match_text]. destruct s as [|d s]; [reflexivity|].
  destruct (char_matches true c d); [apply IH | reflexivity].
Qed.

Lemma run_gt_space (p : list node) (caps : list str) (d : ascii) (s : str) :
  py_isspace d = true -> run true (NChar ">" :: p) caps (d :: s) = None.
Proof.
  intros Hd. cbn [run]. rewrite char_matches_gt.
  destruct (Ascii.eqb ">" d) eqn:E; [|reflexivity].
  apply Ascii.eqb_eq in E. subst d. discriminate.
Qed.

Lemma run_gt (p : list node) (caps : list str) (s : str) :
  run true (NChar ">" :: p) caps s
  = match s with
    | d :: s' => if Ascii.eqb ">" d then run true p caps s' else None
    | [] => None
    end.
Proof. destruct s as [|d s]; [reflexivity|]. cbn [run]. now rewrite char_matches_gt. Qed.

(** [\s*name\s*>] needs no backtracking. *)
Lemma run_name (tag_name : str) (p : list node) (caps : list str) (s : str) :
  no_space_name tag_name ->
  run true (NStar py_isspace :: map NChar tag_name ++ NStar py_isspace :: NChar ">" :: p) caps s
  = match name_rest tag_name s with
    | Some s' => run true p caps s'
    | None => None
    end.
Proof.
  intros Hn. unfold name_rest. cbn [run].
  assert (Hk2 : forall s2,
    star_greedy py_isspace (run true (NChar ">" :: p) caps) s2
    = match after_run py_isspace s2 with
      | d :: s3 => if Ascii.eqb ">" d then run true p caps s3 else None
      | [] => None
      end).
  { intros s2. rewrite star_greedy_run by (intros; now apply run_gt_space). apply run_gt. }
  destruct tag_name as [|c tag_name].
  - cbn [map app match_text]. cbn [run].
    rewrite star_greedy_twice by (intros; now apply run_gt_space).
    rewrite Hk2, after_run_idem.
    destruct (after_run py_isspace s) as [|d s3]; [reflexivity|].
    now destruct (Ascii.eqb ">" d).
  - rewrite star_greedy_run.
    + rewrite run_chars. destruct (match_text true (c :: tag_name) _) as [s2|]; [|reflexivity].
      cbn [run]. rewrite Hk2. destruct (after_run py_isspace s2) as [|d s3]; [reflexivity|].
      now destruct (Ascii.eqb ">" d).
    + intros d s' Hd. rewrite run_chars.
      now rewrite match_text_space_head by (assumption || discriminate).
Qed.

Lemma extract_pattern_eq (t : list node) :
  extract_pattern t
  = NChar "<" :: NStar py_isspace :: t ++ NStar py_isspace :: NChar ">" :: NGroupLazy
      :: NChar "<" :: NChar "/" :: NStar py_isspace :: t ++ NStar py_isspace :: [NChar ">"].
Proof. reflexivity. Qed.

Lemma run_extract (tag_name s : str) :
  no_space_name tag_name ->
  run true (extract_pattern (map NChar tag_name)) [] s = occurrence_at tag_name s.
Proof.
  intros Hn. rewrite extract_pattern_eq. unfold occurrence_at, open_rest.
  destruct s as [|d s1]; [reflexivity|].
  cbn [run]. rewrite char_matches_lt. destruct (Ascii.eqb "<" d); [|reflexivity].
  change (star_greedy py_isspace ?k s1)
    with (run true (NStar py_isspace :: map NChar tag_name ++ NStar py_isspace
            :: NChar ">" :: NGroupLazy :: NChar "<" :: NChar "/" :: NStar py_isspace
            :: map NChar tag_name ++ NStar py_isspace :: [NChar ">"]) [] s1).
  rewrite run_name by exact Hn.
  destruct (name_rest tag_name s1) as [s2|]; [|reflexivity].
  cbn [run]. apply lazy_any_ext. intros w s3. cbn [app]. unfold close_rest.
  destruct s3 as [|d1 [|d2 s4]]; try reflexivity.
  - rewrite char_matches_lt. now destruct (Ascii.eqb "<" d1).
  - rewrite char_matches_lt, char_matches_slash.
    destruct (Ascii.eqb "<" d1); [|reflexivity].
    destruct (Ascii.eqb "/" d2); [|reflexivity]. cbn [andb].
    change (star_greedy py_isspace ?k s4)
      with (run true (NStar py_isspace :: map NChar tag_name ++ NStar py_isspace
              :: NChar ">" :: []) [w] s4).
    rewrite run_name by exact Hn. now destruct (name_rest tag_name s4).
Qed.

Lemma search_find_occurrence (tag_name s : str) :
  no_space_name tag_name ->
  search true (extract_pattern (map NChar tag_name)) s = find_occurrence tag_name s.
Proof.
  intros Hn. induction s as [|c s IH]; cbn [search find_occurrence];
    rewrite run_extract by exact Hn.
  - reflexivity.
  - now rewrite IH.
Qed.

(** *** Occurrences *)

Lemma occurrence_at_sound (tag_name s : str) (caps : list str) (rest : str) :
  no_space_name tag_name ->
  occurrence_at tag_name s = Some (caps, rest) ->
  exists o inner c, caps = [inner] /\
    is_open_tag tag_name o /\ is_close_tag tag_name c /\
    s = o ++ inner ++ c ++ rest /\
    forall i1 i2, inner = i1 ++ i2 -> i2 <> [] -> ~ close_starts tag_name (i2 ++ c ++ rest).
Proof.
  intros Hn. unfold occurrence_at.
  destruct (open_rest tag_name s) as [s1|] eqn:Eo; [|discriminate].
  apply open_rest_Some in Eo as (o & Ho & ->).
  intros H. apply lazy_any_Some in H as (inner & rest' & -> & Hk & Hmin).
  cbn [app] in Hk. destruct (close_rest tag_name rest') as [r|] eqn:Ec; [|discriminate].
  cbn in Hk. injection Hk as <- ->.
  apply close_rest_Some in Ec as (c & Hc & ->).
  exists o, inner, c. repeat split; try assumption.
  intros i1 i2 Hi Hi2. specialize (Hmin i1 i2 Hi Hi2). cbn [app] in Hmin.
  apply close_rest_None; [exact Hn|].
  now destruct (close_rest tag_name (i2 ++ c ++ rest)).
Qed.

Lemma occurrence_at_complete (tag_name o inner c rest : str) :
  no_space_name tag_name ->
  is_open_tag tag_name o -> is_close_tag tag_name c ->
  (forall i1 i2, inner = i1 ++ i2 -> i2 <> [] -> ~ close_starts tag_name (i2 ++ c ++ rest)) ->
  occurrence_at tag_name (o ++ inner ++ c ++ rest) = Some ([inner], rest).
Proof.
  intros Hn Ho Hc Hmin. unfold occurrence_at. rewrite open_rest_complete by assumption.
  apply lazy_any_first.
  - intros i1 i2 Hi Hi2. cbn [app].
    specialize (Hmin i1 i2 Hi Hi2). apply (close_rest_None tag_name _ Hn) in Hmin.
    now rewrite Hmin.
  - cbn [app]. now rewrite close_rest_complete.
Qed.

Lemma occurrence_at_starts (tag_name s : str) :
  no_space_name tag_name -> occurrence_starts tag_name s -> occurrence_at tag_name s <> None.
Proof.
  intros Hn (o & inner & c & rest & Ho & Hc & ->). unfold occurrence_at.
  rewrite open_rest_complete by assumption.
  intros H. eapply lazy_any_None in H; [|reflexivity].
  cbn [app] in H. now rewrite close_rest_complete in H.
Qed.

Lemma find_occurrence_Some (tag_name s : str) (caps : list str) (rest : str) :
  no_space_name tag_name ->
  find_occurrence tag_name s = Some (caps, rest) ->
  exists inner, caps = [inner] /\ first_occurrence tag_name s inner.
Proof.
  intros Hn. induction s as [|d s IH]; cbn [find_occurrence].
  - destruct (occurrence_at tag_name []) as [m|] eqn:E; [|discriminate].
    intros [= ->]. apply occurrence_at_sound in E as (o & inner & c & -> & Ho & Hc & Hs & Hmin);
      [|exact Hn].
    exists inner. split; [reflexivity|]. exists [], o, c, rest. repeat split; try assumption.
    intros p1 p2 Hp. symmetry in Hp. apply app_eq_nil in Hp as [_ ->]. congruence.
  - destruct (occurrence_at tag_name (d :: s)) as [m|] eqn:E.
    + intros [= ->]. apply occurrence_at_sound in E as (o & inner & c & -> & Ho & Hc & Hs & Hmin);
        [|exact Hn].
      exists inner. split; [reflexivity|]. exists [], o, c, rest. repeat split; try assumption.
      intros p1 p2 Hp. symmetry in Hp. apply app_eq_nil in Hp as [_ ->]. congruence.
    + intros H. apply IH in H as (inner & -> & pre & o & c & rest' & -> & Ho & Hc & Hpre & Hmin).
      exists inner. split; [reflexivity|]. exists (d :: pre), o, c, rest'.
      repeat split; try assumption.
      intros [|d' p1] p2 Hp Hp2; cbn [app] in Hp.
      * subst p2. intros Hocc. now apply occurrence_at_starts in Hocc.
      * injection Hp as _ ->. now apply (Hpre p1 p2).
Qed.

Lemma find_occurrence_None (tag_name s : str) :
  no_space_name tag_name ->
  find_occurrence tag_name s = None -> no_occurrence tag_name s.
Proof.
  intros Hn. induction s as [|d s IH]; cbn [find_occurrence].
  - destruct (occurrence_at tag_name []) eqn:E; [discriminate|]. intros _ pre post Hs.
    symmetry in Hs. apply app_eq_nil in Hs as [_ ->]. intros Hocc.
    now apply occurrence_at_starts in Hocc.
  - destruct (occurrence_at tag_name (d :: s)) eqn:E; [discriminate|].
    intros H [|d' pre] post Hs; cbn [app] in Hs.
    + subst post. intros Hocc. now apply occurrence_at_starts in Hocc.
    + injection Hs as _ ->. now apply (IH H pre post).
Qed.

Lemma first_occurrence_find (tag_name s inner : str) :
  no_space_name tag_name ->
  first_occurrence tag_name s inner ->
  exists rest, find_occurrence tag_name s = Some ([inner], rest).
Proof.
  intros Hn (pre & o & c & rest & -> & Ho & Hc & Hpre & Hmin). exists rest.
  induction pre as [|d pre IH].
  - cbn [app]. assert (E := occurrence_at_complete tag_name o inner c rest Hn Ho Hc Hmin).
    destruct (o ++ inner ++ c ++ rest); cbn [find_occurrence]; now rewrite E.
  - cbn [app find_occurrence].
    destruct (occurrence_at tag_name (d :: pre ++ o ++ inner ++ c ++ rest)) as [[caps r]|] eqn:E.
    + exfalso. apply (Hpre [] (d :: pre) eq_refl); [discriminate|].
      apply occurrence_at_sound in E as (o' & inner' & c' & _ & Ho' & Hc' & E & _); [|exact Hn].
      now exists o', inner', c', r.
    + apply IH. intros p1 p2 -> Hp2. now apply (Hpre (d :: p1) p2).
Qed.

Lemma no_occurrence_find (tag_name s : str) :
  no_space_name tag_name ->
  no_occurrence tag_name s -> find_occurrence tag_name s = None.
Proof.
  intros Hn. induction s as [|d s IH]; intros Hno; cbn [find_occurrence].
  - destruct (occurrence_at tag_name []) as [[caps r]|] eqn:E; [|reflexivity].
    exfalso. apply (Hno [] [] eq_refl).
    apply occurrence_at_sound in E as (o & inner & c & _ & Ho & Hc & E & _); [|exact Hn].
    now exists o, inner, c, r.
  - destruct (occurrence_at tag_name (d :: s)) as [[caps r]|] eqn:E.
    + exfalso. apply (Hno [] (d :: s) eq_refl).
      apply occurrence_at_sound in E as (o & inner & c & _ & Ho & Hc & E & _); [|exact Hn].
      now exists o, inner, c, r.
    + apply IH. intros pre post ->. now apply (Hno (d :: pre) post).
Qed.

Lemma extract_plain (text tag_name : str) :
  plain_name tag_name ->
  _extract_tag_content text tag_name
  = Some match find_occurrence tag_name text with
         | Some (caps, _) => strip (group 1 caps)
         | None => strip text
         end.
Proof.
  intros Hp. unfold _extract_tag_content. rewrite tag_nodes_plain by exact Hp.
  cbn [mbind option_bind]. now rewrite search_find_occurrence by (now apply plain_no_space).
Qed.

(** The extractor on the names that hide the defect of the splice.  For
    every text and every tag name whose characters stand for themselves
    in a pattern and are no white space (the three names the handlers
    pass are such names), the extractor returns the trimmed content of
    the first occurrence of [<name>...</name>], the case of the letters
    and white space around the name being ignored and the content running
    over line ends; it returns the trimmed text when there is no
    occurrence; and one of the two is always the case, so it never
    fails. *)
Theorem extract_tag_content_plain (text tag_name : str) :
  plain_name tag_name ->
  (forall inner, first_occurrence tag_name text inner ->
     _extract_tag_content text tag_name = Some (strip inner)) /\
  (no_occurrence tag_name text ->
     _extract_tag_content text tag_name = Some (strip text)) /\
  ((exists inner, first_occurrence tag_name text inner) \/ no_occurrence tag_name text).
Proof.
  intros Hp. assert (Hn := plain_no_space _ Hp). rewrite extract_plain by exact Hp.
  split; [|split].
  - intros inner H. apply first_occurrence_find in H as [rest ->]; [|exact Hn]. reflexivity.
  - intros H. now rewrite no_occurrence_find.
  - destruct (find_occurrence tag_name text) as [[caps rest]|] eqn:E.
    + left. apply find_occurrence_Some in E as (inner & _ & H); [|exact Hn]. now exists inner.
    + right. now apply find_occurrence_None.
Qed.



Lemma extract_tag_content_plain_witness :
  plain_name (lit "card")
  /\ (forall inner, first_occurrence (lit "card") example_raw inner ->
        _extract_tag_content example_raw (lit "card") = Some (strip inner))
  /\ (no_occurrence (lit "card") example_raw ->
        _extract_tag_content example_raw (lit "card") = Some (strip example_raw))
  /\ ((exists inner, first_occurrence (lit "card") example_raw inner)
      \/ no_occurrence (lit "card") example_raw).
Proof.
  assert (H : plain_name (lit "card")).
  { unfold plain_name. refine (@bool_decide_unpack _ _ _). vm_compute. exact I. }
  split; [exact H|]. exact (extract_tag_content_plain example_raw (lit "card") H).
Defined.

(** ** The LLM client *)

Lemma call_llm_no_key (env : environ) (net : request -> http_outcome)
    (prompt model_name : str) :
  truthy (default [] (py_or (OPENROUTER_API_KEY env) (API_KEY env))) = false ->
  _call_llm env net prompt model_name = ([], Raise missing_key).
Proof.
  unfold _call_llm.
  destruct (py_or _ _) as [[|c k]|]; intros H; [reflexivity | discriminate H | reflexivity].
Qed.

Lemma call_llm_sends_one (env : environ) (net : request -> http_outcome)
    (prompt model_name : str) :
  length (fst (_call_llm env net prompt model_name)) <= 1.
Proof. unfold _call_llm. destruct (py_or _ _) as [[|c k]|]; cbn [fst length]; lia. Qed.

(** A key or an index missing on the way to the content is the error
    "invalid response". *)
Lemma response_content_missing (data : json) (e : exn) :
  (choices ←! getitem_key data (lit "choices");
   first ←! getitem_0 choices;
   message ←! getitem_key first (lit "message");
   getitem_key message (lit "content")) = Raise e ->
  exn_class_of e = KeyError \/ exn_class_of e = IndexError ->
  response_content data = Raise invalid_response.
Proof. unfold response_content. intros -> [-> | ->]; reflexivity. Qed.

(** With a key, one request is sent; on success the content is returned
    trimmed. *)
Lemma call_llm_success (env : environ) (net : request -> http_outcome)
    (prompt model_name api_key : str) (data : json) (content : str) :
  py_or (OPENROUTER_API_KEY env) (API_KEY env) = Some api_key ->
  api_key <> [] ->
  net (llm_request api_key prompt model_name) = Body data ->
  response_content data = Ok (JString content) ->
  _call_llm env net prompt model_name
  = ([llm_request api_key prompt model_name], Ok (strip content)).
Proof.
  unfold _call_llm. intros -> Hk Hnet Hdata. destruct api_key as [|c k]; [congruence|].
  cbv zeta. now rewrite Hnet, Hdata.
Qed.

(** C4 on a payload whose content is [null].  With a key configured and
    the body [{"choices": [{"message": {"content": null}}]}], the call
    raises [AttributeError] from [text.strip()], not the error "invalid
    response": only [KeyError] and [IndexError] are translated. *)
Theorem call_llm_null_content :
  let env := Environ (Some (lit "sk-or-1")) None in
  let data :=
    JObject [(lit "choices",
              JArray [JObject [(lit "message", JObject [(lit "content", JNull)])]])] in
  let net := fun _ : request => Body data in
  snd (_call_llm env net (lit "prompt") (lit "model"))
  = Raise (Exn AttributeError (lit "'NoneType' object has no attribute 'strip'"))
  /\ snd (_call_llm env net (lit "prompt") (lit "model")) <> Raise invalid_response.
Proof. vm_compute. split; [reflexivity | discriminate]. Qed.

(** The reply of the network of the examples, through the client and the
    extractor: the content of the tag; and a reply without the tag comes
    back whole. *)
Example call_then_extract :
  snd (_call_llm example_env example_net (lit "prompt") (lit "model"))
  = Ok (lit "<card>Bug: login fails</card>")
  /\ _extract_tag_content (lit "<card>Bug: login fails</card>") (lit "card")
     = Some (lit "Bug: login fails")
  /\ _extract_tag_content (lit "Bug: login fails") (lit "card")
     = Some (lit "Bug: login fails")
  /\ _extract_tag_content example_raw (lit "card") = Some (lit "Bug: login fails").
Proof. vm_compute. repeat split. Qed.

(** Without a key no request is sent. *)
Example call_without_key :
  _call_llm example_env_no_key example_net (lit "prompt") (lit "model")
  = ([], Raise missing_key).
Proof. apply call_llm_no_key. reflexivity. Qed.

(** ** More on [strip] *)

Lemma lstrip_lstrip (s : str) : lstrip (lstrip s) = lstrip s.
Proof. rewrite !lstrip_after_run. apply after_run_idem. Qed.

Lemma lstrip_app_keep (l r : str) (c : ascii) :
  py_isspace c = false -> lstrip (l ++ c :: r) = lstrip l ++ c :: r.
Proof.
  intros Hc. induction l as [|d l IH]; cbn [app lstrip].
  - now rewrite Hc.
  - destruct (py_isspace d); [exact IH | reflexivity].
Qed.

Lemma lstrip_app_space (s : str) (c : ascii) :
  py_isspace c = true ->
  lstrip (s ++ [c]) = match lstrip s with [] => [] | _ :: _ => lstrip s ++ [c] end.
Proof.
  intros Hc. induction s as [|d s IH]; cbn [app lstrip].
  - now rewrite Hc.
  - destruct (py_isspace d); [exact IH | reflexivity].
Qed.

Lemma rstrip_rstrip (s : str) : rstrip (rstrip s) = rstrip s.
Proof. unfold rstrip. now rewrite rev_involutive, lstrip_lstrip. Qed.

Lemma rstrip_app_space (s : str) (c : ascii) :
  py_isspace c = true -> rstrip (s ++ [c]) = rstrip s.
Proof. intros Hc. unfold rstrip. rewrite rev_app_distr. cbn [rev app lstrip]. now rewrite Hc. Qed.

(** Trimming the right end leaves a trimmed left end trimmed. *)
Lemma lstrip_rstrip (s : str) : lstrip s = s -> lstrip (rstrip s) = rstrip s.
Proof.
  destruct s as [|c s]; [reflexivity|]. cbn [lstrip].
  destruct (py_isspace c) eqn:Hc.
  - intros H. exfalso. assert (L : length (lstrip s) <= length s).
    { clear. induction s as [|d s IH]; cbn [lstrip length]; [lia|].
      destruct (py_isspace d); cbn [length]; lia. }
    rewrite H in L. cbn [length] in L. lia.
  - intros _. unfold rstrip. cbn [rev]. rewrite lstrip_app_keep by exact Hc.
    rewrite rev_app_distr. cbn [rev app lstrip]. now rewrite Hc.
Qed.

Lemma strip_strip (s : str) : strip (strip s) = strip s.
Proof.
  unfold strip. rewrite (lstrip_rstrip (lstrip s)) by apply lstrip_lstrip.
  apply rstrip_rstrip.
Qed.

(** The final newline of a [tk.Text] does not survive [strip]. *)
Lemma strip_text_get (content : str) : strip (text_get content) = strip content.
Proof.
  unfold strip, text_get. change (lit "
") with ["010"%char].
  rewrite lstrip_app_space by reflexivity.
  destruct (lstrip content) as [|d s]; [reflexivity|].
  now apply rstrip_app_space.
Qed.

(** ** The application: what each operation leaves alone *)

Lemma output_with_same (w : widget) (s : str) (o : outputs) :
  output_of w (with_output w s o) = s.
Proof. now destruct w. Qed.

Lemma output_with_other (w w' : widget) (s : str) (o : outputs) :
  w <> w' -> output_of w (with_output w' s o) = output_of w o.
Proof. destruct w, w'; intros H; try reflexivity; congruence. Qed.

Lemma with_output_twice (w : widget) (s s' : str) (o : outputs) :
  with_output w s (with_output w s' o) = with_output w s o.
Proof. now destruct w. Qed.

(** A rejected submission shows the notice and changes nothing else. *)
Lemma run_llm_async_busy (prompt model_name tag_name : str) (w : widget) (msg : str)
    (a : CardPromptApp) :
  _llm_running a = true ->
  _run_llm_async prompt model_name tag_name w msg a = show busy_notice a.
Proof. unfold _run_llm_async. now intros ->. Qed.

(** An accepted one empties its output area, raises the flag, disables
    the buttons and starts one worker. *)
Lemma run_llm_async_idle (prompt model_name tag_name : str) (w : widget) (msg : str)
    (a : CardPromptApp) :
  _llm_running a = false ->
  _run_llm_async prompt model_name tag_name w msg a
  = App (cfg a) (inp a) true (with_output w [] (out a)) msg false true true
        (clipboard a) (dialogs a) (threads a ++ [Task prompt model_name tag_name w])
        (after_queue a).
Proof. unfold _run_llm_async. now intros ->. Qed.

(** The completion callback, on its two paths. *)
Lemma on_done_error (c : completion) (a : CardPromptApp) :
  error_set (done_error c) = true ->
  on_done c a
  = App (cfg a) (inp a) false (out a) (lit "Pronto.") true false false (clipboard a)
        (dialogs a ++ [Dialog showerror (lit "Erro ao chamar LLM") (default [] (done_error c))])
        (threads a) (after_queue a).
Proof. unfold on_done. now intros ->. Qed.

Lemma on_done_success (c : completion) (a : CardPromptApp) :
  error_set (done_error c) = false ->
  on_done c a
  = App (cfg a) (inp a) false (with_output (done_widget c) (done_clean c) (out a))
        (lit "Pronto.") true false false (clipboard a) (dialogs a)
        (threads a) (after_queue a).
Proof.
  unfold on_done. intros ->. unfold edit_output, set_out, _set_busy, set_llm_running.
  cbn [cfg inp _llm_running out status_var buttons_enabled timer_running progress_running
       clipboard dialogs threads after_queue]. rewrite output_with_same, with_output_twice.
  unfold text_insert, text_delete. now rewrite app_nil_r.
Qed.

(** The three handlers stop at a notice, or submit with their own tag. *)
Lemma generate_cases (card_type skeleton user_tok user_text model_name tag_name : str)
    (w : widget) (msg : str) (a : CardPromptApp) :
  (exists d, generate card_type skeleton user_tok user_text model_name tag_name w msg a
             = show d a)
  \/ (exists prompt,
        generate card_type skeleton user_tok user_text model_name tag_name w msg a
        = _run_llm_async prompt model_name tag_name w msg a).
Proof.
  unfold generate. destruct (truthy (strip card_type)); cbn [negb]; [|eauto].
  destruct (_get_template_for_type a (strip card_type)) as [[|c t]|]; eauto.
Qed.

(** ** The calls in flight *)

Lemma workflow_tags_plain (tag_name : str) :
  tag_name ∈ workflow_tags -> plain_name tag_name.
Proof.
  unfold workflow_tags. rewrite !elem_of_cons, elem_of_nil.
  intros [->|[->|[->|[]]]]; unfold plain_name;
    refine (@bool_decide_unpack _ _ _); vm_compute; exact I.
Qed.

(** The worker of a handler always reaches [self.after(0, on_done)]: every
    exception of the call is caught. *)
Lemma worker_total (env : environ) (net : request -> http_outcome) (t : task) :
  task_tag t ∈ workflow_tags ->
  exists reqs c, worker env net t = (reqs, Some c).
Proof.
  intros Ht. apply workflow_tags_plain in Ht. unfold worker.
  destruct (_call_llm env net (task_prompt t) (task_model t)) as [reqs [raw|e]]; [|eauto].
  rewrite extract_plain by exact Ht. eauto.
Qed.

Lemma count_app (f : label -> bool) (ls ls' : list label) :
  count f (ls ++ ls') = count f ls + count f ls'.
Proof. induction ls as [|l ls IH]; cbn [app count]; [reflexivity | rewrite IH; lia]. Qed.

(** An event leaves the calls alone, or is a submission accepted from the
    idle state. *)
Lemma run_llm_async_cases (prompt model_name tag_name : str) (w : widget) (msg : str)
    (a : CardPromptApp) :
  let a' := _run_llm_async prompt model_name tag_name w msg a in
  (_llm_running a' = _llm_running a /\ threads a' = threads a
   /\ after_queue a' = after_queue a)
  \/ (_llm_running a = false /\ _llm_running a' = true
      /\ threads a' = threads a ++ [Task prompt model_name tag_name w]
      /\ after_queue a' = after_queue a).
Proof.
  cbv zeta. destruct (_llm_running a) eqn:E.
  - left. now rewrite run_llm_async_busy.
  - right. now rewrite run_llm_async_idle.
Qed.

Lemma generate_calls (card_type skeleton user_tok user_text model_name tag_name : str)
    (w : widget) (msg : str) (a : CardPromptApp) :
  let a' := generate card_type skeleton user_tok user_text model_name tag_name w msg a in
  (_llm_running a' = _llm_running a /\ threads a' = threads a
   /\ after_queue a' = after_queue a)
  \/ (exists prompt, _llm_running a = false /\ _llm_running a' = true
      /\ threads a' = threads a ++ [Task prompt model_name tag_name w]
      /\ after_queue a' = after_queue a).
Proof.
  cbv zeta.
  destruct (generate_cases card_type skeleton user_tok user_text model_name tag_name w msg a)
    as [[d ->]|[prompt ->]].
  - now left.
  - destruct (run_llm_async_cases prompt model_name tag_name w msg a) as [H|H];
      [now left | right; now exists prompt].
Qed.

Lemma handle_calls (e : event) (a : CardPromptApp) :
  (_llm_running (handle e a) = _llm_running a /\ threads (handle e a) = threads a
   /\ after_queue (handle e a) = after_queue a)
  \/ (exists t, task_tag t ∈ workflow_tags /\ _llm_running a = false
      /\ _llm_running (handle e a) = true
      /\ threads (handle e a) = threads a ++ [t]
      /\ after_queue (handle e a) = after_queue a).
Proof.
  destruct e; cbn [handle].
  - destruct (generate_calls (card_type_info_var (inp a)) (info_validation_prompt (cfg a))
      tok_informacoes_usuario (user_info_validation_text (inp a)) (validation_model (cfg a))
      (lit "info_validacao") output_text_info (lit "Analisando informações com o LLM...") a)
      as [H|[prompt H]]; [now left | right].
    eexists. split; [|exact H]. cbn [task_tag]. unfold workflow_tags.
    rewrite !elem_of_cons. tauto.
  - destruct (generate_calls (card_type_var (inp a)) (creation_prompt (cfg a))
      tok_informacoes_usuario (user_input_text (inp a)) (creation_model (cfg a))
      (lit "card") output_text_create (lit "Gerando card com o LLM...") a)
      as [H|[prompt H]]; [now left | right].
    eexists. split; [|exact H]. cbn [task_tag]. unfold workflow_tags.
    rewrite !elem_of_cons. tauto.
  - destruct (generate_calls (card_type_analyse_var (inp a)) (analisys_prompt (cfg a))
      tok_card_para_analise (card_to_analyse_text (inp a)) (analisys_model (cfg a))
      (lit "analise") output_text_analyse (lit "Analisando card com o LLM...") a)
      as [H|[prompt H]]; [now left | right].
    eexists. split; [|exact H]. cbn [task_tag]. unfold workflow_tags.
    rewrite !elem_of_cons. tauto.
  - left. unfold copy_prompt_info, _copy_to_clipboard. now destruct (negb _).
  - left. unfold copy_prompt_create, _copy_to_clipboard. now destruct (negb _).
  - left. unfold copy_prompt_analyse, _copy_to_clipboard. now destruct (negb _).
  - left. unfold load_additional_info. now destruct choice as [[content|exc]|].
  - now left.
  - now left.
  - now left.
Qed.

Lemma initial_inv (c : config) (clipboard0 : str) : calls_inv (initial c clipboard0).
Proof. split; [reflexivity | constructor]. Qed.

Lemma step_inv (a b : CardPromptApp) (l : label) :
  calls_inv a -> step a l b -> calls_inv b.
Proof.
  unfold calls_inv, in_flight. intros [Hn Ht] Hs.
  destruct Hs as [e a | env net a ts1 ts2 t reqs c Hth Hw | a c q Hq].
  - destruct (handle_calls e a) as [(-> & -> & ->)|(t & Htag & Hidle & -> & -> & ->)].
    + now split.
    + rewrite Hidle in Hn. split.
      * rewrite length_app. cbn [length]. lia.
      * apply Forall_app. split; [exact Ht|]. now constructor.
  - cbn [threads after_queue _llm_running set_after_queue set_threads].
    rewrite Hth in *. rewrite !length_app in *. cbn [length] in *. split; [lia|].
    apply Forall_app in Ht as [H1 H2]. inversion H2; subst.
    apply Forall_app. now split.
  - rewrite Hq in Hn. cbn [length] in Hn.
    destruct (_llm_running a) eqn:E; [|lia].
    assert (threads a = []) by (destruct (threads a); [reflexivity | cbn [length] in Hn; lia]).
    assert (q = []) by (destruct q; [reflexivity | cbn [length] in Hn; lia]). subst q.
    destruct (error_set (done_error c)) eqn:Ee.
    + rewrite on_done_error by exact Ee.
      cbn [threads after_queue _llm_running set_after_queue]. rewrite H. now split.
    + rewrite on_done_success by exact Ee.
      cbn [threads after_queue _llm_running set_after_queue]. rewrite H. now split.
Qed.

Lemma execution_inv (a b : CardPromptApp) (ls : list label) :
  calls_inv a -> execution a ls b -> calls_inv b.
Proof. intros Ha H. induction H; [exact Ha | eauto using step_inv]. Qed.

(** Every step keeps the count: an accepted submission adds a call in
    flight, a delivered completion removes one. *)
Lemma step_count (a b : CardPromptApp) (l : label) :
  calls_inv a -> step a l b ->
  (if is_delivered l then 1 else 0) + in_flight b
  = (if is_accepted l then 1 else 0) + in_flight a.
Proof.
  unfold in_flight. intros [Hn Ht] Hs.
  destruct Hs as [e a | env net a ts1 ts2 t reqs c Hth Hw | a c q Hq].
  - unfold started.
    destruct (handle_calls e a) as [(_ & -> & ->)|(t & _ & _ & _ & -> & ->)].
    + now rewrite decide_True.
    + rewrite decide_False by (rewrite length_app; cbn [length]; lia).
      rewrite last_snoc. cbn [is_delivered is_accepted]. rewrite length_app. cbn [length]. lia.
  - cbn [threads after_queue set_after_queue set_threads is_delivered is_accepted].
    rewrite Hth. rewrite !length_app. cbn [length]. lia.
  - cbn [is_delivered is_accepted]. rewrite Hq. cbn [length].
    destruct (error_set (done_error c)) eqn:Ee;
      [rewrite on_done_error by exact Ee | rewrite on_done_success by exact Ee];
      cbn [threads after_queue set_after_queue]; lia.
Qed.

Lemma execution_count (a b : CardPromptApp) (ls : list label) :
  calls_inv a -> execution a ls b ->
  count is_delivered ls + in_flight b = count is_accepted ls + in_flight a.
Proof.
  intros Ha H. induction H as [a | a b c ls l Hab IH Hbc]; [reflexivity|].
  specialize (IH Ha). assert (Hb := execution_inv _ _ _ Ha Hab).
  assert (Hc := step_count _ _ _ Hb Hbc). rewrite !count_app. cbn [count]. lia.
Qed.

Lemma on_done_show (d : completion) (x : dialog) (a : CardPromptApp) :
  out (on_done d (show x a)) = out (on_done d a)
  /\ _llm_running (on_done d (show x a)) = _llm_running (on_done d a).
Proof.
  destruct (error_set (done_error d)) eqn:E;
    [rewrite !on_done_error by exact E | rewrite !on_done_success by exact E]; now split.
Qed.

(** C5. In every state the application reaches, at most one call is in
    flight, and one is in flight exactly when the flag is set.  A
    submission made while the flag is set shows the notice and changes
    nothing else: no worker starts, the worker and the callback in
    flight stay as they are, and the callback will have the same effect
    on the output areas and on the flag.  A submission that starts a
    worker was made from the idle state. *)
Theorem one_call_in_flight (c : config) (clipboard0 : str) (ls : list label)
    (a : CardPromptApp) (prompt model_name tag_name : str) (w : widget) (msg : str) :
  execution (initial c clipboard0) ls a ->
  let a' := _run_llm_async prompt model_name tag_name w msg a in
  in_flight a <= 1
  /\ (in_flight a = 1 <-> _llm_running a = true)
  /\ (_llm_running a = true ->
        a' = show busy_notice a
        /\ threads a' = threads a /\ after_queue a' = after_queue a
        /\ out a' = out a /\ _llm_running a' = true
        /\ forall d, out (on_done d a') = out (on_done d a)
                     /\ _llm_running (on_done d a') = _llm_running (on_done d a))
  /\ (threads a' <> threads a ->
        _llm_running a = false /\ in_flight a = 0 /\ in_flight a' = 1).
Proof.
  intros Hex a'. destruct (execution_inv _ _ _ (initial_inv c clipboard0) Hex) as [Hn _].
  split; [destruct (_llm_running a); lia|].
  split; [destruct (_llm_running a); split; (lia || congruence)|].
  split.
  - intros Hbusy. subst a'. rewrite run_llm_async_busy by exact Hbusy.
    repeat split; try assumption. all: apply on_done_show.
  - intros Hth. subst a'. destruct (_llm_running a) eqn:E.
    + rewrite run_llm_async_busy in Hth by exact E. now contradiction Hth.
    + rewrite run_llm_async_idle by exact E. unfold in_flight in *.
      cbn [threads after_queue]. rewrite length_app. cbn [length]. repeat split; lia.
Qed.

(** The steps of the round from [example_app]. *)
Lemma step_event_eq (e : event) (a b : CardPromptApp) (l : label) :
  b = handle e a -> l = started a b -> step a l b.
Proof. intros -> ->. constructor. Qed.

Lemma example_round :
  execution example_app [accepted example_task] example_busy
  /\ execution example_app
       [accepted example_task; finished example_task example_completion;
        delivered example_completion]
       example_done.
Proof.
  assert (H1 : execution example_app [accepted example_task] example_busy).
  { apply (execution_step _ example_app _ []); [constructor|].
    apply (step_event_eq click_generate_button); [reflexivity | vm_compute; reflexivity]. }
  split; [exact H1|].
  apply (execution_step _ example_queued _
           [accepted example_task; finished example_task example_completion]).
  - apply (execution_step _ example_busy _ [accepted example_task]); [exact H1|].
    apply (step_worker example_env example_net example_busy [] [] example_task
             [llm_request (lit "sk-or-1") (task_prompt example_task) (task_model example_task)]);
      vm_compute; reflexivity.
  - apply (step_on_done example_queued example_completion []). vm_compute. reflexivity.
Defined.

Lemma one_call_in_flight_witness :
  execution (initial example_config []) [accepted example_task] example_busy
  /\ let a' := _run_llm_async (lit "p") (lit "m") (lit "card") output_text_info (lit "...")
                 example_busy in
     in_flight example_busy <= 1
     /\ (in_flight example_busy = 1 <-> _llm_running example_busy = true)
     /\ (_llm_running example_busy = true ->
           a' = show busy_notice example_busy
           /\ threads a' = threads example_busy
           /\ after_queue a' = after_queue example_busy
           /\ out a' = out example_busy /\ _llm_running a' = true
           /\ forall d, out (on_done d a') = out (on_done d example_busy)
                        /\ _llm_running (on_done d a') = _llm_running (on_done d example_busy))
     /\ (threads a' <> threads example_busy ->
           _llm_running example_busy = false /\ in_flight example_busy = 0
           /\ in_flight a' = 1).
Proof.
  split; [exact (proj1 example_round)|].
  exact (one_call_in_flight example_config [] [accepted example_task] example_busy
           (lit "p") (lit "m") (lit "card") output_text_info (lit "...")
           (proj1 example_round)).
Defined.

Lemma on_done_idle (d : completion) (a : CardPromptApp) :
  _llm_running (on_done d a) = false /\ buttons_enabled (on_done d a) = true
  /\ threads (on_done d a) = threads a /\ after_queue (on_done d a) = after_queue a.
Proof.
  destruct (error_set (done_error d)) eqn:E;
    [rewrite on_done_error by exact E | rewrite on_done_success by exact E];
    repeat split.
Qed.

(** C6. Along every execution the callbacks run and the calls still in
    flight add up to the submissions accepted, and at most one call is in
    flight: each accepted submission has its callback run once, and no
    callback runs twice.  A call in flight always completes: its worker
    reaches the scheduling of the callback under every environment and
    network, and a scheduled callback can run.  The callback clears the
    flag on the error path and on the success path alike; after it the
    application is idle, the buttons are enabled, and a new submission
    is accepted. *)
Theorem completion_exactly_once (c : config) (clipboard0 : str) (ls : list label)
    (a : CardPromptApp) :
  execution (initial c clipboard0) ls a ->
  count is_delivered ls + in_flight a = count is_accepted ls
  /\ in_flight a <= 1
  /\ (forall t env net, t ∈ threads a ->
        exists reqs d b, worker env net t = (reqs, Some d) /\ step a (finished t d) b)
  /\ (forall d q, after_queue a = d :: q ->
        let b := on_done d (set_after_queue q a) in
        step a (delivered d) b
        /\ _llm_running b = false /\ in_flight b = 0 /\ buttons_enabled b = true
        /\ forall prompt model_name tag_name w msg,
             threads (_run_llm_async prompt model_name tag_name w msg b)
             = [Task prompt model_name tag_name w])
  /\ (forall d b, _llm_running (on_done d b) = false).
Proof.
  intros Hex. assert (Hinv := execution_inv _ _ _ (initial_inv c clipboard0) Hex).
  assert (Hcount := execution_count _ _ _ (initial_inv c clipboard0) Hex).
  destruct Hinv as [Hn Ht]. split; [rewrite Hcount; cbn; lia|].
  split; [destruct (_llm_running a); lia|]. split; [|split].
  - intros t env net Hin.
    assert (Htag : task_tag t ∈ workflow_tags) by (rewrite Forall_forall in Ht; auto).
    destruct (worker_total env net t Htag) as (reqs & d & Hw).
    apply list_elem_of_split in Hin as (ts1 & ts2 & Hth).
    exists reqs, d. eexists. split; [exact Hw|]. eapply step_worker; eassumption.
  - intros d q Hq b. split; [now constructor|].
    assert (Hb : calls_inv b).
    { apply (step_inv a b (delivered d)); [now split | now constructor]. }
    destruct (on_done_idle d (set_after_queue q a)) as (Hrun & Hbut & _ & _). fold b in Hrun, Hbut.
    destruct Hb as [Hbn _]. rewrite Hrun in Hbn. repeat split; try assumption.
    intros prompt model_name tag_name w msg. rewrite run_llm_async_idle by exact Hrun.
    cbn [threads]. unfold in_flight in Hbn.
    destruct (threads b); [reflexivity | cbn [length] in Hbn; lia].
  - intros d b. apply on_done_idle.
Qed.

Lemma completion_exactly_once_witness :
  execution (initial example_config [])
    [accepted example_task; finished example_task example_completion;
     delivered example_completion] example_done
  /\ count is_delivered
       [accepted example_task; finished example_task example_completion;
        delivered example_completion] + in_flight example_done
     = count is_accepted
         [accepted example_task; finished example_task example_completion;
          delivered example_completion]
  /\ in_flight example_done <= 1
  /\ (forall t env net, t ∈ threads example_done ->
        exists reqs d b, worker env net t = (reqs, Some d)
                         /\ step example_done (finished t d) b)
  /\ (forall d q, after_queue example_done = d :: q ->
        let b := on_done d (set_after_queue q example_done) in
        step example_done (delivered d) b
        /\ _llm_running b = false /\ in_flight b = 0 /\ buttons_enabled b = true
        /\ forall prompt model_name tag_name w msg,
             threads (_run_llm_async prompt model_name tag_name w msg b)
             = [Task prompt model_name tag_name w])
  /\ (forall d b, _llm_running (on_done d b) = false).
Proof.
  split; [exact (proj2 example_round)|].
  exact (completion_exactly_once example_config [] _ example_done (proj2 example_round)).
Defined.

(** ** The output areas *)

(** C7, as the specification states it, fails.  The creation tab shows
    the card of a completed call; a second submission on the tab is
    accepted, its call fails (the network is down), and after its
    callback the tab is empty: the output shown before is gone, and what
    the tab shows is not the result of its last completed call. *)
Lemma failed_call_clears_output :
  execution example_app
    [accepted example_task; finished example_task example_completion;
     delivered example_completion;
     accepted example_task; finished example_task example_failure;
     delivered example_failure]
    example_failed
  /\ output_of output_text_create (out example_done) = lit "Bug: login fails"
  /\ output_of output_text_create (out example_busy_again) = []
  /\ output_of output_text_create (out example_failed) = []
  /\ output_of output_text_create (out example_failed)
     <> output_of output_text_create (out example_done).
Proof.
  split.
  - apply (execution_step _ (set_after_queue (after_queue example_busy_again ++ [example_failure])
                               (set_threads ([] ++ []) example_busy_again)) _
             [accepted example_task; finished example_task example_completion;
              delivered example_completion;
              accepted example_task; finished example_task example_failure]).
    + apply (execution_step _ example_busy_again _
               [accepted example_task; finished example_task example_completion;
                delivered example_completion; accepted example_task]).
      * apply (execution_step _ example_done _
                 [accepted example_task; finished example_task example_completion;
                  delivered example_completion]); [exact (proj2 example_round)|].
        apply (step_event_eq click_generate_button); [reflexivity | vm_compute; reflexivity].
      * apply (step_worker example_env example_net_down example_busy_again [] [] example_task
                 [llm_request (lit "sk-or-1") (task_prompt example_task)
                    (task_model example_task)]);
          vm_compute; reflexivity.
    + apply (step_on_done _ example_failure []). vm_compute. reflexivity.
  - vm_compute. repeat split; discriminate.
Qed.

(** C7, as the code has it.  A submission and a completion touch no
    output area but their own.  A rejected submission leaves every area as
    it is; an accepted one empties its own area at once.  A completion
    without error puts the extracted text in its area; a completion whose
    error message is not empty writes nothing, so the area stays as the
    submission left it. *)
Theorem output_area_of_own_tab (a : CardPromptApp) (prompt model_name tag_name : str)
    (w w' : widget) (msg : str) (d : completion) :
  let s := _run_llm_async prompt model_name tag_name w msg a in
  (w' <> w -> output_of w' (out s) = output_of w' (out a))
  /\ (w' <> done_widget d -> output_of w' (out (on_done d a)) = output_of w' (out a))
  /\ (_llm_running a = true -> out s = out a)
  /\ (_llm_running a = false -> output_of w (out s) = [])
  /\ (done_error d = None ->
        output_of (done_widget d) (out (on_done d a)) = done_clean d)
  /\ (forall error, done_error d = Some error -> error <> [] -> out (on_done d a) = out a).
Proof.
  cbv zeta. split; [|split; [|split; [|split; [|split]]]].
  - intros Hw. destruct (_llm_running a) eqn:E;
      [now rewrite run_llm_async_busy | rewrite run_llm_async_idle by exact E].
    cbn [out]. now apply output_with_other.
  - intros Hw. destruct (error_set (done_error d)) eqn:E;
      [now rewrite on_done_error | rewrite on_done_success by exact E].
    cbn [out]. now apply output_with_other.
  - intros E. now rewrite run_llm_async_busy.
  - intros E. rewrite run_llm_async_idle by exact E. cbn [out]. apply output_with_same.
  - intros E. rewrite on_done_success by now rewrite E. cbn [out]. apply output_with_same.
  - intros error E Hne. rewrite on_done_error; [reflexivity|].
    rewrite E. now destruct error.
Qed.

(** ** Copying to the clipboard *)

(** C8, as the specification states it, fails.  The output area holds
    the card with white space around it; the copy puts the trimmed text
    on the clipboard, not the text of the area. *)
Lemma copy_trims_output :
  output_of output_text_create (out example_edited) = lit "  Bug: login fails  "
  /\ clipboard (copy_prompt_create example_edited) = lit "Bug: login fails"
  /\ clipboard (copy_prompt_create example_edited)
     <> output_of output_text_create (out example_edited).
Proof. vm_compute. repeat split; discriminate. Qed.

(** C8, as the code has it.  When the output area is empty after
    trimming, the copy shows the notice "nothing to copy" and changes
    nothing else, the clipboard included.  Otherwise the clipboard
    receives the text of the area trimmed of leading and trailing white
    space, which is the text itself when it has none, and the output
    areas stay as they are. *)
Theorem copy_to_clipboard_trimmed (w : widget) (titulo : str) (a : CardPromptApp) :
  let text := output_of w (out a) in
  let a' := _copy_to_clipboard w titulo a in
  (strip text = [] ->
     a' = show (Dialog showinfo (lit "Nada para copiar")
                  (lit "Gere um resultado com o LLM antes de copiar para a área de transferência."))
            a
     /\ clipboard a' = clipboard a)
  /\ (strip text <> [] ->
        clipboard a' = strip text
        /\ (strip text = text -> clipboard a' = text)
        /\ out a' = out a
        /\ dialogs a' = dialogs a ++ [Dialog showinfo (lit "Copiado")
                                        (titulo ++ lit " copiado para a área de transferência.")]).
Proof.
  cbv zeta. unfold _copy_to_clipboard. rewrite strip_text_get. split.
  - intros ->. now split.
  - intros H. apply truthy_true in H. rewrite H. cbn [negb].
    repeat split. now intros ->.
Qed.

(** ** The workflow controllers *)

Lemma get_template_stripped (a : CardPromptApp) (card_type : str) :
  _get_template_for_type a (strip card_type)
  = if truthy (strip card_type) then templates (cfg a) !! strip card_type else None.
Proof. unfold _get_template_for_type. now rewrite strip_strip. Qed.

Lemma handler_generate (wf : workflow) (a : CardPromptApp) :
  exists skeleton user_tok user_text model_name tag_name w msg,
    handler wf a
    = generate (selected_type wf a) skeleton user_tok user_text model_name tag_name w msg a.
Proof. destruct wf; cbn [handler selected_type]; repeat eexists. Qed.

(** C9. For each of the three controllers: when no type is selected, or
    the selected type has no template in the store, the handler shows a
    warning or an error box and does nothing else; no prompt is
    submitted, the flag, the output areas, the workers and the scheduled
    callbacks are as before. *)
Theorem generate_needs_template (wf : workflow) (a : CardPromptApp) :
  strip (selected_type wf a) = []
  \/ templates (cfg a) !! strip (selected_type wf a) = None ->
  exists d, handler wf a = show d a
    /\ (dialog_kind_of d = showwarning \/ dialog_kind_of d = showerror)
    /\ _llm_running (handler wf a) = _llm_running a
    /\ out (handler wf a) = out a
    /\ threads (handler wf a) = threads a
    /\ after_queue (handler wf a) = after_queue a.
Proof.
  intros H.
  destruct (handler_generate wf a)
    as (skeleton & user_tok & user_text & model_name & tag_name & w & msg & ->).
  unfold generate. destruct (truthy (strip (selected_type wf a))) eqn:E; cbn [negb].
  - rewrite get_template_stripped, E. destruct H as [H|H].
    + rewrite H in E. discriminate.
    + rewrite H. eexists. split; [reflexivity|]. cbn [dialog_kind_of]. repeat split. now right.
  - eexists. split; [reflexivity|]. cbn [dialog_kind_of]. repeat split. now left.
Qed.

Lemma generate_needs_template_witness :
  (strip (selected_type create example_no_template) = []
   \/ templates (cfg example_no_template) !! strip (selected_type create example_no_template)
      = None)
  /\ exists d, handler create example_no_template = show d example_no_template
       /\ (dialog_kind_of d = showwarning \/ dialog_kind_of d = showerror)
       /\ _llm_running (handler create example_no_template) = _llm_running example_no_template
       /\ out (handler create example_no_template) = out example_no_template
       /\ threads (handler create example_no_template) = threads example_no_template
       /\ after_queue (handler create example_no_template) = after_queue example_no_template.
Proof.
  assert (H : strip (selected_type create example_no_template) = []
              \/ templates (cfg example_no_template)
                   !! strip (selected_type create example_no_template) = None)
    by (right; vm_compute; reflexivity).
  split; [exact H|]. exact (generate_needs_template create example_no_template H).
Defined.

(** ** The worker and its callback *)

Lemma error_set_Some (m : str) : error_set (Some m) = truthy m.
Proof. now destruct m. Qed.

Lemma snoc_neq {A} (l : list A) (x : A) : l ++ [x] <> l.
Proof.
  intros H. apply (f_equal length) in H. rewrite length_app in H. cbn [length] in H. lia.
Qed.

(** The worker and its callback in every case.  The worker of a handler
    returns under every environment and
    network: whatever [_call_llm] raises (a failed request, a body that is
    no JSON, a payload of the wrong shape, a content that is no string)
    is caught and kept as its message, and one callback is scheduled.  The
    callback then takes exactly one of two paths, never both: it shows the
    error box with the message and leaves the output areas alone, or it
    shows no box and writes [llm_clean] to the output area of the task.
    A call that returned takes the second path with the extracted text;
    a call that raised takes the first whenever the message is not empty
    (with an empty message [if error:] does not hold, and the second path
    writes the empty text). *)
Theorem worker_single_outcome (env : environ) (net : request -> http_outcome)
    (t : task) (a : CardPromptApp) :
  task_tag t ∈ workflow_tags ->
  exists reqs d,
    worker env net t = (reqs, Some d) /\ done_widget d = task_widget t /\
    let b := on_done d a in
    let box := Dialog showerror (lit "Erro ao chamar LLM") (default [] (done_error d)) in
    let shown := dialogs b = dialogs a ++ [box] /\ out b = out a in
    let written :=
      dialogs b = dialogs a /\ out b = with_output (task_widget t) (done_clean d) (out a) in
    (shown \/ written) /\ ~ (shown /\ written) /\ _llm_running b = false /\
    match snd (_call_llm env net (task_prompt t) (task_model t)) with
    | Ok llm_raw =>
        done_error d = None
        /\ _extract_tag_content llm_raw (task_tag t) = Some (done_clean d)
        /\ written
    | Raise exc =>
        done_error d = Some (exn_str exc) /\ done_clean d = []
        /\ (exn_str exc <> [] -> shown)
        /\ (exn_str exc = [] -> written)
    end.
Proof.
  intros Ht. apply workflow_tags_plain in Ht.
  assert (Hcases : forall d, done_widget d = task_widget t ->
    (error_set (done_error d) = true ->
       dialogs (on_done d a)
       = dialogs a ++ [Dialog showerror (lit "Erro ao chamar LLM") (default [] (done_error d))]
       /\ out (on_done d a) = out a)
    /\ (error_set (done_error d) = false ->
          dialogs (on_done d a) = dialogs a
          /\ out (on_done d a) = with_output (task_widget t) (done_clean d) (out a))).
  { intros d Hd. split; intros E.
    - rewrite on_done_error by exact E. now split.
    - rewrite on_done_success by exact E. rewrite Hd. now split. }
  unfold worker.
  destruct (_call_llm env net (task_prompt t) (task_model t)) as [reqs [raw|e]] eqn:Ecall;
    cbn [snd].
  - rewrite extract_plain by exact Ht.
    set (clean := match find_occurrence (task_tag t) raw with
                  | Some (caps, _) => strip (group 1 caps)
                  | None => strip raw
                  end).
    exists reqs, (Completion None clean (task_widget t)). split; [reflexivity|].
    split; [reflexivity|]. cbv zeta.
    destruct (Hcases (Completion None clean (task_widget t)) eq_refl) as [_ Hw].
    specialize (Hw eq_refl). cbn [done_error done_clean] in *.
    split; [now right|]. split.
    + intros [[Hs _] _]. destruct Hw as [Hw _]. rewrite Hw in Hs.
      symmetry in Hs. now apply snoc_neq in Hs.
    + split; [apply on_done_idle|]. split; [reflexivity|]. split; [reflexivity | exact Hw].
  - exists reqs, (Completion (Some (exn_str e)) [] (task_widget t)). split; [reflexivity|].
    split; [reflexivity|]. cbv zeta.
    destruct (Hcases (Completion (Some (exn_str e)) [] (task_widget t)) eq_refl) as [Hs Hw].
    cbn [done_error done_clean default from_option id] in *.
    rewrite error_set_Some in Hs, Hw.
    destruct (truthy (exn_str e)) eqn:E.
    + specialize (Hs eq_refl). split; [now left|]. split.
      * intros [_ [Hd _]]. destruct Hs as [Hs _]. rewrite Hs in Hd. now apply snoc_neq in Hd.
      * split; [apply on_done_idle|]. split; [reflexivity|]. split; [reflexivity|].
        split; [intros _; exact Hs | intros Hm; rewrite Hm in E; discriminate].
    + specialize (Hw eq_refl). split; [now right|]. split.
      * intros [[Hd _] _]. destruct Hw as [Hw _]. rewrite Hw in Hd.
        symmetry in Hd. now apply snoc_neq in Hd.
      * split; [apply on_done_idle|]. split; [reflexivity|]. split; [reflexivity|].
        split; [intros Hm; apply truthy_true in Hm; congruence | intros _; exact Hw].
Qed.

Lemma worker_single_outcome_witness :
  task_tag example_task ∈ workflow_tags
  /\ exists reqs d,
       worker example_env example_net_down example_task = (reqs, Some d)
       /\ done_widget d = task_widget example_task /\
       let b := on_done d example_busy_again in
       let box := Dialog showerror (lit "Erro ao chamar LLM") (default [] (done_error d)) in
       let shown := dialogs b = dialogs example_busy_again ++ [box]
                    /\ out b = out example_busy_again in
       let written :=
         dialogs b = dialogs example_busy_again
         /\ out b = with_output (task_widget example_task) (done_clean d)
                      (out example_busy_again) in
       (shown \/ written) /\ ~ (shown /\ written) /\ _llm_running b = false /\
       match snd (_call_llm example_env example_net_down (task_prompt example_task)
                    (task_model example_task)) with
       | Ok llm_raw =>
           done_error d = None
           /\ _extract_tag_content llm_raw (task_tag example_task) = Some (done_clean d)
           /\ written
       | Raise exc =>
           done_error d = Some (exn_str exc) /\ done_clean d = []
           /\ (exn_str exc <> [] -> shown)
           /\ (exn_str exc = [] -> written)
       end.
Proof.
  assert (H : task_tag example_task ∈ workflow_tags).
  { unfold workflow_tags. apply elem_of_cons. left. vm_compute. reflexivity. }
  split; [exact H|].
  exact (worker_single_outcome example_env example_net_down example_task example_busy_again H).
Defined.

(** C10.  A call that raises is to end in the error box with the
    exception message.  When the exception has no message ([str(exc)] is
    the empty string) the worker keeps [error = ""], and the test
    [if error:] of the callback does not hold: the round ends without any
    box, on the path of a call that returned, which deletes the output
    area (here what the user typed while waiting) and inserts the empty
    text. *)
Theorem worker_empty_message_no_box :
  snd (_call_llm example_env example_net_silent (task_prompt example_task)
         (task_model example_task)) = Raise (Exn RequestException [])
  /\ worker example_env example_net_silent example_task
     = ([llm_request (lit "sk-or-1") (task_prompt example_task) (task_model example_task)],
        Some example_silent)
  /\ execution example_app
       [accepted example_task; quiet; finished example_task example_silent;
        delivered example_silent]
       example_unnoticed
  /\ output_of output_text_create (out example_typed) = lit "rascunho"
  /\ dialogs example_unnoticed = []
  /\ output_of output_text_create (out example_unnoticed) = []
  /\ _llm_running example_unnoticed = false.
Proof.
  split; [vm_compute; reflexivity|]. split; [vm_compute; reflexivity|]. split.
  - apply (execution_step _ (set_after_queue (after_queue example_typed ++ [example_silent])
                               (set_threads ([] ++ []) example_typed)) _
             [accepted example_task; quiet; finished example_task example_silent]).
    + apply (execution_step _ example_typed _ [accepted example_task; quiet]).
      * apply (execution_step _ example_busy _ [accepted example_task]);
          [exact (proj1 example_round)|].
        apply (step_event_eq (user_types_output output_text_create (lit "rascunho")));
          [reflexivity | vm_compute; reflexivity].
      * apply (step_worker example_env example_net_silent example_typed [] [] example_task
                 [llm_request (lit "sk-or-1") (task_prompt example_task)
                    (task_model example_task)]);
          vm_compute; reflexivity.
    + apply (step_on_done _ example_silent []). vm_compute. reflexivity.
  - vm_compute. repeat split.
Qed.

(** ** Further properties of the prompt builder *)

Lemma replace_from_absent (a : ascii) (old new s : str) :
  occurs (a :: old) s = false -> replace_from (a :: old) new 0 s = s.
Proof.
  induction s as [|c s IH]; [reflexivity|].
  cbn [occurs replace_from]. intros H. apply orb_false_iff in H as [H1 H2].
  rewrite H1. f_equal. now apply IH.
Qed.

(** X1. A prompt in which [{informacoes_adicionais}] does not occur comes
    back from [_apply_common_replacements] as it is, whatever the
    project information. *)
Theorem common_replacements_absent (additional_info prompt : str) :
  occurs tok_informacoes_adicionais prompt = false ->
  _apply_common_replacements additional_info prompt = prompt.
Proof.
  unfold _apply_common_replacements.
  change tok_informacoes_adicionais with (hole_token (lit "informacoes_adicionais")).
  unfold hole_token. intros H.
  exact (replace_from_absent brace_open _ additional_info prompt H).
Qed.

Lemma common_replacements_absent_witness :
  occurs tok_informacoes_adicionais (lit "Modelo: {Card_modelo}") = false
  /\ _apply_common_replacements (lit "Projeto X") (lit "Modelo: {Card_modelo}")
     = lit "Modelo: {Card_modelo}".
Proof.
  assert (H : occurs tok_informacoes_adicionais (lit "Modelo: {Card_modelo}") = false)
    by (vm_compute; reflexivity).
  split; [exact H|].
  exact (common_replacements_absent (lit "Projeto X") (lit "Modelo: {Card_modelo}") H).
Defined.

Lemma occurs_copy (a : ascii) (old t s : str) :
  Forall (fun c => c <> a) t -> occurs (a :: old) (t ++ s) = occurs (a :: old) s.
Proof.
  induction 1 as [|c t Hc _ IH]; [reflexivity|].
  cbn [app occurs]. now rewrite startswith_head_neq, IH.
Qed.

Lemma occurs_hole_other (n m s : str) :
  no_brace n -> no_brace m -> n <> m ->
  occurs (hole_token n) (hole_token m ++ s) = occurs (hole_token n) s.
Proof.
  intros Hn Hm Hne.
  assert (E : startswith (hole_token n) (hole_token m ++ s) = false).
  { destruct (startswith _ _) eqn:E; [|reflexivity].
    apply startswith_hole in E; [contradiction | assumption | assumption]. }
  assert (Hm' : hole_token m ++ s = brace_open :: m ++ [brace_close] ++ s).
  { unfold hole_token. cbn [app]. now rewrite <- app_assoc. }
  rewrite Hm' in *. cbn [occurs]. rewrite E. cbn [orb].
  unfold hole_token at 1. rewrite occurs_copy by (now apply no_brace_no_open).
  apply (occurs_copy brace_open (n ++ [brace_close]) [brace_close] s).
  constructor; [discriminate | constructor].
Qed.

(** A rendered skeleton holds a placeholder only where it has the hole. *)
Lemma occurs_render (n : str) (ps : list piece) :
  no_brace n -> Forall piece_ok ps -> Hole n ∉ ps ->
  occurs (hole_token n) (render ps) = false.
Proof.
  intros Hn Hps. induction Hps as [|p ps Hp _ IH]; intros Hin.
  - reflexivity.
  - apply not_elem_of_cons in Hin as [Hne Hin]. unfold render in *. cbn [flat_map].
    destruct p as [t|m]; cbn [render_piece].
    + unfold hole_token at 1. rewrite occurs_copy by exact Hp. now apply IH.
    + rewrite occurs_hole_other; [now apply IH | assumption | exact Hp | congruence].
Qed.

Lemma fill_piece_twice (bs : list (str * str)) (p : piece) :
  fill_piece bs (fill_piece bs p) = fill_piece bs p.
Proof.
  destruct p as [t|m]; [reflexivity|]. cbn [fill_piece].
  destruct (lookup_binding bs m) eqn:E; [reflexivity|]. cbn [fill_piece]. now rewrite E.
Qed.

Lemma fill_piece_no_hole (bs : list (str * str)) (n v : str) (ps : list piece) :
  lookup_binding bs n = Some v -> Hole n ∉ map (fill_piece bs) ps.
Proof.
  intros Hb Hin. apply list_elem_of_In, in_map_iff in Hin as (p & Hp & _).
  destruct p as [t|m]; cbn [fill_piece] in Hp; [discriminate|].
  destruct (lookup_binding bs m) eqn:E; [discriminate|]. congruence.
Qed.

(** X2. On a skeleton made of text without an opening brace and of
    placeholders, with values that hold no opening brace, the prompt a
    handler builds holds none of the three placeholders any more, and
    building again from the prompt changes nothing. *)
Theorem prompt_has_no_placeholder
    (ps : list piece) (user_name template user_text additional_info : str) :
  Forall piece_ok ps ->
  no_brace user_name ->
  no_open template -> no_open user_text -> no_open additional_info ->
  let prompt :=
    build_prompt (hole_token user_name) (render ps) template user_text additional_info in
  occurs tok_card_modelo prompt = false
  /\ occurs (hole_token user_name) prompt = false
  /\ occurs tok_informacoes_adicionais prompt = false
  /\ build_prompt (hole_token user_name) prompt template user_text additional_info = prompt.
Proof.
  intros Hps Hu Ht Hut Hai.
  set (bs := [(lit "Card_modelo", template); (user_name, user_text);
              (lit "informacoes_adicionais", additional_info)]).
  assert (Hbs : Forall binding_ok bs).
  { apply Forall_cons; split; [split; [apply no_brace_Card_modelo | exact Ht]|].
    apply Forall_cons; split; [split; [exact Hu | exact Hut]|].
    apply Forall_cons; split; [split; [apply no_brace_informacoes_adicionais | exact Hai]|].
    constructor. }
  assert (Hps' : Forall piece_ok (map (fill_piece bs) ps)).
  { rewrite Forall_map. eapply Forall_impl; [exact Hps|]. intros p. now apply fill_piece_ok. }
  cbv zeta. rewrite !build_prompt_chain. fold bs.
  rewrite (replace_chain_render bs ps Hbs Hps).
  assert (Hsome : forall n, n ∈ [lit "Card_modelo"; user_name; lit "informacoes_adicionais"] ->
                            is_Some (lookup_binding bs n)).
  { intros n. rewrite !elem_of_cons, elem_of_nil. unfold bs. cbn [lookup_binding fst snd].
    intros [->|[->|[->|[]]]]; repeat (case_decide; [eauto|]); congruence. }
  repeat split.
  - change tok_card_modelo with (hole_token (lit "Card_modelo")).
    destruct (Hsome (lit "Card_modelo")) as [v Hv];
      [rewrite !elem_of_cons; left; reflexivity|].
    apply occurs_render; [apply no_brace_Card_modelo | exact Hps' |].
    now apply (fill_piece_no_hole bs _ v).
  - destruct (Hsome user_name) as [v Hv];
      [rewrite !elem_of_cons; right; left; reflexivity|].
    apply occurs_render; [exact Hu | exact Hps' |]. now apply (fill_piece_no_hole bs _ v).
  - change tok_informacoes_adicionais with (hole_token (lit "informacoes_adicionais")).
    destruct (Hsome (lit "informacoes_adicionais")) as [v Hv];
      [rewrite !elem_of_cons; do 2 right; left; reflexivity|].
    apply occurs_render; [apply no_brace_informacoes_adicionais | exact Hps' |].
    now apply (fill_piece_no_hole bs _ v).
  - rewrite (replace_chain_render bs _ Hbs Hps'). rewrite map_map. f_equal.
    apply map_ext. intros p. apply fill_piece_twice.
Qed.

Lemma prompt_has_no_placeholder_witness :
  Forall piece_ok example_skeleton /\ no_brace example_user_name /\
  no_open example_template /\ no_open example_user_text /\ no_open example_project /\
  (occurs tok_card_modelo
     (build_prompt (hole_token example_user_name) (render example_skeleton)
        example_template example_user_text example_project) = false
   /\ occurs (hole_token example_user_name)
        (build_prompt (hole_token example_user_name) (render example_skeleton)
           example_template example_user_text example_project) = false
   /\ occurs tok_informacoes_adicionais
        (build_prompt (hole_token example_user_name) (render example_skeleton)
           example_template example_user_text example_project) = false
   /\ build_prompt (hole_token example_user_name)
        (build_prompt (hole_token example_user_name) (render example_skeleton)
           example_template example_user_text example_project)
        example_template example_user_text example_project
      = build_prompt (hole_token example_user_name) (render example_skeleton)
          example_template example_user_text example_project).
Proof.
  assert (H1 : Forall piece_ok example_skeleton).
  { unfold example_skeleton. repeat (apply Forall_cons; split; [by_evaluation|]). constructor. }
  assert (H2 : no_brace example_user_name) by by_evaluation.
  assert (H5 : no_open example_template) by by_evaluation.
  assert (H6 : no_open example_user_text) by by_evaluation.
  assert (H7 : no_open example_project) by by_evaluation.
  split; [exact H1|]. split; [exact H2|]. split; [exact H5|]. split; [exact H6|].
  split; [exact H7|].
  exact (prompt_has_no_placeholder example_skeleton example_user_name example_template
           example_user_text example_project H1 H2 H5 H6 H7).
Defined.

(** ** Further properties of the template store *)

Lemma last_block_inv (k v : str) (bl : list (str * str)) :
  last_block k bl = Some v ->
  exists name inner, (name, inner) ∈ bl /\ strip name = k /\ v = strip inner.
Proof.
  induction bl as [|[n i] bl IH]; [discriminate|]. cbn [last_block fst snd].
  destruct (last_block k bl) as [v'|] eqn:E.
  - intros [= <-]. destruct (IH eq_refl) as (name & inner & Hin & Hk & Hv).
    exists name, inner. split; [apply elem_of_cons; now right | now split].
  - destruct (decide (strip n = k)) as [Hk|Hk]; [|discriminate].
    intros [= <-]. exists n, i. split; [apply elem_of_cons; now left | now split].
Qed.

Lemma load_templates_Ok (path text : str) (m : gmap str str) :
  load_templates path (Some text) = Ok m ->
  let bl := map block_of_match (finditer false template_pattern text) in
  bl <> [] /\ forall k, m !! k = last_block k bl.
Proof.
  intros H bl. assert (L := load_templates_lookup path text). cbv zeta in L. fold bl in L.
  destruct bl as [|b bl']; [congruence|]. split; [discriminate|].
  destruct L as (m' & Hm' & Hl). congruence.
Qed.

Lemma load_templates_store (path text : str) (m : gmap str str) :
  load_templates path (Some text) = Ok m ->
  m <> ∅
  /\ forall k v, m !! k = Some v -> word_name k /\ strip v = v.
Proof.
  intros H. destruct (load_templates_Ok path text m H) as [Hne Hl].
  assert (Hb := blocks_of_names _ _ (finditer_blocks_of text)).
  set (bl := map block_of_match (finditer false template_pattern text)) in *.
  split.
  - destruct bl as [|[n i] bl'] eqn:Ebl; [congruence|]. intros ->.
    assert (Hs : is_Some (last_block (strip n) ((n, i) :: bl'))).
    { apply last_block_Some. exists n, i. split; [apply elem_of_cons; now left | reflexivity]. }
    rewrite <- Hl, lookup_empty in Hs. now destruct Hs.
  - intros k v Hk. rewrite Hl in Hk.
    apply last_block_inv in Hk as (name & inner & Hin & <- & ->).
    rewrite Forall_forall in Hb. specialize (Hb _ Hin). cbn [fst] in Hb.
    rewrite (strip_word_name name Hb). split; [exact Hb | apply strip_strip].
Qed.

(** X3. A map [load_templates] returns is not empty; each of its keys is
    a non-empty run of word characters, and each of its values is
    trimmed. *)
Theorem load_templates_keys_values (path text : str) (m : gmap str str) :
  load_templates path (Some text) = Ok m ->
  m <> ∅
  /\ forall k v, m !! k = Some v -> word_name k /\ strip v = v.
Proof. apply load_templates_store. Qed.

Lemma load_templates_keys_values_witness :
  load_templates TEMPLATES_FILE (Some (lit "<bug> Titulo </bug>"))
  = Ok {[ lit "bug" := lit "Titulo" ]}
  /\ ({[ lit "bug" := lit "Titulo" ]} : gmap str str) <> ∅
  /\ forall k v, ({[ lit "bug" := lit "Titulo" ]} : gmap str str) !! k = Some v ->
       word_name k /\ strip v = v.
Proof.
  assert (H : load_templates TEMPLATES_FILE (Some (lit "<bug> Titulo </bug>"))
              = Ok {[ lit "bug" := lit "Titulo" ]}) by (vm_compute; reflexivity).
  split; [exact H|].
  exact (load_templates_keys_values TEMPLATES_FILE (lit "<bug> Titulo </bug>") _ H).
Defined.

Lemma block_starts_head (s : str) : block_starts s -> exists s', s = "<"%char :: s'.
Proof. intros (name & inner & rest & _ & ->). unfold template_block. cbn [app]. eauto. Qed.

Lemma no_lt_not_block (p s : str) : no_lt p -> p <> [] -> ~ block_starts (p ++ s).
Proof.
  intros Hp Hne H. apply block_starts_head in H as [s' H].
  destruct Hp as [|c p Hc _]; [congruence|]. cbn [app] in H. congruence.
Qed.

Lemma no_lt_suffix (p1 p2 : str) : no_lt (p1 ++ p2) -> no_lt p2.
Proof. unfold no_lt. rewrite Forall_app. tauto. Qed.

Lemma no_lt_first_closing (name inner : str) : no_lt inner -> first_closing name inner.
Proof.
  intros H i1 i2 -> Hne. apply no_lt_suffix in H.
  destruct H as [|c i2 Hc _]; [congruence|]. cbn [app]. unfold closing_tag.
  now apply startswith_head_neq.
Qed.

Lemma blocks_of_no_lt (tail : str) : no_lt tail -> blocks_of tail [].
Proof.
  intros H. constructor. intros pre post -> Hb. apply no_lt_suffix in H.
  destruct post as [|c post].
  - apply block_starts_head in Hb as [s' Hb]. discriminate.
  - apply (no_lt_not_block (c :: post) []); [exact H | discriminate | now rewrite app_nil_r].
Qed.

Lemma blocks_of_resource (items : list (str * (str * str))) (tail : str) :
  Forall resource_item_ok items -> no_lt tail ->
  blocks_of (template_resource items tail) (map snd items).
Proof.
  intros Hitems Htail. induction Hitems as [|[gap [name content]] items (Hg & Hn & Hc) _ IH].
  - now apply blocks_of_no_lt.
  - cbn [template_resource map snd fst] in *. constructor; try assumption.
    + intros p1 p2 -> Hne. apply no_lt_suffix in Hg. now apply no_lt_not_block.
    + now apply no_lt_first_closing.
Qed.

(** X4. A resource written as blocks [<name>content</name>], with text
    free of [<] before, between and after the blocks and contents free
    of [<], loads back: the map holds, for each name, the trimmed content
    of the last block of that name, and nothing else. *)
Theorem load_templates_resource (path : str) (items : list (str * (str * str)))
    (tail : str) :
  items <> [] -> Forall resource_item_ok items -> no_lt tail ->
  exists m, load_templates path (Some (template_resource items tail)) = Ok m
    /\ forall k, m !! k = last_block k (map snd items).
Proof.
  intros Hne Hitems Htail.
  assert (Hbl := blocks_of_finditer _ _ (blocks_of_resource items tail Hitems Htail)).
  assert (L := load_templates_lookup path (template_resource items tail)).
  cbv zeta in L. rewrite <- Hbl in L.
  destruct items as [|item items']; [congruence|]. exact L.
Qed.

Lemma load_templates_resource_witness :
  let items := [(lit "Modelos
", (lit "bug", lit " Titulo: ... "));
                (lit "
", (lit "chore", lit "Tarefa"));
                (lit " ", (lit "bug", lit "Passos: ..."))] in
  items <> [] /\ Forall resource_item_ok items /\ no_lt (lit " fim") /\
  exists m, load_templates TEMPLATES_FILE (Some (template_resource items (lit " fim"))) = Ok m
    /\ forall k, m !! k = last_block k (map snd items).
Proof.
  cbv zeta.
  assert (Hok : forall g n c, no_lt g -> word_name n -> no_lt c ->
                              resource_item_ok (g, (n, c)))
    by (intros g n c Hg Hn Hc; exact (conj Hg (conj Hn Hc))).
  assert (Hlt : forall t : str, bool_decide (no_lt t) = true -> no_lt t)
    by (intros t; apply bool_decide_eq_true_1).
  assert (Hw : forall n : str, n <> [] ->
                 bool_decide (Forall (fun c => py_isword c = true) n) = true -> word_name n).
  { intros n Hn Hb. split; [exact Hn | now apply bool_decide_eq_true_1 in Hb]. }
  assert (H1 : [(lit "Modelos
", (lit "bug", lit " Titulo: ... "));
                (lit "
", (lit "chore", lit "Tarefa"));
                (lit " ", (lit "bug", lit "Passos: ..."))] <> []) by discriminate.
  assert (H2 : Forall resource_item_ok
                 [(lit "Modelos
", (lit "bug", lit " Titulo: ... "));
                  (lit "
", (lit "chore", lit "Tarefa"));
                  (lit " ", (lit "bug", lit "Passos: ..."))]).
  { repeat (apply Forall_cons; split;
            [apply Hok; [apply Hlt; vm_compute; reflexivity
                        | apply Hw; [vm_compute; discriminate | vm_compute; reflexivity]
                        | apply Hlt; vm_compute; reflexivity] |]).
    constructor. }
  assert (H3 : no_lt (lit " fim")) by (apply Hlt; vm_compute; reflexivity).
  split; [exact H1|]. split; [exact H2|]. split; [exact H3|].
  exact (load_templates_resource TEMPLATES_FILE _ (lit " fim") H1 H2 H3).
Defined.

(** X5. A resource without [<], the empty one included, holds no block:
    [load_templates] raises the [ValueError] "no template found". *)
Theorem load_templates_no_tag (path text : str) :
  no_lt text -> load_templates path (Some text) = Raise templates_not_found.
Proof.
  intros H. assert (Hbl := blocks_of_finditer _ _ (blocks_of_no_lt text H)).
  assert (L := load_templates_lookup path text). cbv zeta in L. now rewrite <- Hbl in L.
Qed.

Lemma load_templates_no_tag_witness :
  no_lt (lit "sem tags aqui > fim")
  /\ load_templates TEMPLATES_FILE (Some (lit "sem tags aqui > fim"))
     = Raise templates_not_found.
Proof.
  assert (H : no_lt (lit "sem tags aqui > fim"))
    by (unfold no_lt; refine (@bool_decide_unpack _ _ _); vm_compute; exact I).
  split; [exact H|].
  exact (load_templates_no_tag TEMPLATES_FILE (lit "sem tags aqui > fim") H).
Defined.

(** ** Further properties of the response extractor *)

Lemma extract_tag_content_trimmed_aux (text tag_name r : str) :
  _extract_tag_content text tag_name = Some r -> strip r = r.
Proof.
  unfold _extract_tag_content. destruct (tag_nodes tag_name) as [t|]; [|discriminate].
  cbn [mbind option_bind].
  destruct (search true (extract_pattern t) text) as [[caps rest]|];
    intros [= <-]; apply strip_strip.
Qed.

(** X6. What the extractor returns is trimmed: it has no white space at
    either end, on the path of the tag and on the fallback path alike. *)
Theorem extract_tag_content_trimmed (text tag_name r : str) :
  _extract_tag_content text tag_name = Some r -> strip r = r.
Proof. apply extract_tag_content_trimmed_aux. Qed.

Lemma extract_tag_content_trimmed_witness :
  _extract_tag_content example_raw (lit "card") = Some (lit "Bug: login fails")
  /\ strip (lit "Bug: login fails") = lit "Bug: login fails".
Proof.
  assert (H : _extract_tag_content example_raw (lit "card") = Some (lit "Bug: login fails"))
    by (vm_compute; reflexivity).
  split; [exact H|].
  exact (extract_tag_content_trimmed example_raw (lit "card") (lit "Bug: login fails") H).
Defined.

Lemma occurrence_starts_head (tag_name s : str) :
  occurrence_starts tag_name s -> exists s', s = "<"%char :: s'.
Proof.
  intros (o & inner & c & rest & (w1 & t & w2 & _ & _ & _ & ->) & _ & ->).
  cbn [app]. eauto.
Qed.

Lemma close_starts_head (tag_name s : str) :
  close_starts tag_name s -> exists s', s = "<"%char :: s'.
Proof. intros (c & rest & (w1 & t & w2 & _ & _ & _ & ->) & ->). cbn [app]. eauto. Qed.

Lemma no_lt_head (p s s' : str) : no_lt p -> p <> [] -> p ++ s <> "<"%char :: s'.
Proof. intros Hp Hne H. destruct Hp as [|c p Hc _]; [congruence|]. cbn [app] in H. congruence. Qed.

(** X7. A reply that wraps its answer in the tag gives the answer back:
    with no [<] before the opening tag and none in the answer, whatever
    the case of the tag's letters, the white space inside its brackets
    and the text after the closing tag, the extractor returns the
    trimmed answer. *)
Theorem extract_tag_content_wrapped (tag_name pre o inner c post : str) :
  plain_name tag_name ->
  is_open_tag tag_name o -> is_close_tag tag_name c ->
  no_lt pre -> no_lt inner ->
  _extract_tag_content (pre ++ o ++ inner ++ c ++ post) tag_name = Some (strip inner).
Proof.
  intros Hp Ho Hc Hpre Hin. rewrite extract_plain by exact Hp.
  assert (Hn := plain_no_space _ Hp).
  destruct (first_occurrence_find tag_name (pre ++ o ++ inner ++ c ++ post) inner Hn)
    as [rest ->]; [|reflexivity].
  exists pre, o, c, post. split; [reflexivity|]. split; [exact Ho|]. split; [exact Hc|]. split.
  - intros p1 p2 -> Hne H. apply no_lt_suffix in Hpre.
    apply occurrence_starts_head in H as [s' H]. now apply no_lt_head in H.
  - intros i1 i2 -> Hne H. apply no_lt_suffix in Hin.
    apply close_starts_head in H as [s' H]. now apply no_lt_head in H.
Qed.

Lemma extract_tag_content_wrapped_witness :
  plain_name (lit "card")
  /\ is_open_tag (lit "card") (lit "< CARD >") /\ is_close_tag (lit "card") (lit "</card >")
  /\ no_lt (lit "Segue o card: ") /\ no_lt (lit " Bug: login fails ")
  /\ _extract_tag_content
       (lit "Segue o card: " ++ lit "< CARD >" ++ lit " Bug: login fails " ++ lit "</card >"
        ++ lit " <fim>")
       (lit "card")
     = Some (strip (lit " Bug: login fails ")).
Proof.
  assert (H1 : plain_name (lit "card")).
  { unfold plain_name. refine (@bool_decide_unpack _ _ _). vm_compute. exact I. }
  assert (Hsp : spaces [" "%char]) by (repeat constructor).
  assert (H2 : is_open_tag (lit "card") (lit "< CARD >")).
  { exists [" "%char], (lit "CARD"), [" "%char]. split; [exact Hsp|].
    split; [vm_compute; repeat constructor|]. split; [exact Hsp | vm_compute; reflexivity]. }
  assert (H3 : is_close_tag (lit "card") (lit "</card >")).
  { exists [], (lit "card"), [" "%char]. split; [constructor|].
    split; [vm_compute; repeat constructor|]. split; [exact Hsp | vm_compute; reflexivity]. }
  assert (H4 : no_lt (lit "Segue o card: "))
    by (unfold no_lt; refine (@bool_decide_unpack _ _ _); vm_compute; exact I).
  assert (H5 : no_lt (lit " Bug: login fails "))
    by (unfold no_lt; refine (@bool_decide_unpack _ _ _); vm_compute; exact I).
  split; [exact H1|]. split; [exact H2|]. split; [exact H3|]. split; [exact H4|].
  split; [exact H5|].
  exact (extract_tag_content_wrapped (lit "card") (lit "Segue o card: ") (lit "< CARD >")
           (lit " Bug: login fails ") (lit "</card >") (lit " <fim>") H1 H2 H3 H4 H5).
Defined.

Lemma no_occurrence_no_lt (tag_name text : str) : no_lt text -> no_occurrence tag_name text.
Proof.
  intros H pre post -> Hocc. apply no_lt_suffix in H.
  apply occurrence_starts_head in Hocc as [s' ->]. inversion H; congruence.
Qed.

(** X8. A reply without [<] holds no tag: the extractor falls back to
    the trimmed reply, and extracting from its own result gives the
    result again. *)
Theorem extract_tag_content_no_tag (tag_name text : str) :
  plain_name tag_name -> no_lt text ->
  _extract_tag_content text tag_name = Some (strip text)
  /\ _extract_tag_content (strip text) tag_name = Some (strip text).
Proof.
  intros Hp Ht. assert (Hn := plain_no_space _ Hp).
  assert (Hs : no_lt (strip text)).
  { unfold strip, rstrip. apply Forall_rev.
    assert (L : forall s, no_lt s -> no_lt (lstrip s)).
    { intros s Hs. rewrite lstrip_after_run. rewrite <- (run_after py_isspace s) in Hs.
      now apply no_lt_suffix in Hs. }
    apply L. apply Forall_rev. now apply L. }
  rewrite !extract_plain by exact Hp.
  rewrite !no_occurrence_find by (assumption || now apply no_occurrence_no_lt).
  now rewrite strip_strip.
Qed.

Lemma extract_tag_content_no_tag_witness :
  plain_name (lit "card") /\ no_lt (lit "  Bug: login fails ")
  /\ _extract_tag_content (lit "  Bug: login fails ") (lit "card")
     = Some (strip (lit "  Bug: login fails "))
  /\ _extract_tag_content (strip (lit "  Bug: login fails ")) (lit "card")
     = Some (strip (lit "  Bug: login fails ")).
Proof.
  assert (H1 : plain_name (lit "card")).
  { unfold plain_name. refine (@bool_decide_unpack _ _ _). vm_compute. exact I. }
  assert (H2 : no_lt (lit "  Bug: login fails "))
    by (unfold no_lt; refine (@bool_decide_unpack _ _ _); vm_compute; exact I).
  split; [exact H1|]. split; [exact H2|].
  exact (extract_tag_content_no_tag (lit "card") (lit "  Bug: login fails ") H1 H2).
Defined.

(** ** Further properties of the LLM client *)

Lemma is_set_false (v : option str) : is_set v = false -> v = None \/ v = Some [].
Proof. destruct v as [[|c k]|]; cbn; intros H; auto; discriminate. Qed.

Lemma py_or_first (a b : option str) (k : str) :
  a = Some k -> k <> [] -> py_or a b = Some k.
Proof. intros -> Hk. destruct k; [congruence | reflexivity]. Qed.

Lemma py_or_second (a b : option str) : is_set a = false -> py_or a b = b.
Proof. intros H. now destruct (is_set_false a H) as [-> | ->]. Qed.

Lemma call_llm_with_key (env : environ) (net : request -> http_outcome)
    (prompt model_name k : str) :
  py_or (OPENROUTER_API_KEY env) (API_KEY env) = Some k -> k <> [] ->
  _call_llm env net prompt model_name
  = ([llm_request k prompt model_name],
     match net (llm_request k prompt model_name) with
     | PostRaises msg => Raise (Exn RequestException msg)
     | StatusRaises msg => Raise (Exn RequestException msg)
     | JsonRaises msg => Raise (Exn JSONDecodeError msg)
     | Body data => text ←! response_content data; call_strip text
     end).
Proof. unfold _call_llm. intros -> Hk. destruct k; [congruence | reflexivity]. Qed.

(** X9. Which key the client uses: [OPENROUTER_API_KEY] when it is set
    and not empty, whatever [API_KEY] holds; otherwise [API_KEY] when
    that one is set and not empty; the one request then carries the
    prompt and the model as given, the key as bearer token and the
    timeout of 60 seconds.  When both are missing or empty, no request is
    sent and the configuration error is raised. *)
Theorem call_llm_key_precedence (env : environ) (net : request -> http_outcome)
    (prompt model_name : str) :
  (forall k, OPENROUTER_API_KEY env = Some k -> k <> [] ->
     fst (_call_llm env net prompt model_name)
     = [Request (lit "https://openrouter.ai/api/v1/chat/completions") model_name prompt
          (lit "Bearer " ++ k) 60])
  /\ (forall k, is_set (OPENROUTER_API_KEY env) = false -> API_KEY env = Some k -> k <> [] ->
        fst (_call_llm env net prompt model_name)
        = [Request (lit "https://openrouter.ai/api/v1/chat/completions") model_name prompt
             (lit "Bearer " ++ k) 60])
  /\ (is_set (OPENROUTER_API_KEY env) = false -> is_set (API_KEY env) = false ->
        _call_llm env net prompt model_name = ([], Raise missing_key)).
Proof.
  split; [|split].
  - intros k Hk Hne.
    now rewrite (call_llm_with_key env net prompt model_name k (py_or_first _ _ k Hk Hne) Hne).
  - intros k H1 Hk Hne.
    rewrite (call_llm_with_key env net prompt model_name k); [reflexivity | | exact Hne].
    now rewrite py_or_second.
  - intros H1 H2. unfold _call_llm. rewrite py_or_second by exact H1.
    now destruct (is_set_false _ H2) as [-> | ->].
Qed.

(** X10. The client returns a text exactly when a key is configured,
    the request is answered with a body, and the body holds a string at
    [choices[0].message.content]; the text is that string trimmed, so it
    is its own trimming. *)
Theorem call_llm_returns_iff (env : environ) (net : request -> http_outcome)
    (prompt model_name text : str) :
  (snd (_call_llm env net prompt model_name) = Ok text <->
   exists k data content,
     py_or (OPENROUTER_API_KEY env) (API_KEY env) = Some k /\ k <> []
     /\ net (llm_request k prompt model_name) = Body data
     /\ response_content data = Ok (JString content)
     /\ text = strip content)
  /\ (snd (_call_llm env net prompt model_name) = Ok text -> strip text = text).
Proof.
  assert (Hiff : snd (_call_llm env net prompt model_name) = Ok text <->
   exists k data content,
     py_or (OPENROUTER_API_KEY env) (API_KEY env) = Some k /\ k <> []
     /\ net (llm_request k prompt model_name) = Body data
     /\ response_content data = Ok (JString content)
     /\ text = strip content).
  { split.
    - unfold _call_llm.
      destruct (py_or (OPENROUTER_API_KEY env) (API_KEY env)) as [[|c k]|] eqn:Ek;
        cbn [snd]; try discriminate.
      destruct (net (llm_request (c :: k) prompt model_name)) as [m|m|m|data] eqn:En;
        try discriminate.
      destruct (response_content data) as [v|e] eqn:Er; cbn [bind_result]; [|discriminate].
      destruct v; cbn [call_strip]; try discriminate. intros [= <-].
      exists (c :: k), data, s. repeat split; (assumption || discriminate || reflexivity).
    - intros (k & data & content & Hk & Hne & Hnet & Hr & ->).
      rewrite (call_llm_with_key env net prompt model_name k Hk Hne). cbn [snd].
      now rewrite Hnet, Hr. }
  split; [exact Hiff|].
  intros H. apply Hiff in H as (k & data & content & _ & _ & _ & _ & ->). apply strip_strip.
Qed.

(** X11. A payload that lacks a part of the path is the error "invalid
    response": an object without [choices], an empty [choices] list, a
    first choice without [message], a message without [content]. *)
Theorem response_content_missing_part (fields first_fields message_fields : list (str * json))
    (others : list json) :
  (dict_get (lit "choices") fields = None ->
     response_content (JObject fields) = Raise invalid_response)
  /\ (dict_get (lit "choices") fields = Some (JArray []) ->
        response_content (JObject fields) = Raise invalid_response)
  /\ (dict_get (lit "choices") fields = Some (JArray (JObject first_fields :: others)) ->
        dict_get (lit "message") first_fields = None ->
        response_content (JObject fields) = Raise invalid_response)
  /\ (dict_get (lit "choices") fields = Some (JArray (JObject first_fields :: others)) ->
        dict_get (lit "message") first_fields = Some (JObject message_fields) ->
        dict_get (lit "content") message_fields = None ->
        response_content (JObject fields) = Raise invalid_response).
Proof.
  unfold response_content. cbn [getitem_key bind_result].
  repeat split.
  - now intros ->.
  - now intros ->.
  - intros -> H. cbn [bind_result getitem_0 getitem_key]. now rewrite H.
  - intros -> H1 H2. cbn [bind_result getitem_0 getitem_key]. rewrite H1.
    cbn [bind_result getitem_key]. now rewrite H2.
Qed.

(** ** Further properties of the application *)

(** What a submission may change, on its two paths. *)
Lemma run_llm_async_frame (prompt model_name tag_name : str) (w : widget) (msg : str)
    (a : CardPromptApp) :
  let a' := _run_llm_async prompt model_name tag_name w msg a in
  cfg a' = cfg a /\ inp a' = inp a /\ clipboard a' = clipboard a
  /\ ((_llm_running a' = _llm_running a /\ buttons_enabled a' = buttons_enabled a
       /\ timer_running a' = timer_running a /\ progress_running a' = progress_running a
       /\ status_var a' = status_var a)
      \/ (_llm_running a' = true /\ buttons_enabled a' = false
          /\ timer_running a' = true /\ progress_running a' = true)).
Proof.
  cbv zeta. destruct (_llm_running a) eqn:E.
  - rewrite run_llm_async_busy by exact E. repeat split. left. now repeat split.
  - rewrite run_llm_async_idle by exact E. repeat split. right. now repeat split.
Qed.

Lemma generate_frame (card_type skeleton user_tok user_text model_name tag_name : str)
    (w : widget) (msg : str) (a : CardPromptApp) :
  let a' := generate card_type skeleton user_tok user_text model_name tag_name w msg a in
  cfg a' = cfg a /\ inp a' = inp a /\ clipboard a' = clipboard a
  /\ ((_llm_running a' = _llm_running a /\ buttons_enabled a' = buttons_enabled a
       /\ timer_running a' = timer_running a /\ progress_running a' = progress_running a
       /\ status_var a' = status_var a)
      \/ (_llm_running a' = true /\ buttons_enabled a' = false
          /\ timer_running a' = true /\ progress_running a' = true)).
Proof.
  cbv zeta.
  destruct (generate_cases card_type skeleton user_tok user_text model_name tag_name w msg a)
    as [[d ->]|[prompt ->]].
  - repeat split. left. now repeat split.
  - apply run_llm_async_frame.
Qed.

Lemma copy_frame (w : widget) (titulo : str) (a : CardPromptApp) :
  let a' := _copy_to_clipboard w titulo a in
  cfg a' = cfg a /\ inp a' = inp a /\ out a' = out a
  /\ _llm_running a' = _llm_running a /\ buttons_enabled a' = buttons_enabled a
  /\ timer_running a' = timer_running a /\ progress_running a' = progress_running a
  /\ status_var a' = status_var a
  /\ (clipboard a' = clipboard a
      \/ (clipboard a' = strip (output_of w (out a)) /\ clipboard a' <> [])).
Proof.
  cbv zeta. unfold _copy_to_clipboard. rewrite strip_text_get.
  destruct (truthy (strip (output_of w (out a)))) eqn:E; cbn [negb].
  - repeat split. right. split; [reflexivity|]. now apply truthy_true.
  - repeat split. now left.
Qed.

Lemma handle_frame (e : event) (a : CardPromptApp) :
  cfg (handle e a) = cfg a
  /\ (is_copy e = false -> clipboard (handle e a) = clipboard a)
  /\ (clipboard (handle e a) = clipboard a
      \/ exists w, clipboard (handle e a) = strip (output_of w (out a))
                   /\ clipboard (handle e a) <> [])
  /\ ((_llm_running (handle e a) = _llm_running a
       /\ buttons_enabled (handle e a) = buttons_enabled a
       /\ timer_running (handle e a) = timer_running a
       /\ progress_running (handle e a) = progress_running a
       /\ status_var (handle e a) = status_var a)
      \/ (_llm_running (handle e a) = true /\ buttons_enabled (handle e a) = false
          /\ timer_running (handle e a) = true /\ progress_running (handle e a) = true)).
Proof.
  destruct e; cbn [handle is_copy].
  - unfold generate_info_validation_prompt.
    destruct (generate_frame (card_type_info_var (inp a)) (info_validation_prompt (cfg a))
      tok_informacoes_usuario (user_info_validation_text (inp a)) (validation_model (cfg a))
      (lit "info_validacao") output_text_info (lit "Analisando informações com o LLM...") a)
      as (Hc & _ & Hcl & Hui).
    cbv zeta in Hui. repeat split; auto.
  - unfold generate_creation_prompt.
    destruct (generate_frame (card_type_var (inp a)) (creation_prompt (cfg a))
      tok_informacoes_usuario (user_input_text (inp a)) (creation_model (cfg a))
      (lit "card") output_text_create (lit "Gerando card com o LLM...") a)
      as (Hc & _ & Hcl & Hui).
    cbv zeta in Hui. repeat split; auto.
  - unfold generate_analisys_prompt.
    destruct (generate_frame (card_type_analyse_var (inp a)) (analisys_prompt (cfg a))
      tok_card_para_analise (card_to_analyse_text (inp a)) (analisys_model (cfg a))
      (lit "analise") output_text_analyse (lit "Analisando card com o LLM...") a)
      as (Hc & _ & Hcl & Hui).
    cbv zeta in Hui. repeat split; auto.
  - unfold copy_prompt_info.
    destruct (copy_frame output_text_info (lit "Análise de informações") a)
      as (Hc & _ & _ & H1 & H2 & H3 & H4 & H5 & Hcl).
    cbv zeta in Hcl. split; [exact Hc|]. split; [discriminate|].
    split; [destruct Hcl as [Hcl|Hcl]; [now left | right; now exists output_text_info]|].
    left. now repeat split.
  - unfold copy_prompt_create.
    destruct (copy_frame output_text_create (lit "Card") a)
      as (Hc & _ & _ & H1 & H2 & H3 & H4 & H5 & Hcl).
    cbv zeta in Hcl. split; [exact Hc|]. split; [discriminate|].
    split; [destruct Hcl as [Hcl|Hcl]; [now left | right; now exists output_text_create]|].
    left. now repeat split.
  - unfold copy_prompt_analyse.
    destruct (copy_frame output_text_analyse (lit "Análise do card") a)
      as (Hc & _ & _ & H1 & H2 & H3 & H4 & H5 & Hcl).
    cbv zeta in Hcl. split; [exact Hc|]. split; [discriminate|].
    split; [destruct Hcl as [Hcl|Hcl]; [now left | right; now exists output_text_analyse]|].
    left. now repeat split.
  - destruct choice as [[content|exc]|]; cbn [load_additional_info];
      repeat split; auto; left; now repeat split.
  - repeat split; auto. left. now repeat split.
  - repeat split; auto. left. now repeat split.
  - repeat split; auto. left. now repeat split.
Qed.

Lemma copy_threads (w : widget) (titulo : str) (a : CardPromptApp) :
  threads (_copy_to_clipboard w titulo a) = threads a.
Proof. unfold _copy_to_clipboard. now destruct (negb _). Qed.

Lemma initial_ui (c : config) (clipboard0 : str) : ui_inv (initial c clipboard0).
Proof. now repeat split. Qed.

Lemma step_ui (a b : CardPromptApp) (l : label) : ui_inv a -> step a l b -> ui_inv b.
Proof.
  unfold ui_inv. intros (H1 & H2 & H3 & H4) Hs.
  destruct Hs as [e a | env net a ts1 ts2 t reqs c Hth Hw | a c q Hq].
  - destruct (handle_frame e a) as (_ & _ & _ & [(-> & -> & -> & -> & ->)|(-> & -> & -> & ->)]).
    + now repeat split.
    + repeat split. discriminate.
  - now repeat split.
  - destruct (error_set (done_error c)) eqn:E;
      [rewrite on_done_error by exact E | rewrite on_done_success by exact E];
      now repeat split.
Qed.

(** X12. In every state the application reaches, the status bar follows
    the flag: the three generate buttons are disabled, the timer and the
    progress bar run exactly while a call is in flight, and when none is
    the status reads "Pronto.". *)
Theorem status_bar_follows_flag (c : config) (clipboard0 : str) (ls : list label)
    (a : CardPromptApp) :
  execution (initial c clipboard0) ls a ->
  buttons_enabled a = negb (_llm_running a)
  /\ timer_running a = _llm_running a
  /\ progress_running a = _llm_running a
  /\ (_llm_running a = false -> status_var a = lit "Pronto.").
Proof.
  intros H. change (ui_inv a). assert (H0 := initial_ui c clipboard0).
  induction H as [a | a b d ls l Hab IH Hbd]; [exact H0 | eauto using step_ui].
Qed.

Lemma status_bar_follows_flag_witness :
  execution (initial example_config []) [accepted example_task] example_busy
  /\ buttons_enabled example_busy = negb (_llm_running example_busy)
  /\ timer_running example_busy = _llm_running example_busy
  /\ progress_running example_busy = _llm_running example_busy
  /\ (_llm_running example_busy = false -> status_var example_busy = lit "Pronto.").
Proof.
  split; [exact (proj1 example_round)|].
  exact (status_bar_follows_flag example_config [] _ example_busy (proj1 example_round)).
Defined.

Lemma step_cfg (a b : CardPromptApp) (l : label) : step a l b -> cfg b = cfg a.
Proof.
  intros Hs. destruct Hs as [e a | env net a ts1 ts2 t reqs c Hth Hw | a c q Hq].
  - apply handle_frame.
  - reflexivity.
  - destruct (error_set (done_error c)) eqn:E;
      [now rewrite on_done_error | now rewrite on_done_success].
Qed.

(** X13. The configuration is never assigned again: in every state the
    application reaches, the templates, the three models and the three
    prompt skeletons are those the constructor received and loaded. *)
Theorem config_never_changes (c : config) (clipboard0 : str) (ls : list label)
    (a : CardPromptApp) :
  execution (initial c clipboard0) ls a -> cfg a = c.
Proof.
  intros H. remember (initial c clipboard0) as a0 eqn:E.
  induction H as [a | a b d ls l Hab IH Hbd]; [now subst|].
  rewrite (step_cfg _ _ _ Hbd). now apply IH.
Qed.

Lemma config_never_changes_witness :
  execution (initial example_config [])
    [accepted example_task; finished example_task example_completion;
     delivered example_completion] example_done
  /\ cfg example_done = example_config.
Proof.
  split; [exact (proj2 example_round)|].
  exact (config_never_changes example_config [] _ example_done (proj2 example_round)).
Defined.

(** X14. Only a copy changes the clipboard: a step of the application
    leaves the clipboard as it is, or it is a copy and the clipboard
    holds the trimmed, non-empty text of an output area.  A worker and a
    completion callback never touch it. *)
Theorem clipboard_only_by_copy (a b : CardPromptApp) (l : label) :
  step a l b ->
  clipboard b = clipboard a
  \/ (l = quiet /\ exists w, clipboard b = strip (output_of w (out a)) /\ clipboard b <> []).
Proof.
  intros Hs. destruct Hs as [e a | env net a ts1 ts2 t reqs c Hth Hw | a c q Hq].
  - destruct (handle_frame e a) as (_ & Hnc & [Hcl|Hcl] & _); [now left|].
    destruct (is_copy e) eqn:Ec; [|left; now apply Hnc].
    right. split; [|exact Hcl]. unfold started.
    destruct (handle_calls e a) as [(_ & -> & _)|(t & _ & _ & _ & Hth & _)].
    + now rewrite decide_True.
    + exfalso. apply (f_equal length) in Hth. rewrite length_app in Hth. cbn [length] in Hth.
      destruct e; try discriminate Ec; cbn [handle] in Hth;
        unfold copy_prompt_info, copy_prompt_create, copy_prompt_analyse in Hth;
        rewrite copy_threads in Hth; lia.
  - now left.
  - left. destruct (error_set (done_error c)) eqn:E;
      [now rewrite on_done_error | now rewrite on_done_success].
Qed.

Lemma clipboard_only_by_copy_witness :
  step example_done quiet (copy_prompt_create example_done)
  /\ (clipboard (copy_prompt_create example_done) = clipboard example_done
      \/ (quiet = quiet
          /\ exists w, clipboard (copy_prompt_create example_done)
                       = strip (output_of w (out example_done))
                       /\ clipboard (copy_prompt_create example_done) <> [])).
Proof.
  assert (H : step example_done quiet (copy_prompt_create example_done)).
  { apply (step_event_eq click_copy_button_create); [reflexivity | vm_compute; reflexivity]. }
  split; [exact H|].
  exact (clipboard_only_by_copy example_done (copy_prompt_create example_done) quiet H).
Defined.

(** *** A whole round of a workflow *)

Lemma handle_click (wf : workflow) (a : CardPromptApp) : handle (click wf) a = handler wf a.
Proof. now destruct wf. Qed.

Lemma handler_submits (wf : workflow) (a : CardPromptApp) (template : str) :
  strip (selected_type wf a) <> [] ->
  templates (cfg a) !! strip (selected_type wf a) = Some template ->
  template <> [] ->
  exists msg,
    handler wf a
    = _run_llm_async (workflow_prompt wf template a) (workflow_model wf (cfg a))
        (workflow_tag wf) (workflow_widget wf) msg a.
Proof.
  intros Hsel Ht Hne. apply truthy_true in Hsel.
  destruct template as [|c t]; [congruence|].
  unfold workflow_prompt.
  destruct wf; cbn [handler selected_type workflow_token workflow_skeleton workflow_text
                    workflow_model workflow_tag workflow_widget] in *.
  - exists (lit "Analisando informações com o LLM...").
    unfold generate_info_validation_prompt, generate. rewrite Hsel. cbn [negb].
    now rewrite get_template_stripped, Hsel, Ht.
  - exists (lit "Gerando card com o LLM...").
    unfold generate_creation_prompt, generate. rewrite Hsel. cbn [negb].
    now rewrite get_template_stripped, Hsel, Ht.
  - exists (lit "Analisando card com o LLM...").
    unfold generate_analisys_prompt, generate. rewrite Hsel. cbn [negb].
    now rewrite get_template_stripped, Hsel, Ht.
Qed.

Lemma in_flight_0 (a : CardPromptApp) :
  in_flight a = 0 -> threads a = [] /\ after_queue a = [].
Proof.
  unfold in_flight. intros H.
  destruct (threads a); [|cbn [length] in H; lia].
  destruct (after_queue a); [now split | cbn [length] in H; lia].
Qed.

(** The three steps of a round, for the completion the worker computes. *)
Lemma workflow_round (wf : workflow) (a : CardPromptApp) (template : str)
    (env : environ) (net : request -> http_outcome) (reqs : list request) (d : completion) :
  in_flight a = 0 -> _llm_running a = false ->
  strip (selected_type wf a) <> [] ->
  templates (cfg a) !! strip (selected_type wf a) = Some template ->
  template <> [] ->
  let t := Task (workflow_prompt wf template a) (workflow_model wf (cfg a))
             (workflow_tag wf) (workflow_widget wf) in
  worker env net t = (reqs, Some d) ->
  exists msg,
    execution a [accepted t; finished t d; delivered d]
      (on_done d
         (App (cfg a) (inp a) true (with_output (workflow_widget wf) [] (out a)) msg
              false true true (clipboard a) (dialogs a) [] [])).
Proof.
  intros Hfl Hidle Hsel Ht Hne t Hw.
  destruct (in_flight_0 a Hfl) as [Hth Hq].
  destruct (handler_submits wf a template Hsel Ht Hne) as [msg Hh].
  rewrite run_llm_async_idle in Hh by exact Hidle. rewrite Hth, Hq in Hh. cbn [app] in Hh.
  fold t in Hh. exists msg.
  set (a1 := App (cfg a) (inp a) true (with_output (workflow_widget wf) [] (out a)) msg
               false true true (clipboard a) (dialogs a) [t] []).
  set (a2 := App (cfg a) (inp a) true (with_output (workflow_widget wf) [] (out a)) msg
               false true true (clipboard a) (dialogs a) [] [d]).
  apply (execution_step a a2 _ [accepted t; finished t d] (delivered d)).
  - apply (execution_step a a1 _ [accepted t] (finished t d)).
    + apply (execution_step a a _ [] (accepted t)); [constructor|].
      apply (step_event_eq (click wf)); [now rewrite handle_click | ].
      unfold started. cbn [threads a1]. rewrite Hth. cbn [length last].
      now rewrite decide_False by lia.
    + exact (step_worker env net a1 [] [] t reqs d eq_refl Hw).
  - exact (step_on_done a2 d [] eq_refl).
Qed.

(** X15. A round that succeeds.  From an idle state with no call in
    flight, with a type selected whose template is not empty, and with an
    environment and a network under which the client returns a text: the
    click, the worker and the callback lead to a state where the tab of
    the workflow shows the text the extractor takes from the reply under
    the workflow's tag, the other tabs are untouched, no box has been
    shown, and the application is idle again with the status "Pronto."
    and the buttons enabled. *)
Theorem workflow_round_succeeds (wf : workflow) (a : CardPromptApp) (template : str)
    (env : environ) (net : request -> http_outcome) (llm_raw : str) :
  in_flight a = 0 -> _llm_running a = false ->
  strip (selected_type wf a) <> [] ->
  templates (cfg a) !! strip (selected_type wf a) = Some template ->
  template <> [] ->
  snd (_call_llm env net (workflow_prompt wf template a) (workflow_model wf (cfg a)))
  = Ok llm_raw ->
  exists clean t d b,
    _extract_tag_content llm_raw (workflow_tag wf) = Some clean
    /\ t = Task (workflow_prompt wf template a) (workflow_model wf (cfg a))
             (workflow_tag wf) (workflow_widget wf)
    /\ execution a [accepted t; finished t d; delivered d] b
    /\ out b = with_output (workflow_widget wf) clean (out a)
    /\ dialogs b = dialogs a /\ clipboard b = clipboard a
    /\ _llm_running b = false /\ in_flight b = 0
    /\ buttons_enabled b = true /\ status_var b = lit "Pronto.".
Proof.
  intros Hfl Hidle Hsel Ht Hne Hcall.
  set (t := Task (workflow_prompt wf template a) (workflow_model wf (cfg a))
              (workflow_tag wf) (workflow_widget wf)).
  assert (Hplain : plain_name (workflow_tag wf)).
  { apply workflow_tags_plain. unfold workflow_tags. rewrite !elem_of_cons.
    destruct wf; cbn [workflow_tag]; tauto. }
  assert (Hex : exists clean, _extract_tag_content llm_raw (workflow_tag wf) = Some clean)
    by (rewrite extract_plain by exact Hplain; eauto).
  destruct Hex as [clean Hclean].
  assert (Hw : exists reqs, worker env net t
                            = (reqs, Some (Completion None clean (workflow_widget wf)))).
  { unfold worker. cbn [task_prompt task_model task_tag task_widget t].
    destruct (_call_llm env net (workflow_prompt wf template a) (workflow_model wf (cfg a)))
      as [reqs r]. cbn [snd] in Hcall. subst r. rewrite Hclean. eauto. }
  destruct Hw as [reqs Hw].
  destruct (workflow_round wf a template env net reqs _ Hfl Hidle Hsel Ht Hne Hw) as [msg Hexec].
  rewrite on_done_success in Hexec by reflexivity.
  cbn [cfg inp out clipboard dialogs threads after_queue done_widget done_clean] in Hexec.
  rewrite with_output_twice in Hexec.
  exists clean, t, (Completion None clean (workflow_widget wf)). eexists.
  split; [exact Hclean|]. split; [reflexivity|]. split; [exact Hexec|]. now repeat split.
Qed.

Lemma workflow_round_succeeds_witness :
  in_flight example_app = 0 /\ _llm_running example_app = false
  /\ strip (selected_type create example_app) <> []
  /\ templates (cfg example_app) !! strip (selected_type create example_app)
     = Some (lit "Titulo: ... Passos: ...")
  /\ lit "Titulo: ... Passos: ..." <> []
  /\ snd (_call_llm example_env example_net
            (workflow_prompt create (lit "Titulo: ... Passos: ...") example_app)
            (workflow_model create (cfg example_app)))
     = Ok (lit "<card>Bug: login fails</card>")
  /\ exists clean t d b,
       _extract_tag_content (lit "<card>Bug: login fails</card>") (workflow_tag create)
       = Some clean
       /\ t = Task (workflow_prompt create (lit "Titulo: ... Passos: ...") example_app)
                (workflow_model create (cfg example_app))
                (workflow_tag create) (workflow_widget create)
       /\ execution example_app [accepted t; finished t d; delivered d] b
       /\ out b = with_output (workflow_widget create) clean (out example_app)
       /\ dialogs b = dialogs example_app /\ clipboard b = clipboard example_app
       /\ _llm_running b = false /\ in_flight b = 0
       /\ buttons_enabled b = true /\ status_var b = lit "Pronto.".
Proof.
  assert (H1 : in_flight example_app = 0) by reflexivity.
  assert (H2 : _llm_running example_app = false) by reflexivity.
  assert (H3 : strip (selected_type create example_app) <> [])
    by (vm_compute; discriminate).
  assert (H4 : templates (cfg example_app) !! strip (selected_type create example_app)
               = Some (lit "Titulo: ... Passos: ...")) by (vm_compute; reflexivity).
  assert (H5 : lit "Titulo: ... Passos: ..." <> []) by (vm_compute; discriminate).
  assert (H6 : snd (_call_llm example_env example_net
                      (workflow_prompt create (lit "Titulo: ... Passos: ...") example_app)
                      (workflow_model create (cfg example_app)))
               = Ok (lit "<card>Bug: login fails</card>")) by (vm_compute; reflexivity).
  split; [exact H1|]. split; [exact H2|]. split; [exact H3|]. split; [exact H4|].
  split; [exact H5|]. split; [exact H6|].
  exact (workflow_round_succeeds create example_app (lit "Titulo: ... Passos: ...")
           example_env example_net (lit "<card>Bug: login fails</card>")
           H1 H2 H3 H4 H5 H6).
Defined.

(** X16. A round that fails.  From the same kind of state, when the
    client raises an exception with a message (no key configured, a
    failed request, a body that is no JSON, a payload of the wrong
    shape): after the click, the worker and the callback, one error box
    "Erro ao chamar LLM" carries the message, the tab of the workflow is
    empty, the other tabs are untouched, and the application is idle
    again, ready for a new submission. *)
Theorem workflow_round_fails (wf : workflow) (a : CardPromptApp) (template : str)
    (env : environ) (net : request -> http_outcome) (exc : exn) :
  in_flight a = 0 -> _llm_running a = false ->
  strip (selected_type wf a) <> [] ->
  templates (cfg a) !! strip (selected_type wf a) = Some template ->
  template <> [] ->
  snd (_call_llm env net (workflow_prompt wf template a) (workflow_model wf (cfg a)))
  = Raise exc ->
  exn_str exc <> [] ->
  exists t d b,
    execution a [accepted t; finished t d; delivered d] b
    /\ dialogs b = dialogs a ++ [Dialog showerror (lit "Erro ao chamar LLM") (exn_str exc)]
    /\ out b = with_output (workflow_widget wf) [] (out a)
    /\ clipboard b = clipboard a
    /\ _llm_running b = false /\ in_flight b = 0
    /\ buttons_enabled b = true /\ status_var b = lit "Pronto.".
Proof.
  intros Hfl Hidle Hsel Ht Hne Hcall Hmsg.
  set (t := Task (workflow_prompt wf template a) (workflow_model wf (cfg a))
              (workflow_tag wf) (workflow_widget wf)).
  assert (Hw : exists reqs, worker env net t
                 = (reqs, Some (Completion (Some (exn_str exc)) [] (workflow_widget wf)))).
  { unfold worker. cbn [task_prompt task_model task_tag task_widget t].
    destruct (_call_llm env net (workflow_prompt wf template a) (workflow_model wf (cfg a)))
      as [reqs r]. cbn [snd] in Hcall. subst r. eauto. }
  destruct Hw as [reqs Hw].
  destruct (workflow_round wf a template env net reqs _ Hfl Hidle Hsel Ht Hne Hw) as [msg Hexec].
  rewrite on_done_error in Hexec
    by (cbn [done_error]; rewrite error_set_Some; now apply truthy_true).
  cbn [cfg inp out clipboard dialogs threads after_queue done_error default from_option id]
    in Hexec.
  exists t, (Completion (Some (exn_str exc)) [] (workflow_widget wf)). eexists.
  split; [exact Hexec|]. now repeat split.
Qed.

Lemma workflow_round_fails_witness :
  in_flight example_app = 0 /\ _llm_running example_app = false
  /\ strip (selected_type create example_app) <> []
  /\ templates (cfg example_app) !! strip (selected_type create example_app)
     = Some (lit "Titulo: ... Passos: ...")
  /\ lit "Titulo: ... Passos: ..." <> []
  /\ snd (_call_llm example_env_no_key example_net
            (workflow_prompt create (lit "Titulo: ... Passos: ...") example_app)
            (workflow_model create (cfg example_app)))
     = Raise missing_key
  /\ exn_str missing_key <> []
  /\ exists t d b,
       execution example_app [accepted t; finished t d; delivered d] b
       /\ dialogs b = dialogs example_app
                      ++ [Dialog showerror (lit "Erro ao chamar LLM") (exn_str missing_key)]
       /\ out b = with_output (workflow_widget create) [] (out example_app)
       /\ clipboard b = clipboard example_app
       /\ _llm_running b = false /\ in_flight b = 0
       /\ buttons_enabled b = true /\ status_var b = lit "Pronto.".
Proof.
  assert (H1 : in_flight example_app = 0) by reflexivity.
  assert (H2 : _llm_running example_app = false) by reflexivity.
  assert (H3 : strip (selected_type create example_app) <> [])
    by (vm_compute; discriminate).
  assert (H4 : templates (cfg example_app) !! strip (selected_type create example_app)
               = Some (lit "Titulo: ... Passos: ...")) by (vm_compute; reflexivity).
  assert (H5 : lit "Titulo: ... Passos: ..." <> []) by (vm_compute; discriminate).
  assert (H6 : snd (_call_llm example_env_no_key example_net
                      (workflow_prompt create (lit "Titulo: ... Passos: ...") example_app)
                      (workflow_model create (cfg example_app)))
               = Raise missing_key) by reflexivity.
  assert (H7 : exn_str missing_key <> []) by (vm_compute; discriminate).
  split; [exact H1|]. split; [exact H2|]. split; [exact H3|]. split; [exact H4|].
  split; [exact H5|]. split; [exact H6|]. split; [exact H7|].
  exact (workflow_round_fails create example_app (lit "Titulo: ... Passos: ...")
           example_env_no_key example_net missing_key H1 H2 H3 H4 H5 H6 H7).
Defined.

(** *** The selection and the template *)

(** X17. A type whose template is empty is reported as not found: the
    handler shows the error box "Template não encontrado" with the
    trimmed type and does nothing else, as for a type that has no
    template at all. *)
Theorem empty_template_not_found (wf : workflow) (a : CardPromptApp) :
  strip (selected_type wf a) <> [] ->
  templates (cfg a) !! strip (selected_type wf a) = Some [] ->
  handler wf a
  = show (Dialog showerror (lit "Template não encontrado")
            (lit "Não foi possível encontrar o template para o tipo: "
             ++ strip (selected_type wf a))) a.
Proof.
  intros Hsel Ht. apply truthy_true in Hsel.
  destruct wf; cbn [handler selected_type] in *.
  - unfold generate_info_validation_prompt, generate. rewrite Hsel. cbn [negb].
    now rewrite get_template_stripped, Hsel, Ht.
  - unfold generate_creation_prompt, generate. rewrite Hsel. cbn [negb].
    now rewrite get_template_stripped, Hsel, Ht.
  - unfold generate_analisys_prompt, generate. rewrite Hsel. cbn [negb].
    now rewrite get_template_stripped, Hsel, Ht.
Qed.

Lemma empty_template_not_found_witness :
  strip (selected_type create example_blank) <> []
  /\ templates (cfg example_blank) !! strip (selected_type create example_blank) = Some []
  /\ handler create example_blank
     = show (Dialog showerror (lit "Template não encontrado")
               (lit "Não foi possível encontrar o template para o tipo: "
                ++ strip (selected_type create example_blank))) example_blank.
Proof.
  assert (H1 : strip (selected_type create example_blank) <> [])
    by (vm_compute; discriminate).
  assert (H2 : templates (cfg example_blank) !! strip (selected_type create example_blank)
               = Some []) by (vm_compute; reflexivity).
  split; [exact H1|]. split; [exact H2|].
  exact (empty_template_not_found create example_blank H1 H2).
Defined.

(** X18. [_get_template_for_type] depends on the trimmed type only: two
    types that are equal once trimmed find the same template, trimming
    the type beforehand changes nothing, a template found is the one of
    the trimmed type, and a type of white space only finds none. *)
Theorem get_template_ignores_space (a : CardPromptApp) (card_type : str) :
  (forall card_type', strip card_type' = strip card_type ->
     _get_template_for_type a card_type' = _get_template_for_type a card_type)
  /\ _get_template_for_type a (strip card_type) = _get_template_for_type a card_type
  /\ (forall template, _get_template_for_type a card_type = Some template ->
        strip card_type <> [] /\ templates (cfg a) !! strip card_type = Some template)
  /\ (spaces card_type -> _get_template_for_type a card_type = None).
Proof.
  split; [intros ct' E; unfold _get_template_for_type; now rewrite E|].
  split; [now rewrite get_template_stripped|].
  split.
  { intros template. unfold _get_template_for_type.
    destruct (strip card_type) as [|c s]; [discriminate|]. cbn [truthy]. now split. }
  intros H. unfold _get_template_for_type.
  assert (E : strip card_type = []).
  { unfold strip. assert (L : lstrip card_type = []).
    { induction H as [|c s Hc _ IH]; [reflexivity|]. cbn [lstrip]. now rewrite Hc. }
    now rewrite L. }
  now rewrite E.
Qed.

(** X19. The copy after a completion.  When the worker's call returned a
    non-empty text and its callback has run, copying the tab of the task
    puts on the clipboard exactly what the tab shows. *)
Theorem copy_after_completion (env : environ) (net : request -> http_outcome)
    (t : task) (reqs : list request) (d : completion) (titulo : str) (a : CardPromptApp) :
  worker env net t = (reqs, Some d) ->
  done_clean d <> [] ->
  let b := on_done d a in
  output_of (task_widget t) (out b) = done_clean d
  /\ clipboard (_copy_to_clipboard (task_widget t) titulo b) = output_of (task_widget t) (out b).
Proof.
  intros Hw Hne. unfold worker in Hw.
  destruct (_call_llm env net (task_prompt t) (task_model t)) as [rs [raw|exc]].
  - destruct (_extract_tag_content raw (task_tag t)) as [clean|] eqn:Ex; [|discriminate].
    injection Hw as _ <-. cbn [done_clean] in Hne. cbv zeta.
    rewrite on_done_success by reflexivity. cbn [out done_widget done_clean].
    rewrite output_with_same. split; [reflexivity|].
    unfold _copy_to_clipboard. cbn [out]. rewrite output_with_same, strip_text_get.
    rewrite (extract_tag_content_trimmed_aux raw (task_tag t) clean Ex).
    apply truthy_true in Hne. now rewrite Hne.
  - injection Hw as _ <-. now cbn [done_clean] in Hne.
Qed.

Lemma copy_after_completion_witness :
  worker example_env example_net example_task
  = ([llm_request (lit "sk-or-1") (task_prompt example_task) (task_model example_task)],
     Some example_completion)
  /\ done_clean example_completion <> []
  /\ let b := on_done example_completion example_busy in
     output_of (task_widget example_task) (out b) = done_clean example_completion
     /\ clipboard (_copy_to_clipboard (task_widget example_task) (lit "Card") b)
        = output_of (task_widget example_task) (out b).
Proof.
  assert (H1 : worker example_env example_net example_task
               = ([llm_request (lit "sk-or-1") (task_prompt example_task)
                     (task_model example_task)], Some example_completion))
    by (vm_compute; reflexivity).
  assert (H2 : done_clean example_completion <> []) by (vm_compute; discriminate).
  split; [exact H1|]. split; [exact H2|].
  exact (copy_after_completion example_env example_net example_task _ example_completion
           (lit "Card") example_busy H1 H2).
Defined.

(** *** Start-up *)

Lemma str_ltb_irrefl (s : str) : str_ltb s s = false.
Proof.
  induction s as [|c s IH]; [reflexivity|]. cbn [str_ltb].
  now rewrite N.ltb_irrefl.
Qed.

Lemma str_ltb_trans (s t u : str) :
  str_ltb s t = true -> str_ltb t u = true -> str_ltb s u = true.
Proof.
  revert t u. induction s as [|c s IH]; intros [|d t] [|e u]; cbn [str_ltb];
    try congruence.
  destruct (N.ltb_spec (code c) (code d)), (N.ltb_spec (code d) (code c)),
           (N.ltb_spec (code d) (code e)), (N.ltb_spec (code e) (code d)),
           (N.ltb_spec (code c) (code e)), (N.ltb_spec (code e) (code c));
    try congruence; try lia.
  apply IH.
Qed.

Lemma least_key (k : str) (ks : list str) :
  let r := foldr (fun x m => if str_ltb x m then x else m) k ks in
  r ∈ k :: ks /\ forall x, x ∈ k :: ks -> str_ltb x r = false.
Proof.
  induction ks as [|y ks [IHin IHle]]; cbv zeta; cbn [foldr].
  - split; [left|]. intros x ->%list_elem_of_singleton. apply str_ltb_irrefl.
  - set (r := foldr _ k ks) in *.
    assert (Hsub : forall x, x ∈ k :: y :: ks <-> x = y \/ x ∈ k :: ks).
    { intros x. rewrite !elem_of_cons. tauto. }
    destruct (str_ltb y r) eqn:E.
    + split; [apply Hsub; now left|]. intros x [->|Hx]%Hsub; [apply str_ltb_irrefl|].
      destruct (str_ltb x y) eqn:Exy; [|reflexivity].
      rewrite <- (IHle x Hx). symmetry. now apply (str_ltb_trans x y r).
    + split; [apply Hsub; now right|]. intros x [->|Hx]%Hsub; [exact E | now apply IHle].
Qed.

Lemma first_card_type_least (m : gmap str str) :
  m <> ∅ ->
  is_Some (m !! first_card_type m)
  /\ forall k, is_Some (m !! k) -> str_ltb k (first_card_type m) = false.
Proof.
  intros Hne. unfold first_card_type.
  assert (Hin : forall k, k ∈ (map_to_list m).*1 <-> is_Some (m !! k)).
  { intros k. rewrite list_elem_of_fmap. split.
    - intros [[k' v] [-> H]]. apply elem_of_map_to_list in H. now exists v.
    - intros [v H]. exists (k, v). split; [reflexivity|]. now apply elem_of_map_to_list. }
  destruct ((map_to_list m).*1) as [|k ks] eqn:El.
  - apply fmap_nil_inv, map_to_list_empty_iff in El. contradiction.
  - destruct (least_key k ks) as [H1 H2]. split; [now apply Hin|].
    intros x Hx. apply H2. now apply Hin.
Qed.

Lemma selected_initial (wf : workflow) (c : config) (clipboard0 : str) :
  selected_type wf (initial c clipboard0) = first_card_type (templates c).
Proof. now destruct wf. Qed.

(** X20. The type a tab starts with.  When there is a template, every
    combobox starts on a type that has a template, and no type with a
    template comes before it in the order of the strings. *)
Theorem initial_selection_least (c : config) (clipboard0 : str) (wf : workflow) :
  templates c <> ∅ ->
  let first := selected_type wf (initial c clipboard0) in
  is_Some (templates c !! first)
  /\ forall k, is_Some (templates c !! k) -> str_ltb k first = false.
Proof.
  intros Hne. cbv zeta. rewrite selected_initial. now apply first_card_type_least.
Qed.

Lemma initial_selection_least_witness :
  templates example_loaded <> ∅
  /\ is_Some (templates example_loaded !! selected_type create (initial example_loaded []))
  /\ forall k, is_Some (templates example_loaded !! k) ->
               str_ltb k (selected_type create (initial example_loaded [])) = false.
Proof.
  assert (H : templates example_loaded <> ∅).
  { intros E. apply (f_equal (fun m : gmap str str => bool_decide (m = ∅))) in E.
    vm_compute in E. discriminate E. }
  split; [exact H|]. exact (initial_selection_least example_loaded [] create H).
Defined.

(** In [example_loaded] the types are [bug] and [chore]: the tabs start on
    [bug]. *)
Example initial_selection_of_two :
  selected_type create (initial example_loaded []) = lit "bug"
  /\ is_Some (templates example_loaded !! lit "chore")
  /\ str_ltb (lit "bug") (lit "chore") = true.
Proof. vm_compute. repeat split. now eexists. Qed.

Lemma is_set_default (v : option str) : is_set v = true -> default [] v <> [].
Proof. destruct v as [[|c s]|]; cbn; congruence. Qed.

Lemma is_set_Some (v : option str) : is_set v = true -> exists k, v = Some k /\ k <> [].
Proof. destruct v as [[|c s]|]; cbn; try discriminate. intros _. now eexists. Qed.

Lemma load_templates_from_Ok (path : str) (file : file_outcome) (m : gmap str str) :
  load_templates_from path file = Ok m ->
  exists text, file = FileText text /\ load_templates path (Some text) = Ok m.
Proof.
  destruct file as [text| |e]; cbn [load_templates_from load_templates].
  - intros H. now exists text.
  - discriminate.
  - destruct (exn_class_of e); discriminate.
Qed.

Lemma startup_Ok (s : settings) (w : world)
    (m : gmap str str) (vm cm am : str) :
  startup s w = Ok (m, (vm, cm, am)) ->
  dotenv w = None
  /\ is_set (py_or (OPENROUTER_API_KEY (keys s)) (API_KEY (keys s))) = true
  /\ load_templates_from TEMPLATES_FILE (files w TEMPLATES_FILE) = Ok m
  /\ py_or (LLM_MODEL_VALIDATION s) (MODELO_VALIDACAO_INFO s) = Some vm
  /\ py_or (LLM_MODEL_CREATION s) (MODELO_CRIACAO s) = Some cm
  /\ py_or (LLM_MODEL_ANALYSIS s) (MODELO_ANALISE s) = Some am
  /\ vm <> [] /\ cm <> [] /\ am <> [].
Proof.
  unfold startup. destruct (dotenv w) as [e0|]; [discriminate|].
  destruct (is_set (py_or (OPENROUTER_API_KEY (keys s)) (API_KEY (keys s)))) eqn:Ek;
    cbn [negb]; [|discriminate].
  destruct (is_set (py_or (LLM_MODEL_VALIDATION s) (MODELO_VALIDACAO_INFO s))) eqn:Ev;
    cbn [andb negb]; [|discriminate].
  destruct (is_set (py_or (LLM_MODEL_CREATION s) (MODELO_CRIACAO s))) eqn:Ec;
    cbn [andb negb]; [|discriminate].
  destruct (is_set (py_or (LLM_MODEL_ANALYSIS s) (MODELO_ANALISE s))) eqn:Ea;
    cbn [andb negb]; [|discriminate].
  destruct (load_templates_from TEMPLATES_FILE (files w TEMPLATES_FILE)) as [m'|e];
    cbn [bind_result]; [|discriminate].
  intros [= -> <- <- <-].
  destruct (py_or (LLM_MODEL_VALIDATION s) (MODELO_VALIDACAO_INFO s)) as [v|]; [|discriminate].
  destruct (py_or (LLM_MODEL_CREATION s) (MODELO_CRIACAO s)) as [c|]; [|discriminate].
  destruct (py_or (LLM_MODEL_ANALYSIS s) (MODELO_ANALISE s)) as [a|]; [|discriminate].
  cbn [default]. repeat split; try reflexivity.
  - now apply (is_set_default (Some v)).
  - now apply (is_set_default (Some c)).
  - now apply (is_set_default (Some a)).
Qed.

Lemma load_file_Ok (path : str) (file : file_outcome) (text : str) :
  load_file path file = Ok text -> file = FileText text.
Proof.
  destruct file as [t| |e]; cbn [load_file]; [congruence | discriminate |].
  destruct (exn_class_of e); discriminate.
Qed.

Lemma load_file_Raise (path : str) (file : file_outcome) (e : exn) :
  load_file path file = Raise e <-> load_file_raises path file e.
Proof.
  unfold load_file_raises. split.
  - destruct file as [t| |e0]; cbn [load_file]; [discriminate | |].
    + intros [= <-]. left. split; [now left | reflexivity].
    + destruct (exn_class_of e0) eqn:E; intros [= <-];
        try (right; split; [reflexivity | rewrite E; discriminate]).
      left. split; [right; now exists e0 | reflexivity].
  - intros [[[->|[e0 [-> E]]] ->]|[-> E]]; cbn [load_file].
    + reflexivity.
    + now rewrite E.
    + destruct (exn_class_of e); congruence.
Qed.

Lemma init_Ok (w : world) (m : gmap str str) (vm cm am clipboard0 : str)
    (a : CardPromptApp) :
  __init__ w m vm cm am clipboard0 = Ok a ->
  tk_root w = None /\ build_ui w = None
  /\ exists cp ap ip,
       files w CREATION_PROMPT_FILE = FileText cp
       /\ files w ANALISYS_PROMPT_FILE = FileText ap
       /\ files w INFO_VALIDATION_PROMPT_FILE = FileText ip
       /\ a = initial (Config m vm cm am cp ap ip) clipboard0.
Proof.
  unfold __init__. destruct (tk_root w); [discriminate|].
  destruct (load_file CREATION_PROMPT_FILE _) as [cp|] eqn:E1; cbn [bind_result];
    [|discriminate].
  destruct (load_file ANALISYS_PROMPT_FILE _) as [ap|] eqn:E2; cbn [bind_result];
    [|discriminate].
  destruct (load_file INFO_VALIDATION_PROMPT_FILE _) as [ip|] eqn:E3; cbn [bind_result];
    [|discriminate].
  destruct (build_ui w); [discriminate|]. intros [= <-].
  apply load_file_Ok in E1, E2, E3. split; [reflexivity|]. split; [reflexivity|].
  now exists cp, ap, ip.
Qed.

Lemma init_Raise (w : world) (m : gmap str str) (vm cm am clipboard0 : str) (e : exn) :
  __init__ w m vm cm am clipboard0 = Raise e <-> init_raises w e.
Proof.
  unfold __init__, init_raises.
  destruct (tk_root w) as [e0|].
  { split; [intros [= <-]; now left | intros [[= <-]|[? _]]; [reflexivity | discriminate]]. }
  rewrite <- !load_file_Raise.
  destruct (load_file CREATION_PROMPT_FILE _) as [cp|e1] eqn:E1; cbn [bind_result].
  2:{ split; [intros [= <-]; right; split; [reflexivity | now left]|].
      intros [?|[_ [[= <-]|[[cp Hcp] _]]]]; [discriminate | reflexivity |].
      rewrite Hcp in E1. discriminate. }
  apply load_file_Ok in E1.
  destruct (load_file ANALISYS_PROMPT_FILE _) as [ap|e2] eqn:E2; cbn [bind_result].
  2:{ split.
      - intros [= <-]. right. split; [reflexivity|]. right. split; [now exists cp | now left].
      - intros [?|[_ [?|[_ [[= <-]|[[ap Hap] _]]]]]]; try discriminate; [reflexivity|].
        rewrite Hap in E2. discriminate. }
  apply load_file_Ok in E2.
  destruct (load_file INFO_VALIDATION_PROMPT_FILE _) as [ip|e3] eqn:E3; cbn [bind_result].
  2:{ split.
      - intros [= <-]. right. split; [reflexivity|]. right. split; [now exists cp|].
        right. split; [now exists ap | now left].
      - intros [?|[_ [?|[_ [?|[_ [[= <-]|[[ip Hip] _]]]]]]]]; try discriminate; [reflexivity|].
        rewrite Hip in E3. discriminate. }
  apply load_file_Ok in E3.
  destruct (build_ui w) as [e4|].
  - split.
    + intros [= <-]. right. split; [reflexivity|]. right. split; [now exists cp|].
      right. split; [now exists ap|]. right. split; [now exists ip | reflexivity].
    + intros [?|[_ [?|[_ [?|[_ [?|[_ [= <-]]]]]]]]]; try discriminate. reflexivity.
  - split; [discriminate|].
    intros [?|[_ [?|[_ [?|[_ [?|[_ ?]]]]]]]]; discriminate.
Qed.

(** X21. When [main] opens the window, nothing outside failed
    ([load_dotenv], the Tk root, the widgets), and the application is in
    the state its constructor builds from the templates and the three
    prompt skeletons read from the resource files; the three models are
    not empty, each tab starts on a type that has a template, and a call
    to the LLM with the environment [main] saw always sends its request:
    the key is there. *)
Theorem main_window (s : settings) (w : world) (clipboard0 : str) (a : CardPromptApp) :
  main s w clipboard0 = Window a ->
  a = initial (cfg a) clipboard0
  /\ (exists text, files w TEMPLATES_FILE = FileText text
                   /\ load_templates TEMPLATES_FILE (Some text) = Ok (templates (cfg a)))
  /\ files w CREATION_PROMPT_FILE = FileText (creation_prompt (cfg a))
  /\ files w ANALISYS_PROMPT_FILE = FileText (analisys_prompt (cfg a))
  /\ files w INFO_VALIDATION_PROMPT_FILE = FileText (info_validation_prompt (cfg a))
  /\ validation_model (cfg a) <> [] /\ creation_model (cfg a) <> []
  /\ analisys_model (cfg a) <> []
  /\ (forall wf, strip (selected_type wf a) <> []
                 /\ is_Some (templates (cfg a) !! strip (selected_type wf a)))
  /\ (forall net prompt model_name, exists k,
        k <> []
        /\ fst (_call_llm (keys s) net prompt model_name) = [llm_request k prompt model_name])
  /\ dotenv w = None /\ tk_root w = None /\ build_ui w = None.
Proof.
  unfold main. destruct (startup s w) as [[m [[vm cm] am]]|e] eqn:Es.
  2:{ destruct (tk_root w); discriminate. }
  destruct (__init__ w m vm cm am clipboard0) as [a'|e] eqn:Ei; [|discriminate].
  intros [= ->].
  destruct (init_Ok _ _ _ _ _ _ _ Ei) as (Htk & Hui & cp & ap & ip & E1 & E2 & E3 & ->).
  destruct (startup_Ok s w m vm cm am Es) as (Hd & Hk & Hl & _ & _ & _ & Hv & Hc & Ha).
  destruct (load_templates_from_Ok _ _ _ Hl) as (text & Hf & Hl').
  cbn [cfg initial templates creation_prompt analisys_prompt info_validation_prompt
       validation_model creation_model analisys_model].
  split; [reflexivity|]. split; [now exists text|].
  repeat (split; [assumption|]).
  split; [|split; [|now repeat split]].
  - intros wf.
    change (selected_type wf (App _ _ _ _ _ _ _ _ _ _ _ _))
      with (selected_type wf (initial (Config m vm cm am cp ap ip) clipboard0)).
    rewrite selected_initial. cbn [templates].
    destruct (load_templates_store _ _ _ Hl') as [Hne Hkeys].
    destruct (first_card_type_least m Hne) as [[v Hv'] _].
    destruct (Hkeys _ _ Hv') as [Hw _].
    rewrite (strip_word_name _ Hw). split; [exact (proj1 Hw) | now exists v].
  - intros net prompt model_name. apply is_set_Some in Hk as (k & Hk & Hne).
    exists k. split; [exact Hne|]. now rewrite (call_llm_with_key _ _ _ _ k Hk Hne).
Qed.

Lemma main_window_witness :
  let a := initial example_loaded [] in
  main example_settings example_world [] = Window a
  /\ a = initial (cfg a) []
  /\ (exists text, files example_world TEMPLATES_FILE = FileText text
                   /\ load_templates TEMPLATES_FILE (Some text) = Ok (templates (cfg a)))
  /\ files example_world CREATION_PROMPT_FILE = FileText (creation_prompt (cfg a))
  /\ files example_world ANALISYS_PROMPT_FILE = FileText (analisys_prompt (cfg a))
  /\ files example_world INFO_VALIDATION_PROMPT_FILE
     = FileText (info_validation_prompt (cfg a))
  /\ validation_model (cfg a) <> [] /\ creation_model (cfg a) <> []
  /\ analisys_model (cfg a) <> []
  /\ (forall wf, strip (selected_type wf a) <> []
                 /\ is_Some (templates (cfg a) !! strip (selected_type wf a)))
  /\ (forall net prompt model_name, exists k,
        k <> []
        /\ fst (_call_llm (keys example_settings) net prompt model_name)
           = [llm_request k prompt model_name])
  /\ dotenv example_world = None /\ tk_root example_world = None
  /\ build_ui example_world = None.
Proof.
  intros a.
  assert (H : main example_settings example_world [] = Window a)
    by (vm_compute; reflexivity).
  split; [exact H|].
  exact (main_window example_settings example_world [] a H).
Defined.

(** X22. An exception leaves [main] in two ways only.  When no Tk root
    can be created, that exception leaves [main] whatever the
    configuration is, from the error box or from the constructor.
    Otherwise the try block passed (key, models and templates were
    accepted, so no box is shown) and the constructor raised: for the
    first prompt skeleton that cannot be loaded, the
    [FileNotFoundError] of [load_file] with its path when the file is
    not there and the exception of [open] or [read] as it is otherwise;
    or, with the three skeletons loaded, what building the widgets
    raised. *)
Theorem main_uncaught (s : settings) (w : world) (clipboard0 : str) (e : exn) :
  (tk_root w = Some e -> main s w clipboard0 = Uncaught e)
  /\ (main s w clipboard0 = Uncaught e <->
      tk_root w = Some e
      \/ (exists m models, startup s w = Ok (m, models)) /\ init_raises w e).
Proof.
  assert (A : main s w clipboard0 = Uncaught e <->
              tk_root w = Some e
              \/ (exists m models, startup s w = Ok (m, models)) /\ init_raises w e).
  { unfold main. destruct (startup s w) as [[m [[vm cm] am]]|e0] eqn:Es.
    - rewrite <- (init_Raise w m vm cm am clipboard0 e).
      destruct (__init__ w m vm cm am clipboard0) as [a|e1] eqn:Ei.
      + split; [discriminate|]. intros [H|[_ H]]; [|discriminate].
        apply init_Ok in Ei as [Htk _]. congruence.
      + split; [intros [= <-]; right; split; [now eexists _, _ | reflexivity]|].
        intros [H|[_ H]]; [|now injection H as ->].
        assert (Hr : init_raises w e) by now left.
        apply (init_Raise w m vm cm am clipboard0) in Hr. congruence.
    - destruct (tk_root w) as [e1|].
      + split; [intros [= <-]; now left|]. intros [[= <-]|[(m & models & H) _]];
          [reflexivity | discriminate].
      + split; [discriminate|]. intros [?|[(m & models & H) _]]; discriminate. }
  split; [|exact A]. intros H. apply A. now left.
Qed.

(** X23. The error box of [main].  It is shown exactly when the try
    block raised and a Tk root can be created, and it carries the message
    of the exception.  The try block raises, in this order: what
    [load_dotenv()] raised; without a key, the error about the key,
    whatever the models and the files are; with a key and a model
    missing, the error about the models, whatever the files are; with
    both, what [load_templates] raised: its own errors for a missing file
    and for a file without template, or the exception of [open] or
    [read]. *)
Theorem main_error_order (s : settings) (w : world) (clipboard0 : str) :
  let api_key := py_or (OPENROUTER_API_KEY (keys s)) (API_KEY (keys s)) in
  let models :=
    is_set (py_or (LLM_MODEL_VALIDATION s) (MODELO_VALIDACAO_INFO s))
    && is_set (py_or (LLM_MODEL_CREATION s) (MODELO_CRIACAO s))
    && is_set (py_or (LLM_MODEL_ANALYSIS s) (MODELO_ANALISE s)) in
  let box exc := StartupError (Dialog showerror (lit "Erro ao carregar arquivos") (exn_str exc)) in
  (forall d, main s w clipboard0 = StartupError d <->
             tk_root w = None /\ exists exc, startup s w = Raise exc /\ d = Dialog showerror (lit "Erro ao carregar arquivos") (exn_str exc))
  /\ (forall exc, startup s w = Raise exc <->
        dotenv w = Some exc
        \/ dotenv w = None /\
           (is_set api_key = false /\ exc = startup_missing_key
            \/ is_set api_key = true /\
               (models = false /\ exc = startup_missing_models
                \/ models = true
                   /\ load_templates_from TEMPLATES_FILE (files w TEMPLATES_FILE) = Raise exc)))
  /\ (forall exc, tk_root w = None -> startup s w = Raise exc -> main s w clipboard0 = box exc).
Proof.
  cbv zeta.
  assert (B : forall exc, startup s w = Raise exc -> tk_root w = None ->
                main s w clipboard0
                = StartupError (Dialog showerror (lit "Erro ao carregar arquivos") (exn_str exc))).
  { intros exc He Htk. unfold main. now rewrite He, Htk. }
  split; [|split].
  - intros d. split.
    + unfold main. destruct (startup s w) as [[m [[vm cm] am]]|e0] eqn:Es.
      * destruct (__init__ w m vm cm am clipboard0); discriminate.
      * destruct (tk_root w); [discriminate|]. intros [= <-]. split; [reflexivity|].
        now exists e0.
    + intros [Htk (exc & He & ->)]. now apply B.
  - intros exc. unfold startup. destruct (dotenv w) as [e0|].
    { split; [intros [= <-]; now left | intros [[= <-]|[? _]]; [reflexivity | discriminate]]. }
    destruct (is_set (py_or (OPENROUTER_API_KEY (keys s)) (API_KEY (keys s)))); cbn [negb].
    2:{ split; [intros [= <-]; right; split; [reflexivity|]; left; now split|].
        intros [?|[_ [[_ ->]|[? _]]]]; [discriminate | reflexivity | discriminate]. }
    destruct (is_set (py_or (LLM_MODEL_VALIDATION s) (MODELO_VALIDACAO_INFO s))
              && is_set (py_or (LLM_MODEL_CREATION s) (MODELO_CRIACAO s))
              && is_set (py_or (LLM_MODEL_ANALYSIS s) (MODELO_ANALISE s))); cbn [negb].
    2:{ split; [intros [= <-]; right; split; [reflexivity|]; right; split; [reflexivity|];
                left; now split|].
        intros [?|[_ [[? _]|[_ [[_ ->]|[? _]]]]]]; try discriminate. reflexivity. }
    destruct (load_templates_from TEMPLATES_FILE (files w TEMPLATES_FILE)) as [m|e1];
      cbn [bind_result].
    + split; [discriminate|].
      intros [?|[_ [[? _]|[_ [[? _]|[_ ?]]]]]]; discriminate.
    + split; [intros [= <-]; right; split; [reflexivity|]; right; split; [reflexivity|];
              right; now split|].
      intros [?|[_ [[? _]|[_ [[? _]|[_ [= <-]]]]]]]; try discriminate. reflexivity.
  - intros exc Htk He. now apply B.
Qed.

(** Three runs of [main].  The second prompt skeleton cannot be decoded:
    the [UnicodeDecodeError] leaves [main].  There is no display: the
    [TclError] leaves [main], here from the error box, the templates
    being missing.  The templates file cannot be opened: the error box
    shows the message of the [PermissionError]. *)
Example main_runs :
  main example_settings example_world_broken []
  = Uncaught (Exn (OtherException (lit "UnicodeDecodeError"))
                (lit "'utf-8' codec can't decode byte 0xff in position 0: invalid start byte"))
  /\ main example_settings example_world_no_display []
     = Uncaught (Exn (OtherException (lit "TclError"))
                   (lit "no display name and no $DISPLAY environment variable"))
  /\ main example_settings
       (World None
          (fun _ => FileRaises (Exn (OtherException (lit "PermissionError"))
                                  (lit "[Errno 13] Permission denied: 'resources/templates.txt'")))
          None None) []
     = StartupError
         (Dialog showerror (lit "Erro ao carregar arquivos")
            (lit "[Errno 13] Permission denied: 'resources/templates.txt'")).
Proof. vm_compute. repeat split. Qed.

(** *** The name of the project file *)

Lemma split_on_last (sep : ascii) (s : str) :
  exists pre,
    s = pre ++ last_item (split_on sep s)
    /\ Forall (fun c => c <> sep) (last_item (split_on sep s))
    /\ ((pre = [] /\ split_on sep s = [s])
        \/ (exists pre', pre = pre' ++ [sep]) /\ exists p q ps, split_on sep s = p :: q :: ps).
Proof.
  unfold last_item. induction s as [|c s (pre & Hs & Hf & Hc)]; cbn [split_on].
  - exists []. cbn. split; [reflexivity|]. split; [constructor|]. now left.
  - destruct (Ascii.eqb_spec c sep) as [->|Hne].
    + exists (sep :: pre).
      assert (El : last ([] :: split_on sep s) = last (split_on sep s)).
      { destruct Hc as [[_ ->]|[_ (p & q & ps & ->)]]; reflexivity. }
      rewrite El. split; [cbn [app]; now f_equal|]. split; [exact Hf|]. right. split.
      * destruct Hc as [[-> _]|[[pre' ->] _]]; [now exists [] | now exists (sep :: pre')].
      * destruct Hc as [[_ ->]|[_ (p & q & ps & ->)]]; eauto.
    + destruct Hc as [[-> E]|[[pre' ->] (p & q & ps & E)]]; rewrite E in *.
      * exists []. change (default [] (last [s])) with s in Hf.
        change (default [] (last [c :: s])) with (c :: s).
        split; [reflexivity|]. split; [constructor; [exact Hne | exact Hf]|]. now left.
      * exists (c :: pre' ++ [sep]).
        change (last ((c :: p) :: q :: ps)) with (last (q :: ps)).
        change (last (p :: q :: ps)) with (last (q :: ps)) in Hs, Hf.
        split; [cbn [app]; now f_equal|]. split; [exact Hf|]. right.
        split; [now exists (c :: pre') | eauto].
Qed.

(** X24. The name [load_additional_info] shows for the chosen file is
    the end of its path: the path is a directory part followed by the
    name, the name holds neither a slash nor a backslash, and the
    directory part is empty or ends with one of the two. *)
Theorem display_name_is_last_component (file_path : str) :
  exists dir,
    file_path = dir ++ display_name file_path
    /\ Forall (fun c => c <> "/"%char /\ c <> "\"%char) (display_name file_path)
    /\ (dir = [] \/ exists d c, dir = d ++ [c] /\ (c = "/"%char \/ c = "\"%char)).
Proof.
  unfold display_name.
  destruct (split_on_last "/" file_path) as (pre1 & H1 & F1 & C1).
  set (l1 := last_item (split_on "/" file_path)) in *.
  destruct (split_on_last "\" l1) as (pre2 & H2 & F2 & C2).
  set (l2 := last_item (split_on "\" l1)) in *.
  exists (pre1 ++ pre2). split; [rewrite <- app_assoc, <- H2; exact H1|]. split.
  - rewrite H2, Forall_app in F1. destruct F1 as [_ F1].
    rewrite Forall_forall in F1, F2. apply Forall_forall. intros c Hc. split; auto.
  - destruct C2 as [[-> _]|[[pre' ->] _]].
    + rewrite app_nil_r. destruct C1 as [[-> _]|[[pre' ->] _]]; [now left|].
      right. exists pre', "/"%char. auto.
    + right. exists (pre1 ++ pre'), "\"%char. rewrite app_assoc. auto.
Qed.

(** *** The timer *)

Lemma decimal_value_digits (n : N) : decimal_value (digits n) = Some n.
Proof.
  unfold decimal_value, digits.
  rewrite string_of_list_ascii_of_string, NilEmpty.usu. cbn [fmap option_fmap option_map].
  now rewrite Unsigned.of_to.
Qed.

Lemma decimal_value_zero (s : str) : decimal_value ("0"%char :: s) = decimal_value s.
Proof.
  unfold decimal_value. cbn [string_of_list_ascii NilEmpty.uint_of_string].
  now destruct (NilEmpty.uint_of_string (string_of_list_ascii s)).
Qed.

Lemma decimal_value_zeros (k : nat) (s : str) :
  decimal_value (repeat "0"%char k ++ s) = decimal_value s.
Proof. induction k as [|k IH]; [reflexivity|]. cbn [repeat app]. now rewrite decimal_value_zero. Qed.

Lemma decimal_value_minus (s : str) : decimal_value ("-"%char :: s) = None.
Proof.
  unfold decimal_value. cbn [string_of_list_ascii NilEmpty.uint_of_string].
  now destruct (NilEmpty.uint_of_string (string_of_list_ascii s)).
Qed.

Lemma digits_nonempty (n : N) : digits n <> [].
Proof.
  intros E. assert (H := decimal_value_digits n). rewrite E in H.
  assert (H0 := decimal_value_digits 0). 
  destruct n; [|]. 
  - vm_compute in E. discriminate.
  - vm_compute in H. congruence.
Qed.

Lemma format_02d_inj (n m : Z) : format_02d n = format_02d m -> n = m.
Proof.
  unfold format_02d. intros H.
  destruct (Z.ltb_spec n 0), (Z.ltb_spec m 0).
  - injection H as H. apply (f_equal decimal_value) in H.
    rewrite !decimal_value_zeros, !decimal_value_digits in H. injection H as H. lia.
  - apply (f_equal decimal_value) in H.
    rewrite decimal_value_minus, decimal_value_zeros, decimal_value_digits in H. discriminate.
  - apply (f_equal decimal_value) in H.
    rewrite decimal_value_minus, decimal_value_zeros, decimal_value_digits in H. discriminate.
  - apply (f_equal decimal_value) in H.
    rewrite !decimal_value_zeros, !decimal_value_digits in H. injection H as H. lia.
Qed.

Lemma format_02d_seconds (s : Z) :
  (0 <= s < 60)%Z -> exists s1 s2, format_02d s = [s1; s2].
Proof.
  intros Hs.
  assert (A : forallb (fun k => bool_decide (length (format_02d (Z.of_nat k)) = 2)) (seq 0 60)
              = true) by (vm_compute; reflexivity).
  rewrite forallb_forall in A. specialize (A (Z.to_nat s)).
  rewrite Z2Nat.id in A by lia.
  assert (L : length (format_02d s) = 2).
  { eapply bool_decide_eq_true_1. apply A, in_seq. lia. }
  destruct (format_02d s) as [|s1 [|s2 [|]]]; try discriminate. eauto.
Qed.

Lemma format_02d_width (n : Z) : 2 <= length (format_02d n).
Proof.
  unfold format_02d. destruct (n <? 0)%Z.
  - assert (H := digits_nonempty (Z.to_N (- n))).
    destruct (digits (Z.to_N (- n))); [congruence|].
    cbn [length]. rewrite length_app. cbn [length]. lia.
  - rewrite length_app, repeat_length. lia.
Qed.

Lemma digits_head (n : N) : n <> 0%N -> head (digits n) <> Some "0"%char.
Proof.
  intros Hn. unfold digits.
  assert (U : N.to_uint n = Decimal.unorm (N.to_uint n)).
  { rewrite <- Unsigned.to_of at 1. now rewrite Unsigned.of_to. }
  destruct (N.to_uint n) as [|d|d|d|d|d|d|d|d|d|d] eqn:E; cbn; try discriminate.
  exfalso. unfold Decimal.unorm in U. rewrite DecimalFacts.nzhead_D0 in U.
  destruct (Decimal.nzhead d) eqn:Ez.
  - injection U as ->. apply Hn. rewrite <- (Unsigned.of_to n), E. reflexivity.
  - symmetry in U. rewrite <- Ez in U. now apply DecimalFacts.nzhead_nonzero in U.
  - discriminate. - discriminate. - discriminate. - discriminate. - discriminate.
  - discriminate. - discriminate. - discriminate. - discriminate.
Qed.

Lemma format_02d_minutes (m : Z) :
  (0 <= m)%Z ->
  decimal_value (format_02d m) = Some (Z.to_N m)
  /\ (length (format_02d m) = 2 \/ head (format_02d m) <> Some "0"%char).
Proof.
  intros Hm. unfold format_02d. destruct (Z.ltb_spec m 0); [lia|].
  split; [now rewrite decimal_value_zeros, decimal_value_digits|].
  assert (Hd := digits_nonempty (Z.to_N m)).
  destruct (digits (Z.to_N m)) as [|c [|c' d]] eqn:E; [congruence | now left |].
  right. cbn [length Nat.sub repeat app]. rewrite <- E. apply digits_head.
  intros H0. rewrite H0 in E. vm_compute in E. discriminate.
Qed.

Lemma format_02d_negative (m : Z) :
  (m < 0)%Z ->
  exists d, format_02d m = "-"%char :: d
            /\ decimal_value d = Some (Z.to_N (- m))
            /\ head d <> Some "0"%char.
Proof.
  intros Hm. unfold format_02d. destruct (Z.ltb_spec m 0); [|lia].
  exists (digits (Z.to_N (- m))).
  assert (Hd := digits_nonempty (Z.to_N (- m))).
  split; [|split; [apply decimal_value_digits | apply digits_head; lia]].
  destruct (digits (Z.to_N (- m))); [congruence | reflexivity].
Qed.

(** X25. The timer.  The text [_update_timer] shows is "Tempo: ", the
    minutes, a colon and the seconds.  The seconds are the two digits of
    [elapsed mod 60].  The minutes are the decimal digits of
    [elapsed / 60], filled with a zero to two characters and otherwise
    without leading zero (after a minus sign when the clock was set back
    and [elapsed] is negative).  Two numbers of elapsed seconds are shown
    by the same text only when they are equal. *)
Theorem timer_text_shows_elapsed (elapsed : Z) :
  (exists mm s1 s2,
     timer_text elapsed = lit "Tempo: " ++ mm ++ [":"%char; s1; s2]
     /\ decimal_value [s1; s2] = Some (Z.to_N (elapsed mod 60))
     /\ 2 <= length mm
     /\ ((0 <= elapsed)%Z ->
         decimal_value mm = Some (Z.to_N (elapsed / 60))
         /\ (length mm = 2 \/ head mm <> Some "0"%char))
     /\ ((elapsed < 0)%Z ->
         exists d, mm = "-"%char :: d
                   /\ decimal_value d = Some (Z.to_N (- (elapsed / 60)))
                   /\ head d <> Some "0"%char))
  /\ forall elapsed', timer_text elapsed = timer_text elapsed' <-> elapsed = elapsed'.
Proof.
  assert (S : forall e : Z, exists s1 s2, format_02d (e mod 60) = [s1; s2]).
  { intros e. apply format_02d_seconds, Z.mod_pos_bound. lia. }
  split.
  - destruct (S elapsed) as (s1 & s2 & E). exists (format_02d (elapsed / 60)), s1, s2.
    unfold timer_text. cbv zeta. rewrite E. split; [reflexivity|].
    split.
    { rewrite <- E. unfold format_02d.
      assert (H := Z.mod_pos_bound elapsed 60 ltac:(lia)).
      destruct (Z.ltb_spec (elapsed mod 60) 0); [lia|].
      now rewrite decimal_value_zeros, decimal_value_digits. }
    split; [apply format_02d_width|]. split.
    + intros He. apply format_02d_minutes. apply Z.div_pos; lia.
    + intros He. apply format_02d_negative. apply Z.div_lt_upper_bound; lia.
  - intros elapsed'. split; [|now intros ->].
    unfold timer_text. cbv zeta. intros H. apply app_inv_head in H.
    destruct (S elapsed) as (s1 & s2 & E), (S elapsed') as (t1 & t2 & E').
    rewrite E, E' in H. apply app_inj_2 in H as [Hm Hs]; [|reflexivity].
    apply format_02d_inj in Hm. rewrite <- E, <- E' in Hs. injection Hs as Hs.
    apply format_02d_inj in Hs.
    rewrite (Z.div_mod elapsed 60), (Z.div_mod elapsed' 60) by lia. congruence.
Qed.

(** After 75, 6000 and -1 seconds. *)
Example timer_text_examples :
  timer_text 75 = lit "Tempo: 01:15"
  /\ timer_text 6000 = lit "Tempo: 100:00"
  /\ timer_text (-1) = lit "Tempo: -1:59".
Proof. vm_compute. repeat split. Qed.
